(** * Appliance lifecycle core of [utils/appliance/__init__.py]

    A shallow embedding of the appliance classes ([IPAppliance],
    [Appliance], [ApplianceStack]) and of the lifecycle operations the
    specification talks about.  Remote effects (SSH commands, HTTP probes,
    relational queries, sleeps, log lines) are threaded explicitly: every
    effect appends an event, together with the answer the remote side gave,
    to a trace, and the remote side is an oracle that answers from the trace
    so far. *)

From Stdlib Require Import ZArith String List Bool Lia.
From stdpp Require Import gmap strings list fin_maps pretty.

Local Open Scope Z_scope.

(** ** Python values the code passes around *)

(** Exceptions raised by the modelled code (Python class and message). *)
Inductive PyExc :=
| ApplianceException (msg : string)
| Exception (msg : string)
| AssertionError (msg : string)
| AttributeError (msg : string)
| KeyError (key : string)
| IndexError (msg : string)
| TypeError (msg : string)
| ValueError (msg : string)
| TimedOutError (msg : string).

(** [except Exception] catches every class above: all derive from
    [Exception]. *)
Definition is_KeyError (e : PyExc) : bool :=
  match e with KeyError _ => true | _ => false end.
Definition is_TypeError (e : PyExc) : bool :=
  match e with TypeError _ => true | _ => false end.

(** A value that may be any of the Python objects used as the [unsure]
    argument or returned where the code returns mixed types. *)
Inductive PyVal :=
| PyNone
| PyBool (b : bool)
| PyInt (z : Z)
| PyStr (s : string).

(** ** String helpers with Python's meaning *)

(** [needle in hay] on strings. *)
Fixpoint str_contains (needle hay : string) : bool :=
  String.prefix needle hay ||
  match hay with
  | EmptyString => false
  | String _ rest => str_contains needle rest
  end.

(** [s.startswith(p)] *)
Definition startswith (s p : string) : bool := String.prefix p s.

Definition is_space (c : Ascii.ascii) : bool :=
  let n := Ascii.nat_of_ascii c in
  ((9 <=? n) && (n <=? 13))%nat || (n =? 32)%nat.

Fixpoint lstrip (s : string) : string :=
  match s with
  | String c rest => if is_space c then lstrip rest else s
  | EmptyString => EmptyString
  end.

Fixpoint rstrip (s : string) : string :=
  match s with
  | EmptyString => EmptyString
  | String c rest =>
      match rstrip rest with
      | EmptyString => if is_space c then EmptyString else String c EmptyString
      | r => String c r
      end
  end.

(** [s.strip()] *)
Definition strip (s : string) : string := rstrip (lstrip s).

(** [sep.join(l)] *)
Definition join (sep : string) (l : list string) : string := String.concat sep l.

(** Truthiness of an optional string: [None] and [''] are falsy. *)
Definition truthy_str (o : option string) : bool :=
  match o with
  | Some s => negb (String.eqb s "")
  | None => false
  end.

(** [x or default] for an optional string. *)
Definition or_default (o : option string) (d : string) : string :=
  match o with
  | Some s => if String.eqb s "" then d else s
  | None => d
  end.

(** ** Appliance objects, identity and equality *)

(** The two appliance variants, and any other object.  [oid] is the
    object's identity (what [is] compares). *)
Inductive PyClass := ClsObject | ClsIPAppliance | ClsAppliance.

Record Instance := {
  oid : nat;
  cls : PyClass;
  inst_address : string;
  browser_steal : bool;
  _provider_key : string;
  vmname : string
}.

Definition PyClass_eqb (c d : PyClass) : bool :=
  match c, d with
  | ClsObject, ClsObject | ClsIPAppliance, ClsIPAppliance
  | ClsAppliance, ClsAppliance => true
  | _, _ => false
  end.

(** [issubclass(c, d)]: [Appliance(IPAppliance)], [IPAppliance(object)]. *)
Definition issubclass (c d : PyClass) : bool :=
  match d with
  | ClsObject => true
  | ClsIPAppliance =>
      match c with ClsIPAppliance | ClsAppliance => true | ClsObject => false end
  | ClsAppliance =>
      match c with ClsAppliance => true | _ => false end
  end.

Definition isinstance (o : Instance) (c : PyClass) : bool := issubclass (cls o) c.

(** [o1 is o2] *)
Definition py_is (o1 o2 : Instance) : bool := Nat.eqb (oid o1) (oid o2).

Module IPAppliance.
(** [return isinstance(other, IPAppliance) and self.address == other.address] *)
Definition __eq__ (self other : Instance) : bool :=
  isinstance other ClsIPAppliance &&
  String.eqb (inst_address self) (inst_address other).

Definition __ne__ (self other : Instance) : bool := negb (__eq__ self other).
End IPAppliance.

Module Appliance.
(** [return isinstance(other, type(self)) and (self.vmname == other.vmname
    and self._provider_key == other._provider_key)] *)
Definition __eq__ (self other : Instance) : bool :=
  isinstance other (cls self) &&
  (String.eqb (vmname self) (vmname other) &&
   String.eqb (_provider_key self) (_provider_key other)).

Definition __ne__ (self other : Instance) : bool := negb (__eq__ self other).
End Appliance.

(** Method resolution: the [__eq__] a class provides.  [object] has none
    (comparison then falls back to identity). *)
Definition lookup___eq__ (c : PyClass) : option (Instance -> Instance -> bool) :=
  match c with
  | ClsObject => None
  | ClsIPAppliance => Some IPAppliance.__eq__
  | ClsAppliance => Some Appliance.__eq__
  end.

(** The expression [v == w].  Python's rich comparison first tries the
    right operand's method when its class is a proper subclass of the left
    operand's class, then the left operand's method, then the right
    operand's, and finally compares identities.  None of the methods above
    returns [NotImplemented], so the first method found decides. *)
Definition py_eq (v w : Instance) : bool :=
  let first_right :=
    if negb (PyClass_eqb (cls v) (cls w)) && issubclass (cls w) (cls v)
    then lookup___eq__ (cls w) else None in
  match first_right with
  | Some f => f w v
  | None =>
      match lookup___eq__ (cls v) with
      | Some f => f v w
      | None =>
          match lookup___eq__ (cls w) with
          | Some f => f w v
          | None => py_is v w
          end
      end
  end.

(** ** A state-and-exception monad for the effectful code *)

Inductive Result (A : Type) : Type :=
| Ok (a : A)
| Raise (e : PyExc).
Arguments Ok {A} a.
Arguments Raise {A} e.

Definition M (S A : Type) : Type := S -> Result A * S.

Definition ret {S A} (a : A) : M S A := fun s => (Ok a, s).

Definition bind {S A B} (m : M S A) (k : A -> M S B) : M S B :=
  fun s =>
    match m s with
    | (Ok a, s') => k a s'
    | (Raise e, s') => (Raise e, s')
    end.

Definition raise {S A} (e : PyExc) : M S A := fun s => (Raise e, s).

(** [try: m  except <classes accepted by catches>: handler] *)
Definition try_except {S A} (m : M S A) (catches : PyExc -> bool)
    (handler : PyExc -> M S A) : M S A :=
  fun s =>
    match m s with
    | (Ok a, s') => (Ok a, s')
    | (Raise e, s') => if catches e then handler e s' else (Raise e, s')
    end.

(** [try: m  finally: fin]: [fin] always runs; an exception of [fin]
    replaces the pending one. *)
Definition try_finally {S A} (m : M S A) (fin : M S unit) : M S A :=
  fun s =>
    match m s with
    | (r, s') =>
        match fin s' with
        | (Ok _, s'') => (r, s'')
        | (Raise e, s'') => (Raise e, s'')
        end
    end.

Definition gets {S A} (f : S -> A) : M S A := fun s => (Ok (f s), s).
Definition modify {S} (f : S -> S) : M S unit := fun s => (Ok tt, f s).

Notation "'let!' x ':=' m 'in' k" := (bind m (fun x => k))
  (at level 10, x pattern, m at level 100, k at level 200).
Notation "m ';;' k" := (bind m (fun _ => k))
  (at level 100, k at level 200, right associativity).

(** [a and b] on booleans computed by effectful operands: [b] is evaluated
    only when [a] is truthy. *)
Definition py_and {S} (a b : M S bool) : M S bool :=
  let! x := a in if x then b else ret x.

(** [a or b] *)
Definition py_or {S} (a b : M S bool) : M S bool :=
  let! x := a in if x then ret x else b.

(** A [for] loop threading an accumulator. *)
Fixpoint for_each {S A B} (l : list A) (acc : B) (body : B -> A -> M S B) : M S B :=
  match l with
  | [] => ret acc
  | x :: rest => let! acc' := body acc x in for_each rest acc' body
  end.

(** ** The appliance stack *)

Module ApplianceStack.

Inductive StackEvent :=
| LogInfo (msg : string)
| LogException (msg : string)
| BrowserStart
| Capture.

(** [items] is the list held by werkzeug's [LocalStack], in the same
    order: [push] appends, so the top is the last element.  The empty
    list stands both for a released local and for one that never held a
    stack: [LocalStack] treats the two alike. *)
Record State := {
  items : list Instance;
  events : list StackEvent
}.

Definition emit (e : StackEvent) : M State unit :=
  modify (fun s => {| items := items s; events := events s ++ [e] |}).

(** [LocalStack.top]: the last element, [None] on an empty stack. *)
Definition top : M State (option Instance) := gets (fun s => last (items s)).

(** [LocalStack.push]: [rv.append(obj)] *)
Definition LocalStack_push (obj : Instance) : M State unit :=
  modify (fun s => {| items := items s ++ [obj]; events := events s |}).

(** [LocalStack.pop]: [None] when there is no stack, otherwise the last
    element, which is removed (the local is released when it was the only
    one). *)
Definition LocalStack_pop : M State (option Instance) :=
  fun s =>
    match last (items s) with
    | None => (Ok None, s)
    | Some x => (Ok (Some x), {| items := removelast (items s); events := events s |})
    end.

(** [getattr(o, 'address', 'empty')] *)
Definition address_or_empty (o : option Instance) : string :=
  match o with
  | Some i => inst_address i
  | None => "empty"
  end.

Definition push (obj : Instance) : M State unit :=
  let! was_before := top in
  LocalStack_push obj;;
  emit (LogInfo ("Pushed appliance " +:+ inst_address obj +:+
                 " on stack (was " +:+ address_or_empty was_before +:+ " before) "));;
  if browser_steal obj then emit BrowserStart else ret tt.

Definition pop : M State Instance :=
  let! was_before := LocalStack_pop in
  let! current := top in
  match was_before with
  | None => raise (AttributeError "'NoneType' object has no attribute 'address'")
  | Some was =>
      emit (LogInfo ("Popped appliance " +:+ inst_address was +:+
                     " from the stack (now there is " +:+
                     address_or_empty current +:+ ")"));;
      (if browser_steal was then emit BrowserStart else ret tt);;
      ret was
  end.

(** [IPAppliance.__enter__] *)
Definition __enter__ (self : Instance) : M State Instance :=
  push self;; ret self.

(** [IPAppliance._screenshot_capture_at_context_leave]: it talks to
    pytest, the artifactor and the browser, none of which is part of
    this module; [capture] is what that attempt did (returned, or raised
    the given exception). *)
Definition _screenshot_capture_at_context_leave (capture : option PyExc)
    : M State unit :=
  emit Capture;;
  match capture with
  | None => ret tt
  | Some e => raise e
  end.

(** [IPAppliance.__exit__]:
    [assert stack.pop() is self, 'appliance stack inconsistent'] runs in
    the [finally] clause. *)
Definition __exit__ (self : Instance) (capture : option PyExc) : M State unit :=
  try_finally
    (try_except (_screenshot_capture_at_context_leave capture)
       (fun _ => true)
       (fun _ => emit (LogException "taking a screenshot failed")))
    (let! popped := pop in
     if py_is popped self then ret tt
     else raise (AssertionError "appliance stack inconsistent")).

End ApplianceStack.

(** ** The remote side and the appliance object *)

(** [utils.ssh.SSHResult]: exit status and captured output. *)
Record CommandResult := { rc : Z; output : string }.

(** What [requests.get(url, timeout=15, verify=False)] did. *)
Inductive HttpOutcome :=
| HttpStatus (code : Z)
| HttpTimeout
| HttpInvalidURL (msg : string)
| HttpFailed (msg : string).

(** A parsed YAML document. *)
#[warnings="-register-all"]
Inductive Yaml :=
| YNull
| YBool (b : bool)
| YInt (z : Z)
| YStr (s : string)
| YMap (kvs : list (string * Yaml)).

(** An SSH client object: the host it talks to, and how it was opened. *)
Record SshClient := {
  client_hostname : string;
  client_is_pod : bool;
  client_private_key : bool
}.

(** A [utils.db.Db] object: the host it was made for and its identity. *)
Record DbHandle := { db_hostname : string; db_oid : nat }.

(** Rows of the tables the code reads. *)
Record ServerRole := { sr_id : Z; sr_name : string }.
Record AssignedServerRole := {
  asr_server_role_id : Z;
  asr_miq_server_id : Z;
  asr_active : bool
}.
Record MiqServer := {
  srv_id : Z;
  srv_name : string;
  srv_ipaddress : string;
  srv_guid : string;
  srv_zone_id : Z
}.
Record MiqRegion := { reg_region : Z }.

(** The relational store of one database host; a missing table is [None]
    ([db['name']] then raises [KeyError]). *)
Record Database := {
  server_roles_table : option (list ServerRole);
  assigned_server_roles_table : option (list AssignedServerRole);
  miq_servers_table : option (list MiqServer);
  miq_regions_table : option (list MiqRegion)
}.

(** What a file sent with [put_file] holds. *)
Inductive FileContent :=
| LocalFile (path : string)
| YamlDump (doc : Yaml)
| Template (name : string) (replacements : list (string * string)).

(** Everything the code does to the outside, with the answer it got. *)
Inductive Event :=
| EvNetCheck (host : string) (up : bool)
| EvConnect (client : SshClient) (active : bool)
| EvRun (host cmd : string) (res : CommandResult)
| EvRails (host cmd : string) (res : CommandResult)
| EvPutFile (host : string) (content : FileContent) (remote : string)
| EvGetFile (host remote local : string)
| EvHttpGet (target : string) (res : HttpOutcome)
| EvSleep (secs : Z)
| EvLog (level msg : string)
| EvRandom (s : string)
| EvDbNew (h : DbHandle)
| EvDbTable (host table : string) (found : bool)
| EvDbQuery (host table : string).

(** The outside world: each answer may depend on everything that happened
    before.  The last fields are the local configuration ([conf.credentials],
    [conf.cfme_data]) and PyYAML's parser. *)
Record Env := {
  net_check_answer : list Event -> string -> bool;
  transport_active : list Event -> SshClient -> bool;
  run_answer : list Event -> string -> string -> CommandResult;
  rails_answer : list Event -> string -> string -> CommandResult;
  http_answer : list Event -> string -> HttpOutcome;
  random_answer : list Event -> string;
  database : list Event -> string -> Database;
  yaml_load : string -> option Yaml;
  cred_database_username : string;
  cred_database_password : string;
  cred_ssh_password : string;
  clock_servers : list string
}.

(** [configuration_details]: [None], or the 4-tuple, which is either all
    [None] or (region, server name, server id, zone id). *)
Definition ConfigurationDetails : Type := option (option (Z * string * Z * Z)).

(** The attributes of one appliance object ([self]).  [address], [hostname]
    and [url] are the values of the attributes of these names; a field
    [c_x] is the slot of the [cached_property] [x] in the instance
    dictionary ([None]: not computed, or cleared). *)
Record App := {
  address : string;
  hostname : string;
  url : string;
  db_host : option string;
  openshift_creds : option string;
  is_pod : bool;
  _db_ssh_client : option SshClient;
  c_ssh_client : option SshClient;
  c_db_address : option string;
  c_db : option DbHandle;
  c_get_host_address : option Yaml;
  c_guid : option string;
  c_evm_id : option Z;
  c_is_storage_enabled : option bool;
  c_configuration_details : option ConfigurationDetails;
  c_zone_description : option (option string)
}.

Definition set_is_pod (v : bool) (a : App) : App :=
  {| address := address a; hostname := hostname a; url := url a; db_host := db_host a;
     openshift_creds := openshift_creds a; is_pod := v; _db_ssh_client := _db_ssh_client
     a; c_ssh_client := c_ssh_client a; c_db_address := c_db_address a; c_db := c_db a;
     c_get_host_address := c_get_host_address a; c_guid := c_guid a; c_evm_id :=
     c_evm_id a; c_is_storage_enabled := c_is_storage_enabled a; c_configuration_details
     := c_configuration_details a; c_zone_description := c_zone_description a |}.
Definition set__db_ssh_client (v : option SshClient) (a : App) : App :=
  {| address := address a; hostname := hostname a; url := url a; db_host := db_host a;
     openshift_creds := openshift_creds a; is_pod := is_pod a; _db_ssh_client := v;
     c_ssh_client := c_ssh_client a; c_db_address := c_db_address a; c_db := c_db a;
     c_get_host_address := c_get_host_address a; c_guid := c_guid a; c_evm_id :=
     c_evm_id a; c_is_storage_enabled := c_is_storage_enabled a; c_configuration_details
     := c_configuration_details a; c_zone_description := c_zone_description a |}.
Definition set_c_ssh_client (v : option SshClient) (a : App) : App :=
  {| address := address a; hostname := hostname a; url := url a; db_host := db_host a;
     openshift_creds := openshift_creds a; is_pod := is_pod a; _db_ssh_client :=
     _db_ssh_client a; c_ssh_client := v; c_db_address := c_db_address a; c_db := c_db
     a; c_get_host_address := c_get_host_address a; c_guid := c_guid a; c_evm_id :=
     c_evm_id a; c_is_storage_enabled := c_is_storage_enabled a; c_configuration_details
     := c_configuration_details a; c_zone_description := c_zone_description a |}.
Definition set_c_db_address (v : option string) (a : App) : App :=
  {| address := address a; hostname := hostname a; url := url a; db_host := db_host a;
     openshift_creds := openshift_creds a; is_pod := is_pod a; _db_ssh_client :=
     _db_ssh_client a; c_ssh_client := c_ssh_client a; c_db_address := v; c_db := c_db
     a; c_get_host_address := c_get_host_address a; c_guid := c_guid a; c_evm_id :=
     c_evm_id a; c_is_storage_enabled := c_is_storage_enabled a; c_configuration_details
     := c_configuration_details a; c_zone_description := c_zone_description a |}.
Definition set_c_db (v : option DbHandle) (a : App) : App :=
  {| address := address a; hostname := hostname a; url := url a; db_host := db_host a;
     openshift_creds := openshift_creds a; is_pod := is_pod a; _db_ssh_client :=
     _db_ssh_client a; c_ssh_client := c_ssh_client a; c_db_address := c_db_address a;
     c_db := v; c_get_host_address := c_get_host_address a; c_guid := c_guid a; c_evm_id
     := c_evm_id a; c_is_storage_enabled := c_is_storage_enabled a;
     c_configuration_details := c_configuration_details a; c_zone_description :=
     c_zone_description a |}.
Definition set_c_get_host_address (v : option Yaml) (a : App) : App :=
  {| address := address a; hostname := hostname a; url := url a; db_host := db_host a;
     openshift_creds := openshift_creds a; is_pod := is_pod a; _db_ssh_client :=
     _db_ssh_client a; c_ssh_client := c_ssh_client a; c_db_address := c_db_address a;
     c_db := c_db a; c_get_host_address := v; c_guid := c_guid a; c_evm_id := c_evm_id
     a; c_is_storage_enabled := c_is_storage_enabled a; c_configuration_details :=
     c_configuration_details a; c_zone_description := c_zone_description a |}.
Definition set_c_guid (v : option string) (a : App) : App :=
  {| address := address a; hostname := hostname a; url := url a; db_host := db_host a;
     openshift_creds := openshift_creds a; is_pod := is_pod a; _db_ssh_client :=
     _db_ssh_client a; c_ssh_client := c_ssh_client a; c_db_address := c_db_address a;
     c_db := c_db a; c_get_host_address := c_get_host_address a; c_guid := v; c_evm_id
     := c_evm_id a; c_is_storage_enabled := c_is_storage_enabled a;
     c_configuration_details := c_configuration_details a; c_zone_description :=
     c_zone_description a |}.
Definition set_c_evm_id (v : option Z) (a : App) : App :=
  {| address := address a; hostname := hostname a; url := url a; db_host := db_host a;
     openshift_creds := openshift_creds a; is_pod := is_pod a; _db_ssh_client :=
     _db_ssh_client a; c_ssh_client := c_ssh_client a; c_db_address := c_db_address a;
     c_db := c_db a; c_get_host_address := c_get_host_address a; c_guid := c_guid a;
     c_evm_id := v; c_is_storage_enabled := c_is_storage_enabled a;
     c_configuration_details := c_configuration_details a; c_zone_description :=
     c_zone_description a |}.
Definition set_c_is_storage_enabled (v : option bool) (a : App) : App :=
  {| address := address a; hostname := hostname a; url := url a; db_host := db_host a;
     openshift_creds := openshift_creds a; is_pod := is_pod a; _db_ssh_client :=
     _db_ssh_client a; c_ssh_client := c_ssh_client a; c_db_address := c_db_address a;
     c_db := c_db a; c_get_host_address := c_get_host_address a; c_guid := c_guid a;
     c_evm_id := c_evm_id a; c_is_storage_enabled := v; c_configuration_details :=
     c_configuration_details a; c_zone_description := c_zone_description a |}.
Definition set_c_configuration_details (v : option ConfigurationDetails) (a : App) : App :=
  {| address := address a; hostname := hostname a; url := url a; db_host := db_host a;
     openshift_creds := openshift_creds a; is_pod := is_pod a; _db_ssh_client :=
     _db_ssh_client a; c_ssh_client := c_ssh_client a; c_db_address := c_db_address a;
     c_db := c_db a; c_get_host_address := c_get_host_address a; c_guid := c_guid a;
     c_evm_id := c_evm_id a; c_is_storage_enabled := c_is_storage_enabled a;
     c_configuration_details := v; c_zone_description := c_zone_description a |}.
Definition set_c_zone_description (v : option (option string)) (a : App) : App :=
  {| address := address a; hostname := hostname a; url := url a; db_host := db_host a;
     openshift_creds := openshift_creds a; is_pod := is_pod a; _db_ssh_client :=
     _db_ssh_client a; c_ssh_client := c_ssh_client a; c_db_address := c_db_address a;
     c_db := c_db a; c_get_host_address := c_get_host_address a; c_guid := c_guid a;
     c_evm_id := c_evm_id a; c_is_storage_enabled := c_is_storage_enabled a;
     c_configuration_details := c_configuration_details a; c_zone_description := v |}.

Record World := {
  env : Env;
  trace : list Event;
  next_oid : nat;
  appliance : App
}.

Definition set_trace (t : list Event) (w : World) : World :=
  {| env := env w; trace := t; next_oid := next_oid w; appliance := appliance w |}.
Definition set_app (a : App) (w : World) : World :=
  {| env := env w; trace := trace w; next_oid := next_oid w; appliance := a |}.
Definition set_next_oid (n : nat) (w : World) : World :=
  {| env := env w; trace := trace w; next_oid := n; appliance := appliance w |}.

Abbreviation Act := (M World).

Definition emit (e : Event) : Act unit :=
  modify (fun w => set_trace (trace w ++ [e]) w).

(** Ask the outside for an answer at the current point of the trace. *)
Definition ask {A} (f : Env -> list Event -> A) : Act A :=
  gets (fun w => f (env w) (trace w)).

(** [self.x] for a plain attribute, and [self.x = v]. *)
Definition self {A} (f : App -> A) : Act A := gets (fun w => f (appliance w)).
Definition setattr (f : App -> App) : Act unit :=
  modify (fun w => set_app (f (appliance w)) w).

(** [@cached_property]: the value is computed on first access and stored in
    the instance dictionary; later accesses return the stored value. *)
Definition cached_property {A} (slot : App -> option A)
    (store : option A -> App -> App) (compute : Act A) : Act A :=
  let! c := self slot in
  match c with
  | Some v => ret v
  | None => let! v := compute in setattr (store (Some v));; ret v
  end.

(** Log lines ([logger], [self.log], and the [log_callback] that
    [logger_wrap] supplies, which prefixes the message). *)
Definition log (level msg : string) : Act unit := emit (EvLog level msg).
Definition log_callback (prefix msg : string) : Act unit :=
  emit (EvLog "info" (prefix +:+ msg)).

Definition sleep (secs : Z) : Act unit := emit (EvSleep secs).

(** [net_check(ports.SSH, host, force=True)] *)
Definition net_check (host : string) : Act bool :=
  let! up := ask (fun e t => net_check_answer e t host) in
  emit (EvNetCheck host up);; ret up.

(** [client.run_command(cmd)] *)
Definition run_command (client : SshClient) (cmd : string) : Act CommandResult :=
  let! r := ask (fun e t => run_answer e t (client_hostname client) cmd) in
  emit (EvRun (client_hostname client) cmd r);; ret r.

(** [client.run_rails_command(cmd)] *)
Definition run_rails_command (client : SshClient) (cmd : string) : Act CommandResult :=
  let! r := ask (fun e t => rails_answer e t (client_hostname client) cmd) in
  emit (EvRails (client_hostname client) cmd r);; ret r.

Definition put_file (client : SshClient) (content : FileContent) (remote : string)
    : Act unit :=
  emit (EvPutFile (client_hostname client) content remote).

Definition get_file (client : SshClient) (remote local : string) : Act unit :=
  emit (EvGetFile (client_hostname client) remote local).

(** [client(hostname=h)]: a client like [client] for another host. *)
Definition client_for (client : SshClient) (h : string) : SshClient :=
  {| client_hostname := h;
     client_is_pod := client_is_pod client;
     client_private_key := client_private_key client |}.

(** [fauxfactory.gen_alphanumeric()] *)
Definition gen_alphanumeric : Act string :=
  let! s := ask random_answer in
  emit (EvRandom s);; ret s.

(** [requests.get(self.url, timeout=15, verify=False)] *)
Definition requests_get (target : string) : Act HttpOutcome :=
  let! r := ask (fun e t => http_answer e t target) in
  emit (EvHttpGet target r);; ret r.

Definition nl : string := String (Ascii.ascii_of_nat 10) EmptyString.
Definition dq : string := String (Ascii.ascii_of_nat 34) EmptyString.

(** ** Dictionaries parsed from YAML *)

Fixpoint assoc {V} (k : string) (kvs : list (string * V)) : option V :=
  match kvs with
  | [] => None
  | (k', v) :: rest => if String.eqb k k' then Some v else assoc k rest
  end.

Fixpoint assoc_set {V} (k : string) (v : V) (kvs : list (string * V))
    : list (string * V) :=
  match kvs with
  | [] => [(k, v)]
  | (k', v') :: rest =>
      if String.eqb k k' then (k, v) :: rest else (k', v') :: assoc_set k v rest
  end.

(** [bool(y)] *)
Definition yaml_truthy (y : Yaml) : bool :=
  match y with
  | YNull => false
  | YBool b => b
  | YInt z => negb (z =? 0)
  | YStr s => negb (String.eqb s "")
  | YMap kvs => match kvs with [] => false | _ => true end
  end.

(** [d.get(k, default)] *)
Definition yaml_get (d : Yaml) (k : string) (default : Yaml) : Act Yaml :=
  match d with
  | YMap kvs => ret (match assoc k kvs with Some v => v | None => default end)
  | _ => raise (AttributeError "object has no attribute 'get'")
  end.

(** [d[k]] *)
Definition yaml_getitem (d : Yaml) (k : string) : Act Yaml :=
  match d with
  | YMap kvs =>
      match assoc k kvs with
      | Some v => ret v
      | None => raise (KeyError k)
      end
  | _ => raise (TypeError "object is not subscriptable")
  end.

(** [k in d] *)
Definition yaml_contains (k : string) (d : Yaml) : Act bool :=
  match d with
  | YMap kvs => ret (match assoc k kvs with Some _ => true | None => false end)
  | YStr s => ret (str_contains k s)
  | _ => raise (TypeError "argument is not iterable")
  end.

(** [d[k1][k2] = v]; the document with the nested entry replaced. *)
Definition yaml_setitem2 (d : Yaml) (k1 k2 : string) (v : Yaml) : Act Yaml :=
  let! inner := yaml_getitem d k1 in
  match d, inner with
  | YMap kvs, YMap inner_kvs =>
      ret (YMap (assoc_set k1 (YMap (assoc_set k2 v inner_kvs)) kvs))
  | _, _ => raise (TypeError "object does not support item assignment")
  end.

(** ** Polling *)

(** Modelled from the spec: [utils.wait.wait_for] is not part of this
    module.  The predicate is evaluated, and the call returns its value as
    soon as [accept] holds of it; otherwise the loop sleeps for [delay]
    seconds and tries again, and fails with a timeout error once the
    cumulative elapsed time exceeds [num_sec].  Exceptions of the predicate
    propagate. *)
Fixpoint wait_for_loop {A} (tries : nat) (func : Act A) (accept : A -> bool)
    (delay : Z) (message : string) : Act A :=
  match tries with
  | O => raise (TimedOutError message)
  | S n =>
      let! v := func in
      if accept v then ret v
      else (sleep delay;; wait_for_loop n func accept delay message)
  end.

Definition wait_for {A} (func : Act A) (accept : A -> bool) (delay num_sec : Z)
    (message : string) : Act A :=
  wait_for_loop (S (Z.to_nat (num_sec / delay))) func accept delay message.

(** ** SSH clients *)

(** [is_ssh_running] *)
Definition is_ssh_running : Act bool :=
  let! h := self hostname in net_check h.

(** [ssh.SSHClient] applied to the connection arguments, followed by
    [ssh_client.get_transport().is_active()], which raises when the
    default credentials were refused. *)
Definition SSHClient_connect (c : SshClient) : Act bool :=
  let! ok := ask (fun e t => transport_active e t c) in
  emit (EvConnect c ok);; ret ok.

(** [ssh_client_with_privatekey] *)
Definition ssh_client_with_privatekey : Act SshClient :=
  let! h := self hostname in
  ret {| client_hostname := h; client_is_pod := false; client_private_key := true |}.

(** [ssh_client] (cached) *)
Definition ssh_client : Act SshClient :=
  cached_property c_ssh_client set_c_ssh_client
    (let! up := is_ssh_running in
     if negb up then raise (Exception "SSH is unavailable") else
     let! creds := self openshift_creds in
     let! client :=
       match creds with
       | Some oc_host =>
           setattr (set_is_pod true);;
           ret {| client_hostname := oc_host; client_is_pod := true;
                  client_private_key := false |}
       | None =>
           let! h := self hostname in
           ret {| client_hostname := h; client_is_pod := false;
                  client_private_key := false |}
       end in
     let! active := SSHClient_connect client in
     if active then
       (log "info" "default appliance ssh credentials are valid";; ret client)
     else
       (log "error" "default appliance ssh credentials failed, trying establish ssh connection using ssh private key";;
        ssh_client_with_privatekey)).

(** [has_cli] *)
Definition has_cli : Act bool :=
  let! client := ssh_client in
  let! r := run_command client "ls -l /bin/appliance_console_cli" in
  ret (rc r =? 0).

(** ** The YAML configuration *)

Definition yaml_dump_command : string :=
  dq +:+ "File.open('/tmp/yam_dump.yaml', 'w') {|f| f.write(Settings.to_hash.deep_stringify_keys.to_yaml) }" +:+ dq.
Definition yaml_cat_command : string := "cat /tmp/yam_dump.yaml".

(** [get_yaml_config] *)
Definition get_yaml_config : Act Yaml :=
  let! client := ssh_client in
  let! writeout := run_rails_command client yaml_dump_command in
  if negb (rc writeout =? 0) then
    (log "error" "Config couldn't be found";;
     log "error" (output writeout);;
     raise (Exception "Error obtaining config"))
  else
  let! client := ssh_client in
  let! base_data := run_command client yaml_cat_command in
  if negb (rc base_data =? 0) then
    (log "error" "Config couldn't be found";;
     log "error" (output base_data);;
     raise (Exception "Error obtaining config"))
  else
  let! load := ask (fun e _ => yaml_load e (output base_data)) in
  match load with
  | Some doc => ret doc
  | None => log "debug" (output base_data);; raise (Exception "YAMLError")
  end.

(** [server_details_changed]:
    [clear_property_cache(self, 'configuration_details', 'zone_description')] *)
Definition server_details_changed : Act unit :=
  setattr (set_c_configuration_details None);;
  setattr (set_c_zone_description None).

(** [set_yaml_config].  [if result:] is read as "the command succeeded"
    (exit status 0), as the spec has it: a successful write invalidates the
    caches derived from the configuration. *)
Definition set_yaml_config (data_dict : Yaml) : Act unit :=
  let dest_yaml := "/tmp/conf.yaml" in
  let! client := ssh_client in
  put_file client (YamlDump data_dict) dest_yaml;;
  let dest_ruby := "/tmp/set_conf.rb" in
  let! client := ssh_client in
  put_file client (Template "cfmedb_set_config.rbt" [("config_file", dest_yaml)]) dest_ruby;;
  let! client := ssh_client in
  let! result := run_rails_command client dest_ruby in
  if rc result =? 0 then server_details_changed
  else raise (Exception ("Unable to set config: " +:+ pretty (rc result) +:+ ":'" +:+
                         output result +:+ "'")).

(** [is_storage_enabled] (cached) *)
Definition is_storage_enabled : Act bool :=
  cached_property c_is_storage_enabled set_c_is_storage_enabled
    (let! cfg := get_yaml_config in
     let! product := yaml_get cfg "product" (YMap []) in
     yaml_contains "storage" product).

(** ** The database address and handle *)

(** [get_host_address] (cached); [YNull] is Python's [None]. *)
Definition get_host_address : Act Yaml :=
  cached_property c_get_host_address set_c_get_host_address
    (try_except
       (let! cfg := get_yaml_config in
        let! server := yaml_get cfg "server" YNull in
        if yaml_truthy server then yaml_get server "host" YNull else ret YNull)
       (fun _ => true)
       (fun _ =>
          log "exception" "get_host_address";;
          log "error" "Exception occured while fetching host address";;
          ret YNull)).

(** [wait_for_host_address] *)
Definition wait_for_host_address : Act Yaml :=
  try_except
    (wait_for get_host_address
       (fun v => match v with YNull => false | _ => true end) 5 120 "";;
     get_host_address)
    (fun _ => true)
    (fun _ =>
       log "exception" "wait_for_host_address";;
       log "error" "waiting for host address from yaml_config timedout";;
       ret YNull).

(** The part of [db_address] after the [db_host] test. *)
Definition db_address_from_appliance : Act string :=
  try_except
    (let! db := wait_for_host_address in
     match db with
     | YNull => self address
     | YStr s =>
         let db := strip s in
         let! client := ssh_client in
         let! ip_addr := run_command client "ip address show" in
         if str_contains db (output ip_addr) || startswith db "127"
            || str_contains "localhost" db
         then self address
         else ret db
     | _ => raise (AttributeError "object has no attribute 'strip'")
     end)
    is_KeyError
    (fun _ =>
       log "error" "Unable to pull database address from appliance";;
       log "exception" "db_address";;
       self address).

(** [db_address] (cached) *)
Definition db_address : Act string :=
  cached_property c_db_address set_c_db_address
    (let! dh := self db_host in
     match dh with
     | Some h => if truthy_str dh then ret h else db_address_from_appliance
     | None => db_address_from_appliance
     end).

(** [db.Db(hostname)]: a new handle object. *)
Definition Db (host : string) : Act DbHandle :=
  let! n := gets next_oid in
  let h := {| db_hostname := host; db_oid := n |} in
  modify (set_next_oid (Datatypes.S n));;
  emit (EvDbNew h);; ret h.

(** [db] (cached) *)
Definition db : Act DbHandle :=
  cached_property c_db set_c_db (let! a := db_address in Db a).

(** [clear_property_cache(self, 'db')]: the slot of [db] is emptied. *)
Definition clear_property_cache_db : Act unit := setattr (set_c_db None).

(** [is_db_internal] *)
Definition is_db_internal : Act bool :=
  let! d := db_address in
  let! a := self address in
  ret (String.eqb d a).

(** [db_ssh_client] (not cached) *)
Definition db_ssh_client : Act SshClient :=
  let! internal := is_db_internal in
  if internal then ssh_client
  else
    let! existing := self _db_ssh_client in
    match existing with
    | Some c => ret c
    | None =>
        let! client := ssh_client in
        let! d := db_address in
        setattr (set__db_ssh_client (Some (client_for client d)));;
        ret (client_for client d)
    end.

(** ** Database readiness *)

Definition db_online_command : string :=
  "psql -U postgres -t  -c " +:+ dq +:+ "select now()" +:+ dq +:+ " postgres".
Definition db_has_database_command : string :=
  "psql -U postgres -t  -c " +:+ dq +:+
  "SELECT datname FROM pg_database WHERE datname LIKE 'vmdb_%';" +:+ dq +:+
  " postgres | grep -q vmdb_production".
Definition db_has_tables_command : string :=
  "psql -U postgres -t  -c " +:+ dq +:+
  "SELECT * FROM information_schema.tables WHERE table_schema = 'public';" +:+ dq +:+
  " vmdb_production | grep -q vmdb_production".

(** [db_online] *)
Definition db_online : Act bool :=
  let! client := db_ssh_client in
  let! result := run_command client db_online_command in
  ret (rc result =? 0).

(** [db_has_database] *)
Definition db_has_database : Act bool :=
  let! client := db_ssh_client in
  let! result := run_command client db_has_database_command in
  ret (rc result =? 0).

(** [db_has_tables] *)
Definition db_has_tables : Act bool :=
  let! client := db_ssh_client in
  let! result := run_command client db_has_tables_command in
  ret (rc result =? 0).

(** [is_db_ready]:
    [return self.db_online and self.db_has_database and self.db_has_tables] *)
Definition is_db_ready : Act bool :=
  py_and (py_and db_online db_has_database) db_has_tables.

(** ** The web UI probe *)

(** [_check_appliance_ui_wait_fn] *)
Definition _check_appliance_ui_wait_fn : Act bool :=
  let! target := self url in
  let! response := requests_get target in
  match response with
  | HttpStatus code =>
      if code =? 200 then (log "info" "Appliance online";; ret true)
      else (log "debug" ("Appliance online, status code " +:+ pretty code);;
            ret false)
  | HttpTimeout =>
      log "debug" "Appliance offline, connection timed out";; ret false
  | HttpInvalidURL msg => raise (ValueError msg)
  | HttpFailed msg =>
      log "debug" ("Appliance online, but connection failed: " +:+ msg);;
      ret false
  end.

(** [range(n)] *)
Definition range (n : nat) : list nat := seq 0 n.

(** The body of the loop of [is_web_ui_running]: one probe, counted when it
    succeeded, then [sleep(3)]. *)
Definition probe_round (was_running_count : nat) : Act nat :=
  let! up := _check_appliance_ui_wait_fn in
  let count' := if up then Datatypes.S was_running_count else was_running_count in
  sleep 3;; ret count'.

(** [is_web_ui_running(unsure=False)] *)
Definition is_web_ui_running (unsure : PyVal) : Act PyVal :=
  let num_of_tries := 3%nat in
  let! was_running_count :=
    for_each (range num_of_tries) 0%nat (fun count try_num => probe_round count) in
  if Nat.eqb was_running_count 0 then ret (PyBool false)
  else if Nat.eqb was_running_count num_of_tries then ret (PyBool true)
  else ret unsure.

(** ** Clock fixing *)

Definition chrony_conf : string := "/etc/chrony.conf".

(** The configuration the code prepares: the three base lines and one
    [server ... iburst] line for each configured clock server. *)
Definition chrony_config_file (servers : list string) : string :=
  join nl (["driftfile /var/lib/chrony/drift"; "makestep 10 10"; "rtcsync"] ++
           map (fun srv => "server " +:+ srv +:+ " iburst") servers).

Definition chrony_restart_command : string := "systemctl restart chronyd".
Definition chrony_status_command : string := "systemctl status chronyd".
Definition chrony_tracking_command : string := "chronyc tracking".
Definition chrony_cat_command : string := "cat " +:+ chrony_conf.

(** [fix_ntp_clock] *)
Definition fix_ntp_clock : Act unit :=
  log_callback "Fix NTP Clock: " "Fixing appliance clock";;
  let! client := ssh_client in
  let! installed := run_command client "yum list installed chrony" in
  if negb (rc installed =? 0) then raise (ApplianceException "Chrony isn't installed")
  else
  let! enabled := run_command client "systemctl is-enabled chronyd" in
  (if negb (rc enabled =? 0) then
     log "debug" "chrony will start on system startup";;
     run_command client "systemctl enable chronyd";;
     run_command client "systemctl daemon-reload";;
     ret tt
   else ret tt);;
  log "debug" "obtaining clock servers from config file";;
  let! servers := ask (fun e _ => clock_servers e) in
  let config_file := chrony_config_file servers in
  let! old_conf_file := run_command client chrony_cat_command in
  let! conf_file_updated :=
    if negb (String.eqb config_file (output old_conf_file)) then
      log "debug" "chrony's config file isn't equal to prepared one, overwriting it";;
      run_command client
        ("echo " +:+ dq +:+ config_file +:+ dq +:+ " > " +:+ chrony_conf);;
      ret true
    else ret false in
  let! restart :=
    py_or (ret conf_file_updated)
      (let! status := run_command client chrony_status_command in
       ret (negb (rc status =? 0))) in
  (if restart then
     log "debug" "restarting chronyd";;
     run_command client chrony_restart_command;;
     ret tt
   else ret tt);;
  let! result := run_command client chrony_tracking_command in
  if rc result =? 0 then log "info" "chronyc is running correctly"
  else raise (ApplianceException
                ("chrony doesn't work. Error message: " +:+ output result)).

(** ** Enabling the database *)

(** [enable_internal_db] *)
Definition enable_internal_db (region : Z) (key_address db_password ssh_password
    : option string) : Act (Z * string) :=
  let! addr := self address in
  log_callback "Enable internal DB: "
    ("Enabling internal DB (region " +:+ pretty region +:+ ") on " +:+ addr +:+ ".");;
  setattr (set_c_db_address (Some addr));;
  clear_property_cache_db;;
  let! client := ssh_client in
  let! default_db_password := ask (fun e _ => cred_database_password e) in
  let db_password := or_default db_password default_db_password in
  let! default_ssh_password := ask (fun e _ => cred_ssh_password e) in
  let ssh_password := or_default ssh_password default_ssh_password in
  let! cli := has_cli in
  let! res :=
    if cli then
      if truthy_str key_address then
        run_command client
          ("appliance_console_cli --region " +:+ pretty region +:+
           " --internal --fetch-key " +:+ or_default key_address "" +:+
           " -p " +:+ db_password +:+ " -a " +:+ ssh_password)
      else
        run_command client
          ("appliance_console_cli --region " +:+ pretty region +:+
           " --internal --force-key -p " +:+ db_password)
    else
      let rbt_repl := [("miq_lib", "/var/www/miq/lib"); ("region", pretty region);
                       ("postgres_version", "rh-postgresql95")] in
      let! name := gen_alphanumeric in
      let remote_file := "/tmp/" +:+ name in
      put_file client (Template "enable-internal-db.rbt" rbt_repl) remote_file;;
      let! res := run_command client ("ruby " +:+ remote_file) in
      run_command client ("rm " +:+ remote_file);;
      ret res in
  ret (rc res, output res).

(** The message of the exception [enable_external_db] raises. *)
Definition enable_external_db_failure (addr db_addr : string) : string :=
  "Appliance " +:+ addr +:+ " failed to enable external DB running on " +:+ db_addr.

(** [enable_external_db] *)
Definition enable_external_db (db_addr : string) (region : Z)
    (db_name db_username db_password : option string) : Act (Z * string) :=
  let! addr := self address in
  log_callback "Enable external DB: "
    ("Enabling external DB (db_address " +:+ db_addr +:+ ", region " +:+
     pretty region +:+ ") on " +:+ addr +:+ ".");;
  setattr (set_c_db_address (Some db_addr));;
  clear_property_cache_db;;
  let db_name := or_default db_name "vmdb_production" in
  let! default_username := ask (fun e _ => cred_database_username e) in
  let db_username := or_default db_username default_username in
  let! default_password := ask (fun e _ => cred_database_password e) in
  let db_password := or_default db_password default_password in
  let! client := ssh_client in
  let! cli := has_cli in
  let! res :=
    if cli then
      let! master := db_address in
      let master_client := client_for client master in
      let! name := gen_alphanumeric in
      let rand_filename := "/tmp/v2_key_" +:+ name in
      get_file master_client "/var/www/miq/vmdb/certs/v2_key" rand_filename;;
      put_file client (LocalFile rand_filename) "/var/www/miq/vmdb/certs/v2_key";;
      let! host := db_address in
      run_command client
        ("appliance_console_cli --hostname " +:+ host +:+ " --region " +:+
         pretty region +:+ " --dbname " +:+ db_name +:+ " --username " +:+
         db_username +:+ " --password " +:+ db_password)
    else
      let! host := db_address in
      let rbt_repl := [("miq_lib", "/var/www/miq/lib"); ("host", host);
                       ("region", pretty region); ("database", db_name);
                       ("username", db_username); ("password", db_password)] in
      let! name := gen_alphanumeric in
      let remote_file := "/tmp/" +:+ name in
      put_file client (Template "enable-internal-db.rbt" rbt_repl) remote_file;;
      let! res := run_command client ("ruby " +:+ remote_file) in
      run_command client ("rm " +:+ remote_file);;
      ret res in
  if negb (rc res =? 0) then
    log "error" "error enabling external db";;
    log "error" (output res);;
    let! addr := self address in
    let msg := enable_external_db_failure addr db_addr in
    log_callback "Enable external DB: " msg;;
    raise (ApplianceException msg)
  else ret (rc res, output res).

(** ** Reading the relational store *)

(** [self.db[name]]: the table must exist at the database's host. *)
Definition db_getitem {R} (h : DbHandle) (name : string)
    (table : Database -> option (list R)) : Act unit :=
  let! store := ask (fun e t => database e t (db_hostname h)) in
  match table store with
  | Some _ => emit (EvDbTable (db_hostname h) name true)
  | None => emit (EvDbTable (db_hostname h) name false);; raise (KeyError name)
  end.

(** [self.db.session.query(table)] run to completion: the rows the table
    holds when the query is executed. *)
Definition db_snapshot (h : DbHandle) (name : string) : Act Database :=
  let! store := ask (fun e t => database e t (db_hostname h)) in
  emit (EvDbQuery (db_hostname h) name);;
  ret store.

Definition db_query {R} (h : DbHandle) (name : string)
    (table : Database -> option (list R)) : Act (list R) :=
  let! store := db_snapshot h name in
  ret (default [] (table store)).

(** [guid] (cached) *)
Definition guid : Act string :=
  cached_property c_guid set_c_guid
    (let! client := ssh_client in
     let! result := run_command client "cat /var/www/miq/vmdb/GUID" in
     ret (output result)).

(** [evm_id] (cached) *)
Definition evm_id : Act Z :=
  cached_property c_evm_id set_c_evm_id
    (let! d := db in
     db_getitem d "miq_servers" miq_servers_table;;
     let! d := db in
     let! g := guid in
     let! rows := db_query d "miq_servers" miq_servers_table in
     match List.filter (fun s => String.eqb (srv_guid s) g) rows with
     | s :: _ => ret (srv_id s)
     | [] => raise (IndexError "list index out of range")
     end).

(** ** Server roles *)

(** The names selected by the join of [server_roles] with
    [assigned_server_roles] on the role id, restricted to this server and to
    active assignments. *)
Definition active_role_names (srs : list ServerRole) (asrs : list AssignedServerRole)
    (server : Z) : list string :=
  flat_map
    (fun sr =>
       map (fun _ => sr_name sr)
         (List.filter
            (fun a => (asr_server_role_id a =? sr_id sr) &&
                      (asr_miq_server_id a =? server) && asr_active a)
            asrs))
    srs.

(** [{role_name: role_name in active_roles for role_name in all_role_names}] *)
Definition roles_dict (all_role_names active_roles : gset string) : gmap string bool :=
  set_to_map (fun name => (name, bool_decide (name ∈ active_roles))) all_role_names.

(** One round of the first loop of the getter: the keys to delete that
    [key] contributes when storage is not enabled. *)
Definition storage_dead_keys (key : string) : list string :=
  (if startswith key "storage" then [key] else []) ++
  (if String.eqb key "vmdb_storage_bridge" then [key] else []).

(** The second loop: [del roles[key]], a missing key being ignored. *)
Definition delete_keys (dead_keys : list string) (roles : gmap string bool)
    : gmap string bool :=
  foldl (fun m key => delete key m) roles dead_keys.

(** The first part of the [server_roles] getter, up to
    [roles = {role_name: role_name in active_roles ...}]: every role name of
    the store, mapped to whether it is active on this server. *)
Definition all_server_roles : Act (gmap string bool) :=
  let! d := db in
  db_getitem d "assigned_server_roles" assigned_server_roles_table;;
  let! d := db in
  db_getitem d "server_roles" server_roles_table;;
  let! d := db in
  let! srs := db_query d "server_roles" server_roles_table in
  let all_role_names : gset string := list_to_set (map sr_name srs) in
  let! d := db in
  let! server := evm_id in
  let! store := db_snapshot d "server_roles JOIN assigned_server_roles" in
  let active_roles : gset string :=
    list_to_set
      (active_role_names (default [] (server_roles_table store))
         (default [] (assigned_server_roles_table store)) server) in
  ret (roles_dict all_role_names active_roles).

(** The body of the first loop of the getter: [is_storage_enabled] is read
    for each key, and the key is marked dead when storage is not enabled and
    the key is a storage key. *)
Definition dead_keys_step (dead_keys : list string) (key : string)
    : Act (list string) :=
  let! storage := is_storage_enabled in
  if negb storage then ret (dead_keys ++ storage_dead_keys key) else ret dead_keys.

(** The first loop of the getter, over the keys of [roles]. *)
Definition collect_dead_keys (roles : gmap string bool) : Act (list string) :=
  for_each (map fst (map_to_list roles)) ["database_owner"; "vdi_inventory"]
    dead_keys_step.

(** [server_roles] (getter) *)
Definition server_roles : Act (gmap string bool) :=
  let! roles := all_server_roles in
  let! dead_keys := collect_dead_keys roles in
  ret (delete_keys dead_keys roles).

(** [','.join([role for role, boolean in roles.iteritems() if boolean])] *)
Definition enabled_roles_string (roles : gmap string bool) : string :=
  join "," (map fst (List.filter (fun kv => snd kv) (map_to_list roles))).

(** [server_roles] (setter) *)
Definition set_server_roles (roles : gmap string bool) : Act unit :=
  let! current := server_roles in
  if bool_decide (current = roles) then
    log "debug" " Roles already match, returning..."
  else
    let! yaml := get_yaml_config in
    let! yaml' := yaml_setitem2 yaml "server" "role" (YStr (enabled_roles_string roles)) in
    set_yaml_config yaml';;
    wait_for (let! current := server_roles in ret (bool_decide (current = roles)))
      (fun ok => ok) 15 300 "";;
    ret tt.

(** ** Server identity *)

(** [SEQ_FACT = 1e12] *)
Definition SEQ_FACT : Z := 10 ^ 12.

(** The filter applied when the store holds several servers. *)
Definition server_filter (reg_min reg_max : Z) (server : MiqServer) : Act bool :=
  let! d := db in
  let! same_host :=
    py_or (ret (String.eqb (srv_ipaddress server) (db_hostname d)))
      (let! g := guid in ret (String.eqb (srv_guid server) g)) in
  ret ((srv_id server >=? reg_min) && (srv_id server <? reg_max) && same_host).

(** [filter(f, l)] with an effectful [f] *)
Fixpoint filterM {S A} (f : A -> M S bool) (l : list A) : M S (list A) :=
  match l with
  | [] => ret []
  | x :: rest =>
      let! keep := f x in
      let! rest' := filterM f rest in
      ret (if keep then x :: rest' else rest')
  end.

(** [configuration_details] (cached) *)
Definition configuration_details : Act ConfigurationDetails :=
  cached_property c_configuration_details set_c_configuration_details
    (try_except
       (let! d := db in
        db_getitem d "miq_servers" miq_servers_table;;
        let! d := db in
        let! d' := db in
        db_getitem d' "miq_regions" miq_regions_table;;
        let! regions := db_query d "miq_regions" miq_regions_table in
        match regions with
        | [] => ret None
        | region :: _ =>
            let reg_min := reg_region region * SEQ_FACT in
            let reg_max := reg_min + SEQ_FACT in
            let! d := db in
            let! all_servers := db_query d "miq_servers" miq_servers_table in
            let! server :=
              if Nat.eqb (length all_servers) 1 then ret (head all_servers)
              else
                let! servers := filterM (server_filter reg_min reg_max) all_servers in
                ret (head servers) in
            match server with
            | Some s =>
                ret (Some (Some (reg_region region, srv_name s, srv_id s, srv_zone_id s)))
            | None => ret (Some None)
            end
        end)
       is_KeyError
       (fun _ => ret None)).

(** [configuration_details[i]]: [TypeError] on [None]. *)
Definition details_item {A} (details : ConfigurationDetails)
    (item : Z * string * Z * Z -> A) : Act (option A) :=
  match details with
  | None => raise (TypeError "'NoneType' object has no attribute '__getitem__'")
  | Some None => ret None
  | Some (Some t) => ret (Some (item t))
  end.

(** [server_id] *)
Definition server_id : Act (option Z) :=
  try_except
    (let! details := configuration_details in
     details_item details (fun '(_, _, id, _) => id))
    is_TypeError (fun _ => ret None).

(** [server_region] *)
Definition server_region : Act (option Z) :=
  try_except
    (let! details := configuration_details in
     details_item details (fun '(region, _, _, _) => region))
    is_TypeError (fun _ => ret None).

(** [server_name] *)
Definition server_name : Act (option string) :=
  try_except
    (let! details := configuration_details in
     details_item details (fun '(_, name, _, _) => name))
    is_TypeError (fun _ => ret None).

(** * Concrete inputs

    Small concrete objects and worlds on which the operations are run. *)

(** An address-only appliance and a provider-backed one at the same
    address. *)
Definition bare_appliance : Instance :=
  {| oid := 1; cls := ClsIPAppliance; inst_address := "10.0.0.1";
     browser_steal := false; _provider_key := ""; vmname := "" |}.
Definition backed_appliance : Instance :=
  {| oid := 2; cls := ClsAppliance; inst_address := "10.0.0.1";
     browser_steal := false; _provider_key := "rhevm"; vmname := "cfme-vm" |}.


(** ** Reading a trace *)

(** The outcomes of the HTTP probes of a trace, in order. *)
Definition http_outcomes (t : list Event) : list HttpOutcome :=
  flat_map (fun e => match e with EvHttpGet _ o => [o] | _ => [] end) t.

(** The sleeps of a trace, in order. *)
Definition sleeps (t : list Event) : list Z :=
  flat_map (fun e => match e with EvSleep n => [n] | _ => [] end) t.

(** A probe succeeds when the answer has status 200. *)
Definition probe_succeeded (o : HttpOutcome) : bool :=
  match o with
  | HttpStatus code => code =? 200
  | _ => false
  end.

(** What three probes add up to: true when all succeeded, false when none
    did, and the caller's [unsure] value otherwise. *)
Definition triple_sample_verdict (unsure : PyVal) (o1 o2 o3 : HttpOutcome) : PyVal :=
  if probe_succeeded o1 && probe_succeeded o2 && probe_succeeded o3 then PyBool true
  else if negb (probe_succeeded o1) && negb (probe_succeeded o2) &&
          negb (probe_succeeded o3)
  then PyBool false
  else unsure.

(** The commands run over SSH in a trace, with their results. *)
Definition commands_run (t : list Event) : list (string * CommandResult) :=
  flat_map (fun e => match e with EvRun _ cmd r => [(cmd, r)] | _ => [] end) t.

(** Whether a command was run in a trace. *)
Definition was_run (cmd : string) (t : list Event) : bool :=
  existsb (fun cr => String.eqb (fst cr) cmd) (commands_run t).


(** Events other than a run of one of the given commands. *)
Definition not_running (cmds : list string) (e : Event) : bool :=
  match e with
  | EvRun _ cmd _ => negb (existsb (String.eqb cmd) cmds)
  | _ => true
  end.


(** ** Scripted worlds *)

Definition succeeded : CommandResult := {| rc := 0; output := "" |}.
Definition failed (out : string) : CommandResult := {| rc := 1; output := out |}.

(** An environment whose SSH port is open and whose answers are scripted:
    [run] answers the commands by their text, [http] answers the probes
    from the trace so far, [store] is the relational store and [config] the
    parsed YAML configuration. *)
Definition scripted_env (run : string -> CommandResult)
    (http : list Event -> HttpOutcome) (store : Database) (config : Yaml) : Env :=
  {| net_check_answer := fun _ _ => true;
     transport_active := fun _ _ => true;
     run_answer := fun _ _ cmd => run cmd;
     rails_answer := fun _ _ _ => succeeded;
     http_answer := fun t _ => http t;
     random_answer := fun _ => "x7Gq";
     database := fun _ _ => store;
     yaml_load := fun _ => Some config;
     cred_database_username := "root";
     cred_database_password := "smartvm";
     cred_ssh_password := "secret";
     clock_servers := ["clock.example.com"] |}.

Definition empty_store : Database :=
  {| server_roles_table := Some [];
     assigned_server_roles_table := Some [];
     miq_servers_table := Some [];
     miq_regions_table := Some [] |}.

Definition plain_config : Yaml :=
  YMap [("server", YMap [("role", YStr "")]); ("product", YMap [])].

(** A freshly constructed [IPAppliance('10.0.0.1')]: nothing cached. *)
Definition fresh_appliance : App :=
  {| address := "10.0.0.1"; hostname := "10.0.0.1"; url := "https://10.0.0.1/";
     db_host := None; openshift_creds := None; is_pod := false;
     _db_ssh_client := None; c_ssh_client := None; c_db_address := None;
     c_db := None; c_get_host_address := None; c_guid := None; c_evm_id := None;
     c_is_storage_enabled := None; c_configuration_details := None;
     c_zone_description := None |}.

Definition world_of (e : Env) (a : App) : World :=
  {| env := e; trace := []; next_oid := 0; appliance := a |}.

(** Every command succeeds and every probe answers 200. *)
Definition all_up (cmd : string) : CommandResult := succeeded.
Definition always_200 (t : list Event) : HttpOutcome := HttpStatus 200.

(** The database server does not answer [select now()]. *)
Definition db_down (cmd : string) : CommandResult :=
  if String.eqb cmd db_online_command then failed "psql: could not connect to server"
  else succeeded.
Definition db_down_world : World :=
  world_of (scripted_env db_down always_200 empty_store plain_config) fresh_appliance.

(** The first probe answers 200, the later ones time out. *)
Definition flapping (t : list Event) : HttpOutcome :=
  match http_outcomes t with
  | [] => HttpStatus 200
  | _ => HttpTimeout
  end.
Definition flapping_world : World :=
  world_of (scripted_env all_up flapping empty_store plain_config) fresh_appliance.


(** Whether a command was run in a trace with a result accepted by [p]. *)
Definition ran_with (cmd : string) (p : CommandResult -> bool) (t : list Event) : bool :=
  existsb (fun cr => String.eqb (fst cr) cmd && p (snd cr)) (commands_run t).


(** The configuration file is already the prepared one, but [chronyd] is
    not running. *)
Definition chronyd_stopped (cmd : string) : CommandResult :=
  if String.eqb cmd chrony_cat_command then
    {| rc := 0; output := chrony_config_file ["clock.example.com"] |}
  else if String.eqb cmd chrony_status_command then
    {| rc := 3; output := "inactive" |}
  else succeeded.
Definition chronyd_stopped_world : World :=
  world_of (scripted_env chronyd_stopped always_200 empty_store plain_config)
    fresh_appliance.
Definition chronyd_stopped_trace : list Event :=
  trace (snd (fix_ntp_clock chronyd_stopped_world)).


(** The command that enables the external database: the CLI call, or the
    generated Ruby script. *)
Fixpoint begins_with (p s : string) : bool :=
  match p with
  | EmptyString => true
  | String a p' =>
      match s with
      | EmptyString => false
      | String b s' => Ascii.eqb a b && begins_with p' s'
      end
  end.

Definition is_enable_db_command (cmd : string) : bool :=
  begins_with "appliance_console_cli --hostname " cmd || begins_with "ruby " cmd.

(** The outputs of the commands selected by [sel] that ended with a
    non-zero status. *)
Definition failed_outputs (sel : string -> bool) (cmds : list (string * CommandResult))
    : list string :=
  flat_map
    (fun cr => if sel (fst cr) && negb (rc (snd cr) =? 0) then [output (snd cr)] else [])
    cmds.

(** The log lines of a trace. *)
Definition log_lines (t : list Event) : list (string * string) :=
  flat_map (fun e => match e with EvLog level msg => [(level, msg)] | _ => [] end) t.

(** The appliance has the CLI, and the external database refuses the
    credentials. *)
Definition external_db_refuses (cmd : string) : CommandResult :=
  if is_enable_db_command cmd then failed "FATAL: password authentication failed"
  else succeeded.
Definition external_db_refuses_world : World :=
  world_of (scripted_env external_db_refuses always_200 empty_store plain_config)
    fresh_appliance.

(** An appliance that holds a database handle made earlier for its own
    address. *)
Definition appliance_with_db : App :=
  set_c_db (Some {| db_hostname := "10.0.0.1"; db_oid := 0 |})
    (set_c_db_address (Some "10.0.0.1") fresh_appliance).
Definition world_with_db : World :=
  {| env := scripted_env all_up always_200 empty_store plain_config;
     trace := [EvDbNew {| db_hostname := "10.0.0.1"; db_oid := 0 |}];
     next_oid := 1;
     appliance := appliance_with_db |}.


(** The command that sets up the internal database: the CLI call, or the
    generated Ruby script. *)
Definition is_internal_db_command (cmd : string) : bool :=
  begins_with "appliance_console_cli --region " cmd || begins_with "ruby " cmd.


(** The keys hidden from the mapping the getter returns: two keys always,
    and, when storage is not enabled, the keys that start with [storage] and
    the key [vmdb_storage_bridge]. *)
Definition suppressed_role (storage_enabled : bool) (key : string) : bool :=
  String.eqb key "database_owner" || String.eqb key "vdi_inventory" ||
  (negb storage_enabled &&
   (startswith key "storage" || String.eqb key "vmdb_storage_bridge")).


(** A store with four roles, of which [ems_inventory] and [database_owner]
    are active on server 7, the only server of region 0. *)
Definition roles_store : Database :=
  {| server_roles_table :=
       Some [ {| sr_id := 1; sr_name := "ems_inventory" |};
              {| sr_id := 2; sr_name := "storage_inventory" |};
              {| sr_id := 3; sr_name := "vmdb_storage_bridge" |};
              {| sr_id := 4; sr_name := "database_owner" |};
              {| sr_id := 5; sr_name := "smartstate" |} ];
     assigned_server_roles_table :=
       Some [ {| asr_server_role_id := 1; asr_miq_server_id := 7; asr_active := true |};
              {| asr_server_role_id := 4; asr_miq_server_id := 7; asr_active := true |};
              {| asr_server_role_id := 5; asr_miq_server_id := 7; asr_active := false |};
              {| asr_server_role_id := 5; asr_miq_server_id := 8; asr_active := true |} ];
     miq_servers_table :=
       Some [ {| srv_id := 7; srv_name := "EVM"; srv_ipaddress := "10.0.0.1";
                 srv_guid := "5d9a6e5c"; srv_zone_id := 1 |} ];
     miq_regions_table := Some [ {| reg_region := 0 |} ] |}.

(** The appliance reports its GUID; every other command succeeds silently. *)
Definition reports_guid (cmd : string) : CommandResult :=
  if String.eqb cmd "cat /var/www/miq/vmdb/GUID" then {| rc := 0; output := "5d9a6e5c" |}
  else succeeded.

Definition roles_world : World :=
  world_of (scripted_env reports_guid always_200 roles_store plain_config)
    fresh_appliance.

(** What the getter returns in [roles_world]. *)
Definition roles_seen : gmap string bool :=
  match fst (server_roles roles_world) with
  | Ok roles => roles
  | Raise _ => ∅
  end.


(** Events that write the configuration: a file sent to the appliance, or
    the script that applies a configuration. *)
Definition is_config_write (e : Event) : bool :=
  match e with
  | EvPutFile _ _ _ => true
  | EvRails _ cmd _ => String.eqb cmd "/tmp/set_conf.rb"
  | _ => false
  end.

(** Events that fetch the YAML configuration. *)
Definition is_config_fetch (e : Event) : bool :=
  match e with
  | EvRails _ cmd _ => String.eqb cmd yaml_dump_command
  | EvRun _ cmd _ => String.eqb cmd yaml_cat_command
  | _ => false
  end.

(** Events of a plain read of the store: no Rails command, no file
    transfer, no sleep. *)
Definition is_plain_read (e : Event) : bool :=
  match e with
  | EvRails _ _ _ | EvPutFile _ _ _ | EvGetFile _ _ _ | EvSleep _ => false
  | EvRun _ cmd _ => negb (String.eqb cmd yaml_cat_command)
  | _ => true
  end.

(** The storage flag and the database handle are already cached. *)
Definition roles_read_prepared (a : App) : Prop :=
  is_Some (c_is_storage_enabled a) /\ is_Some (c_db a).


(** [roles_world] after the roles were read once: the database handle and
    the storage flag are cached. *)
Definition prepared_roles_world : World := snd (server_roles roles_world).

(** [emits ok m]: whatever [m] does, it only appends events accepted by
    [ok], and leaves the environment alone. *)
Definition emits {A} (ok : Event -> bool) (m : Act A) : Prop :=
  forall w r w', m w = (r, w') ->
    env w' = env w /\ exists d, trace w' = trace w ++ d /\ forallb ok d = true.

(** [emits_under I ok m]: started with the appliance in a state accepted by
    [I], [m] keeps it so and only appends events accepted by [ok]. *)
Definition emits_under {A} (I : App -> Prop) (ok : Event -> bool) (m : Act A) : Prop :=
  forall w r w', I (appliance w) -> m w = (r, w') ->
    I (appliance w') /\ exists d, trace w' = trace w ++ d /\ forallb ok d = true.


(** The filter [configuration_details] applies when the store does not hold
    exactly one server: the id lies in the range of the region, and the
    address is the database host or the GUID is the appliance's. *)
Definition server_matches (region : Z) (db_host appliance_guid : string)
    (s : MiqServer) : bool :=
  (srv_id s >=? region * SEQ_FACT) && (srv_id s <? region * SEQ_FACT + SEQ_FACT) &&
  (String.eqb (srv_ipaddress s) db_host || String.eqb (srv_guid s) appliance_guid).

(** The row [configuration_details] settles on: the only row of the
    store, or else the first row that passes the filter. *)
Definition chosen_server (region : Z) (db_host appliance_guid : string)
    (servers : list MiqServer) : option MiqServer :=
  match servers with
  | [s] => Some s
  | _ => head (List.filter (server_matches region db_host appliance_guid) servers)
  end.

(** A store with region 0 and a single server, which runs at another
    address and has another GUID than the appliance. *)
Definition foreign_server_store : Database :=
  {| server_roles_table := Some [];
     assigned_server_roles_table := Some [];
     miq_servers_table :=
       Some [ {| srv_id := 7; srv_name := "EVM"; srv_ipaddress := "192.168.5.9";
                 srv_guid := "0b1c2d3e"; srv_zone_id := 1 |} ];
     miq_regions_table := Some [ {| reg_region := 0 |} ] |}.

(** An appliance with its database handle made and its GUID read. *)
Definition identified_appliance : App :=
  set_c_guid (Some "5d9a6e5c")
    (set_c_db (Some {| db_hostname := "10.0.0.1"; db_oid := 0 |})
       (set_c_db_address (Some "10.0.0.1") fresh_appliance)).

Definition foreign_server_world : World :=
  {| env := scripted_env reports_guid always_200 foreign_server_store plain_config;
     trace := [];
     next_oid := 1;
     appliance := identified_appliance |}.

(** A store with region 0 and two servers; the second one is the
    appliance. *)
Definition two_servers_store : Database :=
  {| server_roles_table := Some [];
     assigned_server_roles_table := Some [];
     miq_servers_table :=
       Some [ {| srv_id := 7; srv_name := "EVM"; srv_ipaddress := "192.168.5.9";
                 srv_guid := "0b1c2d3e"; srv_zone_id := 1 |};
              {| srv_id := 8; srv_name := "EVM-2"; srv_ipaddress := "10.0.0.1";
                 srv_guid := "5d9a6e5c"; srv_zone_id := 1 |} ];
     miq_regions_table := Some [ {| reg_region := 0 |} ] |}.

Definition two_servers_world : World :=
  {| env := scripted_env reports_guid always_200 two_servers_store plain_config;
     trace := [];
     next_oid := 1;
     appliance := identified_appliance |}.


(** * More of the appliance *)

(** ** The EVM service *)

(** The [systemctl] command [_evm_service_command] runs. *)
Definition evm_systemctl (command : string) : string :=
  "systemctl " +:+ command +:+ " evmserverd".

(** The message of the exception [_evm_service_command] raises. *)
Definition evm_service_failure (command addr out : string) : string :=
  "Failed to " +:+ command +:+ " evmserverd on " +:+ addr +:+ nl +:+ "Error: " +:+ out.

(** [_evm_service_command(command, log_callback, expected_exit_code=None)];
    [prefix] is the prefix [logger_wrap] gave the caller's log lines. *)
Definition _evm_service_command (prefix command : string)
    (expected_exit_code : option Z) : Act Z :=
  log_callback prefix
    ("Running command '" +:+ command +:+ "' against the evmserverd service");;
  let! ssh := ssh_client in
  let! res := run_command ssh (evm_systemctl command) in
  match expected_exit_code with
  | Some expected =>
      if negb (rc res =? expected) then
        let! addr := self address in
        let msg := evm_service_failure command addr (output res) in
        log_callback prefix msg;;
        raise (ApplianceException msg)
      else ret (rc res)
  | None => ret (rc res)
  end.

(** [is_evm_service_running] *)
Definition is_evm_service_running : Act bool :=
  let! status := _evm_service_command "Status of EVM service: " "status" None in
  ret (status =? 0).

(** [stop_evm_service] *)
Definition stop_evm_service : Act unit :=
  _evm_service_command "Stop EVM Service: " "stop" (Some 0);; ret tt.

(** [start_evm_service] *)
Definition start_evm_service : Act unit :=
  _evm_service_command "Start EVM Service: " "start" (Some 0);; ret tt.

(** [postgres_version] *)
Definition postgres_version : string := "rh-postgresql95".

Definition rude_restart_command : string :=
  "killall -9 ruby; systemctl restart " +:+ postgres_version +:+ "-postgresql".

(** [restart_evm_service(rude=False)] *)
Definition restart_evm_service (rude : bool) : Act unit :=
  log "terminal" "evmserverd is being restarted, be patient please";;
  let! ssh := ssh_client in
  (if rude then
     log_callback "Restart EVM Service: " "restarting evm service by killing processes";;
     run_command ssh rude_restart_command;;
     _evm_service_command "Restart EVM Service: " "start" (Some 0)
   else
     _evm_service_command "Restart EVM Service: " "restart" (Some 0));;
  server_details_changed.

(** [is_dedicated_db_active] *)
Definition is_dedicated_db_active : Act bool :=
  let! client := ssh_client in
  let! res := run_command client
    ("systemctl status " +:+ postgres_version +:+ "-postgresql.service | grep running") in
  ret (rc res =? 0).

(** [server_zone_id] *)
Definition server_zone_id : Act (option Z) :=
  try_except
    (let! details := configuration_details in
     details_item details (fun '(_, _, _, zone) => zone))
    is_TypeError (fun _ => ret None).


(** ** Hashing *)

(** What an object hashes. *)
Inductive HashKey :=
| HashIdentity (o : nat)
| HashStr (s : string)
| HashPair (a b : string).

(** [__hash__]: [hash(self.address)] in [IPAppliance],
    [hash((self.vmname, self._provider_key))] in [Appliance]; [object]
    hashes the identity. *)
Definition __hash__ (self : Instance) : HashKey :=
  match cls self with
  | ClsObject => HashIdentity (oid self)
  | ClsIPAppliance => HashStr (inst_address self)
  | ClsAppliance => HashPair (vmname self) (_provider_key self)
  end.

(** ** Scopes *)

(** [with self: body].  [__exit__] returns [None], so an exception of the
    body is raised again after it, unless [__exit__] raises itself. *)
Definition with_appliance {A} (self : Instance) (capture : option PyExc)
    (body : M ApplianceStack.State A) : M ApplianceStack.State A :=
  ApplianceStack.__enter__ self;;
  try_finally body (ApplianceStack.__exit__ self capture).

(** The browser starts recorded in a list of events. *)
Definition browser_starts (evs : list ApplianceStack.StackEvent) : nat :=
  length (List.filter
            (fun e => match e with ApplianceStack.BrowserStart => true | _ => false end)
            evs).

(** ** The current appliance *)

(** [str.lower] *)
Definition lower_ascii (c : Ascii.ascii) : Ascii.ascii :=
  let n := Ascii.nat_of_ascii c in
  if (65 <=? n)%nat && (n <=? 90)%nat then Ascii.ascii_of_nat (n + 32) else c.

Fixpoint lower (s : string) : string :=
  match s with
  | EmptyString => EmptyString
  | String c rest => String (lower_ascii c) (lower rest)
  end.

(** [urlparse.ParseResult], as far as the constructor reads it. *)
Record ParseResult := { scheme : string; netloc : string; path : string }.

(** The [address] attribute [IPAppliance.__init__] sets. *)
Definition init_address (address : ParseResult) : string :=
  if negb (negb (String.eqb (scheme address) "") && negb (String.eqb (netloc address) ""))
  then path address
  else netloc address.

(** [repr(base_url)] for [None] and for a string without quotes or escapes. *)
Definition repr_base_url (base_url : option string) : string :=
  match base_url with
  | None => "None"
  | Some u => "'" +:+ u +:+ "'"
  end.

Section CurrentAppliance.
Import ApplianceStack.

(** [urlparse] of the standard library, and the identity of the object the
    constructor makes. *)
Variable urlparse : string -> ParseResult.
Variable new_oid : nat.

(** [get_or_create_current_appliance]; [base_url] is [conf.env['base_url']],
    and [openshift_is_dict] tells whether [conf.env.get('openshift', {})]
    is a dictionary. *)
Definition get_or_create_current_appliance (base_url : option string)
    (openshift_is_dict : bool) : M State (option Instance) :=
  let! current := top in
  (match current with
   | None =>
       match base_url with
       | Some u =>
           if String.eqb (lower u) "none" then
             raise (ValueError ("No IP address specified! Specified: " +:+
                                repr_base_url base_url))
           else if negb openshift_is_dict then
             raise (TypeError "The openshift entry in env.yaml must be a dictionary")
           else
             push {| oid := new_oid; cls := ClsIPAppliance;
                     inst_address := init_address (urlparse u);
                     browser_steal := false; _provider_key := ""; vmname := "" |}
       | None =>
           raise (ValueError ("No IP address specified! Specified: " +:+
                              repr_base_url base_url))
       end
   | Some _ => ret tt
   end);;
  top.

End CurrentAppliance.

(** ** More concrete inputs *)

(** The store has no [miq_servers] table yet. *)
Definition unmigrated_store : Database :=
  {| server_roles_table := None;
     assigned_server_roles_table := None;
     miq_servers_table := None;
     miq_regions_table := None |}.

Definition unmigrated_world : World :=
  {| env := scripted_env reports_guid always_200 unmigrated_store plain_config;
     trace := [];
     next_oid := 1;
     appliance := identified_appliance |}.

(** An appliance whose database runs on another host, with the SSH client
    made and a client for an earlier database host kept. *)
Definition appliance_with_external_db : App :=
  set__db_ssh_client
    (Some {| client_hostname := "10.0.0.7"; client_is_pod := false;
             client_private_key := false |})
    (set_c_ssh_client
       (Some {| client_hostname := "10.0.0.1"; client_is_pod := false;
                client_private_key := false |})
       (set_c_db_address (Some "10.0.0.7") fresh_appliance)).

Definition external_db_world : World :=
  world_of (scripted_env all_up always_200 empty_store plain_config)
    appliance_with_external_db.


(** The Rails commands run in a trace, with their results. *)
Definition rails_commands_run (t : list Event) : list (string * CommandResult) :=
  flat_map (fun e => match e with EvRails _ cmd r => [(cmd, r)] | _ => [] end) t.

(** Every generated script that was run with [ruby] is removed by the last
    command. *)
Definition generated_script_removed (cmds : list (string * CommandResult)) : Prop :=
  forall name res,
    In ("ruby /tmp/" +:+ name, res) cmds ->
    exists res', last cmds = Some ("rm /tmp/" +:+ name, res').


(** The command that overwrites the configuration of chrony with the
    prepared one. *)
Definition chrony_write_command (config_file : string) : string :=
  "echo " +:+ dq +:+ config_file +:+ dq +:+ " > " +:+ chrony_conf.

(** What [get_host_address] makes of a configuration that was fetched:
    [server.host], and [None] when there is no such entry or the
    configuration is not made of dictionaries. *)
Definition configured_host (cfg : Yaml) : Yaml :=
  match cfg with
  | YMap kvs =>
      let server := default YNull (assoc "server" kvs) in
      if yaml_truthy server then
        match server with
        | YMap server_kvs => default YNull (assoc "host" server_kvs)
        | _ => YNull
        end
      else YNull
  | _ => YNull
  end.

(** A store with region 0 and two servers, neither of which runs at the
    database host or has the GUID of the appliance. *)
Definition strangers_store : Database :=
  {| server_roles_table := Some [];
     assigned_server_roles_table := Some [];
     miq_servers_table :=
       Some [ {| srv_id := 7; srv_name := "EVM"; srv_ipaddress := "192.168.5.9";
                 srv_guid := "0b1c2d3e"; srv_zone_id := 1 |};
              {| srv_id := 8; srv_name := "EVM-2"; srv_ipaddress := "192.168.5.10";
                 srv_guid := "77aa01f2"; srv_zone_id := 1 |} ];
     miq_regions_table := Some [ {| reg_region := 0 |} ] |}.

(** The SSH port of the appliance is closed. *)
Definition ssh_down_env (store : Database) : Env :=
  {| net_check_answer := fun _ _ => false;
     transport_active := fun _ _ => true;
     run_answer := fun _ _ cmd => reports_guid cmd;
     rails_answer := fun _ _ _ => succeeded;
     http_answer := fun t _ => always_200 t;
     random_answer := fun _ => "x7Gq";
     database := fun _ _ => store;
     yaml_load := fun _ => Some plain_config;
     cred_database_username := "root";
     cred_database_password := "smartvm";
     cred_ssh_password := "secret";
     clock_servers := ["clock.example.com"] |}.

(** The database handle is made, the GUID was never read, and the SSH port
    is closed. *)
Definition guid_unread_world : World :=
  {| env := ssh_down_env strangers_store;
     trace := [];
     next_oid := 1;
     appliance := appliance_with_db |}.

(** * Properties *)

(** ** Equality of the two appliance variants *)

(** C10 (as amended).  For an address-only [IPAppliance] X and a
    provider-backed [Appliance] Y that report the same address, the two
    [__eq__] methods disagree: [IPAppliance.__eq__(X, Y)] is [True] and
    [Appliance.__eq__(Y, X)] is [False].  The expression [Y == X] is
    [False]; so is the expression [X == Y], because Python asks the right
    operand first when its class is a subclass of the left operand's. *)
Theorem eq_methods_disagree_operator_agrees (X Y : Instance) :
  cls X = ClsIPAppliance ->
  cls Y = ClsAppliance ->
  inst_address X = inst_address Y ->
  IPAppliance.__eq__ X Y = true /\
  Appliance.__eq__ Y X = false /\
  py_eq Y X = false /\
  py_eq X Y = false.
Proof.
  intros HX HY Haddr.
  unfold py_eq, IPAppliance.__eq__, Appliance.__eq__, isinstance.
  rewrite HX, HY, Haddr. cbn.
  unfold Appliance.__eq__, isinstance. rewrite HX, HY. cbn.
  rewrite String.eqb_refl. auto.
Qed.

Lemma eq_methods_disagree_witness :
  IPAppliance.__eq__ bare_appliance backed_appliance = true /\
  Appliance.__eq__ backed_appliance bare_appliance = false /\
  py_eq backed_appliance bare_appliance = false /\
  py_eq bare_appliance backed_appliance = false.
Proof.
  apply (eq_methods_disagree_operator_agrees bare_appliance backed_appliance);
    reflexivity.
Defined.

(** The claim as written fails: at the same address, [X == Y] does not
    hold for a bare X and a provider-backed Y. *)
Lemma eq_operator_bare_backed_not_true :
  cls bare_appliance = ClsIPAppliance /\
  cls backed_appliance = ClsAppliance /\
  inst_address bare_appliance = inst_address backed_appliance /\
  py_eq bare_appliance backed_appliance <> true.
Proof. repeat split; try reflexivity. cbv. discriminate. Qed.

(** ** The appliance stack *)

Section StackDiscipline.
Import ApplianceStack.

Lemma push_items (obj : Instance) (s : State) :
  exists s', push obj s = (Ok tt, s') /\ items s' = items s ++ [obj].
Proof.
  unfold push, top, LocalStack_push, emit, bind, gets, modify, ret.
  destruct (browser_steal obj); cbn; eauto.
Qed.

Lemma pop_snoc (l : list Instance) (x : Instance) (ev : list StackEvent) :
  exists s', pop {| items := l ++ [x]; events := ev |} = (Ok x, s') /\ items s' = l.
Proof.
  unfold pop, top, LocalStack_pop, emit, bind, gets, modify, ret. cbn.
  rewrite last_snoc. cbn. rewrite removelast_last.
  destruct (browser_steal x); cbn; eauto.
Qed.

Lemma pop_empty (ev : list StackEvent) :
  pop {| items := []; events := ev |} =
  (Raise (AttributeError "'NoneType' object has no attribute 'address'"),
   {| items := []; events := ev |}).
Proof. reflexivity. Qed.

Lemma pop_cases (s : State) :
  exists s', items s' = removelast (items s) /\
    pop s = (match last (items s) with
             | Some x => Ok x
             | None => Raise (AttributeError "'NoneType' object has no attribute 'address'")
             end, s').
Proof.
  destruct s as [l ev]. destruct (last l) as [x|] eqn:Hl.
  - apply last_Some in Hl as [l' ->].
    destruct (pop_snoc l' x ev) as (s' & Hp & Hi).
    exists s'. cbn. rewrite removelast_last, last_snoc. auto.
  - apply last_None in Hl as ->. eexists. split; [|reflexivity]. reflexivity.
Qed.

Lemma capture_is_swallowed (capture : option PyExc) (s : State) :
  exists s1, items s1 = items s /\
    try_except (_screenshot_capture_at_context_leave capture) (fun _ => true)
      (fun _ => emit (LogException "taking a screenshot failed")) s = (Ok tt, s1).
Proof.
  unfold try_except, _screenshot_capture_at_context_leave, emit, bind, modify,
    raise, ret.
  destruct capture; cbn; eexists; (split; [|reflexivity]); reflexivity.
Qed.

(** C6.  The stack is strictly last-in first-out: after [push(A)] and
    [push(B)], [pop()] returns B and leaves A on top, and the next
    [pop()] returns A and leaves the stack as it was before the two
    pushes (empty, if it was empty).  A scope exit pops the stack and
    raises the consistency error ['appliance stack inconsistent'] when
    the object popped is not the appliance that entered the scope;
    popping the empty stack raises as well. *)
Theorem stack_is_lifo_and_exit_checks_top
    (s : State) (A B self : Instance) (capture : option PyExc) :
  (exists s1 s2 s3,
      (push A;; push B) s = (Ok tt, s1) /\
      pop s1 = (Ok B, s2) /\ top s2 = (Ok (Some A), s2) /\
      pop s2 = (Ok A, s3) /\ items s3 = items s /\
      top s3 = (Ok (last (items s)), s3)) /\
  (exists s',
      items s' = removelast (items s) /\
      __exit__ self capture s =
      (match last (items s) with
       | Some x =>
           if py_is x self then Ok tt
           else Raise (AssertionError "appliance stack inconsistent")
       | None => Raise (AttributeError "'NoneType' object has no attribute 'address'")
       end, s')) /\
  pop {| items := []; events := events s |} =
  (Raise (AttributeError "'NoneType' object has no attribute 'address'"),
   {| items := []; events := events s |}).
Proof.
  split; [|split].
  - destruct (push_items A s) as (sa & Ha & Hia).
    destruct (push_items B sa) as (sb & Hb & Hib).
    destruct sb as [lb evb]. cbn in Hib. subst lb.
    destruct (pop_snoc (items sa) B evb) as (s2 & Hp2 & Hi2).
    destruct s2 as [l2 ev2]. cbn in Hi2. subst l2.
    destruct (pop_snoc (items s) A ev2) as (s3 & Hp3 & Hi3).
    rewrite <- Hia in Hp3.
    exists {| items := items sa ++ [B]; events := evb |},
           {| items := items sa; events := ev2 |}, s3.
    repeat split.
    + unfold bind at 1. rewrite Ha. exact Hb.
    + exact Hp2.
    + unfold top, gets. cbn. rewrite Hia, last_snoc. reflexivity.
    + exact Hp3.
    + exact Hi3.
    + unfold top, gets. rewrite Hi3. reflexivity.
  - destruct (capture_is_swallowed capture s) as (s1 & Hi1 & Hc).
    destruct (pop_cases s1) as (s2 & Hi2 & Hp).
    rewrite Hi1 in Hi2, Hp.
    unfold __exit__, try_finally. rewrite Hc. unfold bind. rewrite Hp.
    exists s2. split; [exact Hi2|].
    destruct (last (items s)) as [x|]; [destruct (py_is x self)|]; reflexivity.
  - apply pop_empty.
Qed.

End StackDiscipline.

(** ** Running the effectful code symbolically *)

Ltac run_unfold :=
  unfold bind, gets, modify, ret, raise, try_except, try_finally, py_and, py_or.

Ltac run := repeat (progress (run_unfold; cbn)).

Ltac innermost_scrutinee x :=
  lazymatch x with
  | context [match ?y with _ => _ end] => innermost_scrutinee y
  | _ => x
  end.

(** Case analysis on the answer the code is waiting for. *)
Ltac run_step :=
  match goal with
  | |- context [match ?x with _ => _ end] =>
      let y := innermost_scrutinee x in destruct y eqn:?; run
  end.

(** The answers of the outside are named as soon as they appear, so that
    the traces that record them stay small. *)
Ltac no_answers t :=
  lazymatch t with
  | context [run_answer] => fail
  | context [rails_answer] => fail
  | context [http_answer] => fail
  | context [net_check_answer] => fail
  | context [transport_active] => fail
  | context [random_answer] => fail
  | context [database] => fail
  | _ => idtac
  end.

Ltac name_answers :=
  repeat match goal with
  | |- context [run_answer ?e ?t ?h ?c] =>
      no_answers t; let r := fresh "res" in generalize (run_answer e t h c); intro r
  | |- context [rails_answer ?e ?t ?h ?c] =>
      no_answers t; let r := fresh "res" in generalize (rails_answer e t h c); intro r
  | |- context [http_answer ?e ?t ?u] =>
      no_answers t; let r := fresh "out" in generalize (http_answer e t u); intro r
  | |- context [net_check_answer ?e ?t ?h] =>
      no_answers t; let r := fresh "up" in generalize (net_check_answer e t h); intro r
  | |- context [transport_active ?e ?t ?c] =>
      no_answers t; let r := fresh "active" in generalize (transport_active e t c); intro r
  | |- context [random_answer ?e ?t] =>
      no_answers t; let r := fresh "rnd" in generalize (random_answer e t); intro r
  | |- context [database ?e ?t ?h] =>
      no_answers t; let r := fresh "store" in generalize (database e t h); intro r
  end.

(** Comparisons of command texts that are decided by their literal parts. *)
Ltac decide_strings :=
  repeat match goal with
  | |- context [String.eqb ?a ?b] =>
      let v := eval lazy in (String.eqb a b) in
      match v with
      | true => change (String.eqb a b) with true
      | false => change (String.eqb a b) with false
      end
  end.

(** Rewrites with the case distinctions made so far. *)
Ltac use_answers :=
  repeat match goal with
  | H : ?x = _ |- context [?x] => rewrite H
  end.


(** ** What an operation may add to the trace *)

Section Emits.
Context (ok : Event -> bool).

Lemma emits_ret {A} (a : A) : emits ok (ret a).
Proof.
  intros w r w' H. inversion H; subst. split; [easy|].
  exists []. rewrite app_nil_r. auto.
Qed.

Lemma emits_raise {A} (e : PyExc) : emits ok (@raise World A e).
Proof.
  intros w r w' H. inversion H; subst. split; [easy|].
  exists []. rewrite app_nil_r. auto.
Qed.

Lemma emits_gets {A} (f : World -> A) : emits ok (gets f).
Proof.
  intros w r w' H. inversion H; subst. split; [easy|].
  exists []. rewrite app_nil_r. auto.
Qed.

Lemma emits_self {A} (f : App -> A) : emits ok (self f).
Proof. apply emits_gets. Qed.

Lemma emits_ask {A} (f : Env -> list Event -> A) : emits ok (ask f).
Proof. apply emits_gets. Qed.

Lemma emits_setattr (f : App -> App) : emits ok (setattr f).
Proof.
  intros w r w' H. inversion H; subst. split; [easy|].
  exists []. cbn. rewrite app_nil_r. auto.
Qed.

Lemma emits_set_next_oid (n : nat) : emits ok (modify (set_next_oid n)).
Proof.
  intros w r w' H. inversion H; subst. split; [easy|].
  exists []. cbn. rewrite app_nil_r. auto.
Qed.

Lemma emits_emit (e : Event) : ok e = true -> emits ok (emit e).
Proof.
  intros He w r w' H. inversion H; subst. split; [easy|].
  exists [e]. cbn. rewrite He. auto.
Qed.

Lemma emits_bind {A B} (m : Act A) (k : A -> Act B) :
  emits ok m -> (forall a, emits ok (k a)) -> emits ok (bind m k).
Proof.
  intros Hm Hk w r w' H. unfold bind in H.
  destruct (m w) as [[a|e] w1] eqn:E.
  - destruct (Hm _ _ _ E) as (He1 & d1 & Ht1 & Hd1).
    destruct (Hk a _ _ _ H) as (He2 & d2 & Ht2 & Hd2).
    split; [congruence|].
    exists (d1 ++ d2). rewrite Ht2, Ht1, <- app_assoc, forallb_app, Hd1, Hd2. auto.
  - inversion H; subst. eauto.
Qed.

Lemma emits_try_except {A} (m : Act A) (catches : PyExc -> bool)
    (handler : PyExc -> Act A) :
  emits ok m -> (forall e, emits ok (handler e)) ->
  emits ok (try_except m catches handler).
Proof.
  intros Hm Hh w r w' H. unfold try_except in H.
  destruct (m w) as [[a|e] w1] eqn:E.
  - inversion H; subst. eauto.
  - destruct (catches e).
    + destruct (Hm _ _ _ E) as (He1 & d1 & Ht1 & Hd1).
      destruct (Hh e _ _ _ H) as (He2 & d2 & Ht2 & Hd2).
      split; [congruence|].
      exists (d1 ++ d2). rewrite Ht2, Ht1, <- app_assoc, forallb_app, Hd1, Hd2. auto.
    + inversion H; subst. eauto.
Qed.

Lemma emits_py_and (a b : Act bool) :
  emits ok a -> emits ok b -> emits ok (py_and a b).
Proof.
  intros Ha Hb. apply emits_bind; [exact Ha|].
  intros []; [exact Hb | apply emits_ret].
Qed.

Lemma emits_py_or (a b : Act bool) :
  emits ok a -> emits ok b -> emits ok (py_or a b).
Proof.
  intros Ha Hb. apply emits_bind; [exact Ha|].
  intros []; [apply emits_ret | exact Hb].
Qed.

Lemma emits_cached_property {A} (slot : App -> option A)
    (store : option A -> App -> App) (compute : Act A) :
  emits ok compute -> emits ok (cached_property slot store compute).
Proof.
  intros Hc. unfold cached_property.
  apply emits_bind; [apply emits_self|].
  intros [v|]; [apply emits_ret|].
  apply emits_bind; [exact Hc|]. intros v.
  apply emits_bind; [apply emits_setattr|]. intros _. apply emits_ret.
Qed.

Lemma emits_for_each {A B} (l : list A) (acc : B) (body : B -> A -> Act B) :
  (forall b x, emits ok (body b x)) -> emits ok (for_each l acc body).
Proof.
  intros Hb. revert acc. induction l as [|x l IH]; intros acc; cbn.
  - apply emits_ret.
  - apply emits_bind; [apply Hb|]. intros b. apply IH.
Qed.

Lemma emits_filterM {A} (f : A -> Act bool) (l : list A) :
  (forall x, emits ok (f x)) -> emits ok (filterM f l).
Proof.
  intros Hf. induction l as [|x l IH]; cbn.
  - apply emits_ret.
  - apply emits_bind; [apply Hf|]. intros b.
    apply emits_bind; [exact IH|]. intros l'. apply emits_ret.
Qed.

Lemma emits_wait_for {A} (func : Act A) (accept : A -> bool) (delay num_sec : Z)
    (message : string) :
  ok (EvSleep delay) = true -> emits ok func ->
  emits ok (wait_for func accept delay num_sec message).
Proof.
  intros Hs Hf. unfold wait_for.
  induction (Datatypes.S (Z.to_nat (num_sec / delay))) as [|n IH]; cbn.
  - apply emits_raise.
  - apply emits_bind; [exact Hf|]. intros v.
    destruct (accept v); [apply emits_ret|].
    apply emits_bind; [apply emits_emit; exact Hs|]. intros _. exact IH.
Qed.
End Emits.

(** Walks through an operation, leaving only the events it emits to be
    accepted. *)
Ltac emits_walk :=
  lazymatch goal with
  | |- emits _ (bind _ _) => apply emits_bind; [emits_walk | intro; emits_walk]
  | |- emits _ (ret _) => apply emits_ret
  | |- emits _ (raise _) => apply emits_raise
  | |- emits _ (self _) => apply emits_self
  | |- emits _ (ask _) => apply emits_ask
  | |- emits _ (gets _) => apply emits_gets
  | |- emits _ (setattr _) => apply emits_setattr
  | |- emits _ (modify (set_next_oid _)) => apply emits_set_next_oid
  | |- emits _ (emit _) => apply emits_emit; reflexivity
  | |- emits _ (try_except _ _ _) =>
      apply emits_try_except; [emits_walk | intro; emits_walk]
  | |- emits _ (py_and _ _) => apply emits_py_and; emits_walk
  | |- emits _ (py_or _ _) => apply emits_py_or; emits_walk
  | |- emits _ (cached_property _ _ _) => apply emits_cached_property; emits_walk
  | |- emits _ (for_each _ _ _) => apply emits_for_each; intros; emits_walk
  | |- emits _ (filterM _ _) => apply emits_filterM; intros; emits_walk
  | |- emits _ (wait_for _ _ _ _ _) =>
      apply emits_wait_for; [reflexivity | emits_walk]
  | |- emits _ (if ?b then _ else _) => destruct b; emits_walk
  | |- emits _ (match ?x with _ => _ end) => destruct x; emits_walk
  | |- emits _ (let _ := _ in _) => cbv zeta; emits_walk
  | |- emits _ ?m =>
      first [ solve [auto with emits]
            | let h := head_of m in unfold h; emits_walk ]
  end
with head_of m :=
  lazymatch m with
  | ?f _ => head_of f
  | _ => m
  end.

(** ** Database readiness *)

Lemma not_running_was_run (cmds : list string) (cmd : string) (d : list Event) :
  forallb (not_running cmds) d = true -> In cmd cmds -> was_run cmd d = false.
Proof.
  intros Hd Hin. unfold was_run, commands_run.
  induction d as [|e d IH]; [reflexivity|].
  cbn in Hd. apply andb_prop in Hd as [He Hd]. specialize (IH Hd).
  destruct e; cbn; try exact IH.
  cbn in He. rewrite IH, orb_false_r.
  apply negb_true_iff in He.
  destruct (String.eqb cmd0 cmd) eqn:E; [|reflexivity].
  apply String.eqb_eq in E. subst cmd0.
  assert (existsb (String.eqb cmd) cmds = true); [|congruence].
  apply existsb_exists. exists cmd. split; [assumption | apply String.eqb_refl].
Qed.

Lemma db_online_emits :
  emits (not_running [db_has_database_command; db_has_tables_command]) db_online.
Proof. emits_walk. Qed.

Lemma db_has_database_emits :
  emits (not_running [db_has_tables_command]) db_has_database.
Proof. emits_walk. Qed.

(** C1.  [is_db_ready] is true exactly when [db_online], [db_has_database]
    and [db_has_tables], evaluated one after the other, are all true; when
    [db_online] is not true nothing else is evaluated (the result and the
    world are those of [db_online], and neither of the two later queries was
    run); when [db_has_database] is not true, [db_has_tables] is not
    evaluated. *)
Theorem is_db_ready_short_circuits (w : World) :
  (forall w',
      is_db_ready w = (Ok true, w') <->
      exists w1 w2,
        db_online w = (Ok true, w1) /\
        db_has_database w1 = (Ok true, w2) /\
        db_has_tables w2 = (Ok true, w')) /\
  (forall r w1,
      db_online w = (r, w1) -> r <> Ok true ->
      is_db_ready w = (r, w1) /\
      exists d, trace w1 = trace w ++ d /\
        was_run db_has_database_command d = false /\
        was_run db_has_tables_command d = false) /\
  (forall r w1 w2,
      db_online w = (Ok true, w1) -> db_has_database w1 = (r, w2) -> r <> Ok true ->
      is_db_ready w = (r, w2) /\
      exists d, trace w2 = trace w ++ d /\
        was_run db_has_tables_command d = false).
Proof.
  split; [|split].
  - intros w'. unfold is_db_ready, py_and, bind, ret. split.
    + destruct (db_online w) as [[[]|e] w1] eqn:E1; try discriminate.
      destruct (db_has_database w1) as [[[]|e] w2] eqn:E2; try discriminate.
      intros H. exists w1, w2. auto.
    + intros (w1 & w2 & -> & -> & ->). reflexivity.
  - intros r w1 Hon Hr.
    destruct (db_online_emits _ _ _ Hon) as (_ & d & Ht & Hd).
    split.
    + unfold is_db_ready, py_and, bind, ret. rewrite Hon.
      destruct r as [[]|e]; [congruence| |]; reflexivity.
    + exists d. split; [exact Ht|].
      split; apply (not_running_was_run _ _ _ Hd); cbn; auto.
  - intros r w1 w2 Hon Hdb Hr.
    destruct (db_online_emits _ _ _ Hon) as (_ & d1 & Ht1 & Hd1).
    destruct (db_has_database_emits _ _ _ Hdb) as (_ & d2 & Ht2 & Hd2).
    split.
    + unfold is_db_ready, py_and, bind, ret. rewrite Hon, Hdb.
      destruct r as [[]|e]; [congruence| |]; reflexivity.
    + exists (d1 ++ d2). split; [rewrite Ht2, Ht1, app_assoc; reflexivity|].
      unfold was_run, commands_run. rewrite flat_map_app, existsb_app.
      fold (commands_run d1) (commands_run d2).
      fold (was_run db_has_tables_command d1) (was_run db_has_tables_command d2).
      rewrite (not_running_was_run _ _ _ Hd1), (not_running_was_run _ _ _ Hd2);
        cbn; auto.
Qed.

Lemma is_db_ready_short_circuits_witness :
  db_online db_down_world = (Ok false, snd (db_online db_down_world)) /\
  is_db_ready db_down_world = (Ok false, snd (db_online db_down_world)) /\
  exists d, trace (snd (db_online db_down_world)) = trace db_down_world ++ d /\
    was_run db_has_database_command d = false /\
    was_run db_has_tables_command d = false.
Proof.
  assert (H : db_online db_down_world = (Ok false, snd (db_online db_down_world)))
    by (vm_compute; reflexivity).
  split; [exact H|].
  destruct (is_db_ready_short_circuits db_down_world) as (_ & Hdown & _).
  apply (Hdown (Ok false) _ H). discriminate.
Defined.

(** ** Monad laws used to unroll loops *)

Lemma bind_assoc {S A B C} (m : M S A) (k1 : A -> M S B) (k2 : B -> M S C) (s : S) :
  bind (bind m k1) k2 s = bind m (fun a => bind (k1 a) k2) s.
Proof. unfold bind. destruct (m s) as [[a|e] s1]; reflexivity. Qed.

Lemma bind_ext {S A B} (m : M S A) (k k' : A -> M S B) (s : S) :
  (forall a s', k a s' = k' a s') -> bind m k s = bind m k' s.
Proof. intros H. unfold bind. destruct (m s) as [[a|e] s1]; [apply H | reflexivity]. Qed.

Lemma bind_ret_l {S A B} (a : A) (k : A -> M S B) (s : S) :
  bind (ret a) k s = k a s.
Proof. reflexivity. Qed.

(** ** The web UI probe *)

Lemma probe_round_spec (count : nat) (w : World) :
  let o := http_answer (env w) (trace w) (url (appliance w)) in
  match probe_round count w with
  | (Ok count', w') =>
      count' = (if probe_succeeded o then Datatypes.S count else count) /\
      env w' = env w /\ appliance w' = appliance w /\
      (forall msg, o <> HttpInvalidURL msg) /\
      exists d, trace w' = trace w ++ d /\
        http_outcomes d = [o] /\ sleeps d = [3]
  | (Raise e, w') =>
      exists msg, o = HttpInvalidURL msg /\ e = ValueError msg /\
      env w' = env w /\ appliance w' = appliance w /\
      exists d, trace w' = trace w ++ d /\ http_outcomes d = [o] /\ sleeps d = []
  end.
Proof.
  destruct w as [e t n a]. cbn.
  unfold probe_round, _check_appliance_ui_wait_fn, requests_get, sleep, log, emit,
    ask, self.
  run.
  destruct (http_answer e t (url a)) as [code| |msg|msg] eqn:E; run.
  - destruct (code =? 200); run; repeat split; try discriminate; eexists;
      (split; [rewrite <- !app_assoc; reflexivity|]); split; reflexivity.
  - repeat split; try discriminate; eexists;
      (split; [rewrite <- !app_assoc; reflexivity|]); split; reflexivity.
  - exists msg. repeat split. eexists. split; [reflexivity|]. split; reflexivity.
  - repeat split; try discriminate; eexists;
      (split; [rewrite <- !app_assoc; reflexivity|]); split; reflexivity.
Qed.

Lemma is_web_ui_running_rounds (unsure : PyVal) (w : World) :
  is_web_ui_running unsure w =
  (let! c1 := probe_round 0 in
   let! c2 := probe_round c1 in
   let! c3 := probe_round c2 in
   if Nat.eqb c3 0 then ret (PyBool false)
   else if Nat.eqb c3 3 then ret (PyBool true)
   else ret unsure) w.
Proof.
  unfold is_web_ui_running, range. cbn [seq for_each].
  rewrite bind_assoc. apply bind_ext; intros c1 w1.
  rewrite bind_assoc. apply bind_ext; intros c2 w2.
  rewrite bind_assoc. apply bind_ext; intros c3 w3.
  reflexivity.
Qed.

(** C2 (as amended).  [is_web_ui_running] makes three probes, each followed
    by a sleep of three seconds, and returns [True] when all three succeeded,
    [False] when all three failed, and otherwise the [unsure] argument itself
    (which is [False] by default, so a mixed outcome may well give [True] or
    [False]).  A probe that raises [ValueError] for an invalid URL ends the
    call with that exception: the call returns only when none of the three
    answers was an invalid URL, and when it raises, the invalid URL was the
    answer to the last probe made, after at most two other probes. *)
Theorem web_ui_triple_check (unsure : PyVal) (w : World) :
  match is_web_ui_running unsure w with
  | (Ok r, w') =>
      exists d o1 o2 o3,
        trace w' = trace w ++ d /\ appliance w' = appliance w /\
        http_outcomes d = [o1; o2; o3] /\ sleeps d = [3; 3; 3] /\
        o1 = http_answer (env w) (trace w) (url (appliance w)) /\
        r = triple_sample_verdict unsure o1 o2 o3 /\
        forall msg, ~ In (HttpInvalidURL msg) [o1; o2; o3]
  | (Raise e, w') =>
      exists d msg,
        trace w' = trace w ++ d /\ e = ValueError msg /\
        last (http_outcomes d) = Some (HttpInvalidURL msg) /\
        exists earlier,
          http_outcomes d = earlier ++ [HttpInvalidURL msg] /\
          (length earlier < 3)%nat /\
          (forall m, ~ In (HttpInvalidURL m) earlier) /\
          sleeps d = map (fun _ => 3) earlier
  end.
Proof.
  rewrite is_web_ui_running_rounds. unfold bind at 1.
  pose proof (probe_round_spec 0 w) as H1. cbv zeta in H1.
  destruct (probe_round 0 w) as [[c1|e1] w1].
  2:{ destruct H1 as (msg & Ho & -> & _ & _ & d & Ht & Hh & Hs).
      exists d, msg. rewrite Hh, Ho. repeat split; auto.
      exists []. cbn. repeat split; auto; lia. }
  destruct H1 as (Hc1 & He1 & Ha1 & Hv1 & d1 & Ht1 & Hh1 & Hs1).
  unfold bind at 1.
  pose proof (probe_round_spec c1 w1) as H2. cbv zeta in H2.
  destruct (probe_round c1 w1) as [[c2|e2] w2].
  2:{ destruct H2 as (msg & Ho & -> & _ & _ & d & Ht & Hh & Hs).
      exists (d1 ++ d), msg. rewrite Ht, Ht1, app_assoc.
      unfold http_outcomes, sleeps in *. rewrite !flat_map_app, Hh, Hh1, Hs, Hs1, Ho.
      repeat split; auto.
      eexists [_]. cbn. repeat split; auto; try lia.
      intros m [Hm|[]]. exact (Hv1 m Hm). }
  destruct H2 as (Hc2 & He2 & Ha2 & Hv2 & d2 & Ht2 & Hh2 & Hs2).
  unfold bind at 1.
  pose proof (probe_round_spec c2 w2) as H3. cbv zeta in H3.
  destruct (probe_round c2 w2) as [[c3|e3] w3].
  2:{ destruct H3 as (msg & Ho & -> & _ & _ & d & Ht & Hh & Hs).
      exists (d1 ++ d2 ++ d), msg. rewrite Ht, Ht2, Ht1, <- !app_assoc.
      unfold http_outcomes, sleeps in *.
      rewrite !flat_map_app, Hh, Hh1, Hh2, Hs, Hs1, Hs2, Ho.
      repeat split; auto.
      eexists [_; _]. cbn. repeat split; auto; try lia.
      intros m [Hm|[Hm|[]]]; [exact (Hv1 m Hm) | exact (Hv2 m Hm)]. }
  destruct H3 as (Hc3 & He3 & Ha3 & Hv3 & d3 & Ht3 & Hh3 & Hs3).
  set (o1 := http_answer (env w) (trace w) (url (appliance w))) in *.
  set (o2 := http_answer (env w1) (trace w1) (url (appliance w1))) in *.
  set (o3 := http_answer (env w2) (trace w2) (url (appliance w2))) in *.
  assert (Hr : exists r, (if Nat.eqb c3 0 then ret (PyBool false)
                      else if Nat.eqb c3 3 then ret (PyBool true) else ret unsure) w3
                     = (Ok r, w3) /\ r = triple_sample_verdict unsure o1 o2 o3).
  { unfold triple_sample_verdict. subst c3 c2 c1.
    destruct (probe_succeeded o1), (probe_succeeded o2), (probe_succeeded o3);
      cbn; eauto. }
  destruct Hr as (r & -> & Hr).
  exists (d1 ++ d2 ++ d3), o1, o2, o3.
  repeat split.
  - rewrite Ht3, Ht2, Ht1, <- !app_assoc. reflexivity.
  - congruence.
  - unfold http_outcomes in *. rewrite !flat_map_app, Hh1, Hh2, Hh3. reflexivity.
  - unfold sleeps in *. rewrite !flat_map_app, Hs1, Hs2, Hs3. reflexivity.
  - exact Hr.
  - intros msg [Hm|[Hm|[Hm|[]]]];
      [exact (Hv1 msg Hm) | exact (Hv2 msg Hm) | exact (Hv3 msg Hm)].
Qed.

(** The claim as written fails: with the default [unsure=False], one
    successful probe followed by two failures gives [False]. *)
Lemma web_ui_mixed_probes_give_False :
  fst (is_web_ui_running (PyBool false) flapping_world) = Ok (PyBool false) /\
  http_outcomes (trace (snd (is_web_ui_running (PyBool false) flapping_world))) =
  [HttpStatus 200; HttpTimeout; HttpTimeout].
Proof. vm_compute. split; reflexivity. Qed.

(** ** Stepping through a sequence *)

Lemma bind_Ok {S A B} (m : M S A) (k : A -> M S B) (s s1 : S) (a : A) :
  m s = (Ok a, s1) -> bind m k s = k a s1.
Proof. intros H. unfold bind. rewrite H. reflexivity. Qed.

Lemma bind_Raise {S A B} (m : M S A) (k : A -> M S B) (s s1 : S) (e : PyExc) :
  m s = (Raise e, s1) -> bind m k s = (Raise e, s1).
Proof. intros H. unfold bind. rewrite H. reflexivity. Qed.

Lemma commands_run_app (d1 d2 : list Event) :
  commands_run (d1 ++ d2) = commands_run d1 ++ commands_run d2.
Proof. unfold commands_run. apply flat_map_app. Qed.

(** ** Clock fixing *)

Arguments chrony_config_file : simpl never.

(** [ssh_client] either raises because the SSH port is closed, or returns a
    client, which is then cached; it runs no command and touches no other
    attribute than [is_pod]. *)
Lemma ssh_client_cases (w : World) :
  exists r w' d,
    ssh_client w = (r, w') /\
    env w' = env w /\ next_oid w' = next_oid w /\
    trace w' = trace w ++ d /\ commands_run d = [] /\
    match r with
    | Ok c =>
        exists pod,
          appliance w' = set_c_ssh_client (Some c) (set_is_pod pod (appliance w))
    | Raise e => e = Exception "SSH is unavailable" /\ appliance w' = appliance w
    end.
Proof.
  destruct w as [e t n a]. destruct a.
  unfold ssh_client, cached_property, is_ssh_running, net_check,
    SSHClient_connect, ssh_client_with_privatekey, log, emit, ask, self, setattr.
  run.
  repeat run_step.
  all: eexists _, _, _; (split; [reflexivity|]); cbn;
    rewrite <- ?app_assoc; cbn;
    repeat split; try reflexivity;
    try (rewrite app_nil_r; reflexivity).
  all: try (eexists; reflexivity).
Qed.

Arguments chrony_write_command : simpl never.



(** ** Enabling the database *)

Lemma log_lines_app (d1 d2 : list Event) :
  log_lines (d1 ++ d2) = log_lines d1 ++ log_lines d2.
Proof. unfold log_lines. apply flat_map_app. Qed.

(** Once cached, [ssh_client] is returned without any effect. *)
Lemma ssh_client_cached (w : World) (c : SshClient) :
  c_ssh_client (appliance w) = Some c -> ssh_client w = (Ok c, w).
Proof.
  intros H. unfold ssh_client, cached_property, self, bind, gets, ret.
  rewrite H. reflexivity.
Qed.

Arguments ssh_client : simpl never.

(** Decides which of the commands run is the enable command. *)
Ltac decide_selected :=
  repeat match goal with
  | |- context [is_enable_db_command ?c] =>
      let v := eval lazy in (is_enable_db_command c) in
      match v with
      | true => change (is_enable_db_command c) with true
      | false => change (is_enable_db_command c) with false
      end
  end.

(** What [enable_external_db] leaves behind, whatever its outcome. *)
Lemma enable_external_db_outcome
    (db_addr : string) (region : Z) (db_name db_username db_password : option string)
    (w : World) :
  match enable_external_db db_addr region db_name db_username db_password w with
  | (r, w') =>
      c_db_address (appliance w') = Some db_addr /\
      c_db (appliance w') = None /\
      next_oid w' = next_oid w /\
      exists d,
        trace w' = trace w ++ d /\
        (forall status out, r = Ok (status, out) -> status = 0) /\
        (forall out,
            In out (failed_outputs is_enable_db_command (commands_run d)) ->
            r = Raise (ApplianceException
                         (enable_external_db_failure (address (appliance w)) db_addr)) /\
            In ("error", out) (log_lines d))
  end.
Proof.
  destruct w as [e t n a].
  unfold enable_external_db, clear_property_cache_db, log_callback, log, emit, ask,
    self, setattr.
  run.
  match goal with |- context [ssh_client ?w0] =>
    destruct (ssh_client_cases w0) as (r0 & w1 & d0 & Hc & He & Hn & Ht & Hd0 & Hr)
  end.
  rewrite Hc.
  destruct r0 as [client|ex].
  2:{ destruct Hr as (-> & Ha). destruct w1 as [e1 t1 n1 a1].
      cbn in He, Hn, Ht, Ha. subst e1 n1 t1 a1. cbn.
      repeat split. eexists. split; [rewrite <- !app_assoc; reflexivity|].
      rewrite commands_run_app, Hd0. cbn. split; [discriminate|]. intros out []. }
  destruct Hr as (pod & Ha). destruct w1 as [e1 t1 n1 a1].
  cbn in He, Hn, Ht, Ha. subst e1 n1 t1 a1.
  clear Hc.
  unfold has_cli, run_command, gen_alphanumeric, get_file, put_file, emit, ask.
  run.
  rewrite (ssh_client_cached _ client) by reflexivity.
  run. name_answers.
  repeat (run_step; name_answers).
  all: repeat split.
  all: eexists; (split; [rewrite <- !app_assoc; reflexivity|]).
  all: rewrite !commands_run_app, !log_lines_app, Hd0.
  all: cbn [app commands_run log_lines flat_map failed_outputs fst snd].
  all: split.
  all: try (intros status out Heq; try discriminate; injection Heq as <- <-;
      match goal with
      | H : negb (?x =? 0) = false |- ?x = 0 =>
          apply negb_false_iff in H; apply Z.eqb_eq in H; exact H
      end).
  all: decide_selected; use_answers; cbn [andb negb app].
  all: intros out Hin; cbn [In] in Hin; try contradiction.
  all: destruct Hin as [<-|[]]; (split; [reflexivity|]).
  all: right; apply in_or_app; right; cbn [In]; auto.
Qed.

(** What [enable_internal_db] leaves behind, whatever its outcome. *)
Lemma enable_internal_db_outcome
    (region : Z) (key_address db_password ssh_password : option string) (w : World) :
  match enable_internal_db region key_address db_password ssh_password w with
  | (r, w') =>
      c_db_address (appliance w') = Some (address (appliance w)) /\
      c_db (appliance w') = None /\
      next_oid w' = next_oid w /\
      exists d,
        trace w' = trace w ++ d /\
        match r with
        | Ok (status, out) =>
            exists cmd res,
              In (cmd, res) (commands_run d) /\
              is_internal_db_command cmd = true /\
              status = rc res /\ out = output res
        | Raise e => e = Exception "SSH is unavailable"
        end
  end.
Proof.
  destruct w as [e t n a].
  unfold enable_internal_db, clear_property_cache_db, log_callback, log, emit, ask,
    self, setattr.
  run.
  match goal with |- context [ssh_client ?w0] =>
    destruct (ssh_client_cases w0) as (r0 & w1 & d0 & Hc & He & Hn & Ht & Hd0 & Hr)
  end.
  rewrite Hc.
  destruct r0 as [client|ex].
  2:{ destruct Hr as (-> & Ha). destruct w1 as [e1 t1 n1 a1].
      cbn in He, Hn, Ht, Ha. subst e1 n1 t1 a1. cbn.
      repeat split. eexists. split; [rewrite <- !app_assoc; reflexivity|].
      reflexivity. }
  destruct Hr as (pod & Ha). destruct w1 as [e1 t1 n1 a1].
  cbn in He, Hn, Ht, Ha. subst e1 n1 t1 a1.
  clear Hc.
  unfold has_cli, run_command, gen_alphanumeric, get_file, put_file, emit, ask.
  run.
  rewrite (ssh_client_cached _ client) by reflexivity.
  run. name_answers.
  repeat (run_step; name_answers).
  all: repeat split.
  all: eexists; (split; [rewrite <- !app_assoc; reflexivity|]).
  all: rewrite !commands_run_app, Hd0.
  all: cbn [app commands_run flat_map fst snd].
  all: eexists _, _; (split; [|split; [|split; reflexivity]]);
    [ cbn [In]; first [ right; left; reflexivity | right; right; left; reflexivity ]
    | reflexivity ].
Qed.

(** C3 (as amended).  When the remote enable-DB command of
    [enable_external_db] ends with a non-zero status, the call raises
    [ApplianceException] with the message
    ['Appliance <address> failed to enable external DB running on <db_address>'];
    the captured output is written to the log at error level, not put in the
    message; [db_address] was set to the new address and the cached [db]
    cleared before the command ran, and they stay so.  A non-zero status is
    never returned. *)
Theorem enable_external_db_failure_is_raised
    (db_addr : string) (region : Z) (db_name db_username db_password : option string)
    (w : World) (r : Result (Z * string)) (w' : World) :
  enable_external_db db_addr region db_name db_username db_password w = (r, w') ->
  exists d,
    trace w' = trace w ++ d /\
    (forall out,
        In out (failed_outputs is_enable_db_command (commands_run d)) ->
        r = Raise (ApplianceException
                     (enable_external_db_failure (address (appliance w)) db_addr)) /\
        In ("error", out) (log_lines d) /\
        c_db_address (appliance w') = Some db_addr /\
        c_db (appliance w') = None) /\
    (forall status out, r = Ok (status, out) -> status = 0).
Proof.
  intros Hrun.
  pose proof (enable_external_db_outcome db_addr region db_name db_username
                db_password w) as H.
  rewrite Hrun in H.
  destruct H as (Haddr & Hdb & _ & d & Ht & Hok & Hfail).
  exists d. split; [exact Ht|]. split; [|exact Hok].
  intros out Hin. destruct (Hfail out Hin) as [Hr Hlog]. auto.
Qed.

Lemma enable_external_db_failure_witness :
  exists d,
    trace (snd (enable_external_db "10.9.9.9" 0 None None None
                  external_db_refuses_world)) =
    trace external_db_refuses_world ++ d /\
    (forall out,
        In out (failed_outputs is_enable_db_command (commands_run d)) ->
        fst (enable_external_db "10.9.9.9" 0 None None None external_db_refuses_world) =
        Raise (ApplianceException
                 (enable_external_db_failure
                    (address (appliance external_db_refuses_world)) "10.9.9.9")) /\
        In ("error", out) (log_lines d) /\
        c_db_address
          (appliance (snd (enable_external_db "10.9.9.9" 0 None None None
                             external_db_refuses_world))) = Some "10.9.9.9" /\
        c_db
          (appliance (snd (enable_external_db "10.9.9.9" 0 None None None
                             external_db_refuses_world))) = None) /\
    (forall status out,
        fst (enable_external_db "10.9.9.9" 0 None None None external_db_refuses_world) =
        Ok (status, out) -> status = 0).
Proof.
  apply (enable_external_db_failure_is_raised "10.9.9.9" 0 None None None
           external_db_refuses_world).
  apply surjective_pairing.
Defined.

(** The claim as written fails: the message of the exception does not hold
    the captured output, and [db_address] is the new address after the
    failure. *)
Lemma enable_external_db_message_lacks_output :
  fst (enable_external_db "10.9.9.9" 0 None None None external_db_refuses_world) =
  Raise (ApplianceException
           "Appliance 10.0.0.1 failed to enable external DB running on 10.9.9.9") /\
  failed_outputs is_enable_db_command
    (commands_run
       (trace (snd (enable_external_db "10.9.9.9" 0 None None None
                      external_db_refuses_world)))) =
  ["FATAL: password authentication failed"] /\
  str_contains "FATAL: password authentication failed"
    "Appliance 10.0.0.1 failed to enable external DB running on 10.9.9.9" = false /\
  c_db_address
    (appliance (snd (enable_external_db "10.9.9.9" 0 None None None
                       external_db_refuses_world))) = Some "10.9.9.9".
Proof. vm_compute. repeat split. Qed.

(** ** The cached database handle *)

(** With the slot of [db] empty, the next access makes a new handle for the
    current [db_address]. *)
Lemma db_after_invalidation (w : World) (a : string) :
  c_db (appliance w) = None ->
  c_db_address (appliance w) = Some a ->
  fst (db w) = Ok {| db_hostname := a; db_oid := next_oid w |}.
Proof.
  destruct w as [e t n app]. cbn. intros Hdb Haddr.
  unfold db, db_address, cached_property, Db, emit, self, setattr.
  run. rewrite Hdb. run. rewrite Haddr. reflexivity.
Qed.

(** C5.  Both operations that change the database address,
    [enable_internal_db] and [enable_external_db], leave the slot of the
    cached [db] empty, whatever their outcome; the next access to [db] makes
    a new handle for the new address, which is not the handle cached
    before. *)
Theorem db_handle_invalidated_by_address_change
    (w : World) (region : Z) (key_address db_password ssh_password : option string)
    (db_addr : string) (db_name db_username : option string) :
  (forall r w',
      enable_internal_db region key_address db_password ssh_password w = (r, w') ->
      c_db (appliance w') = None /\
      fst (db w') = Ok {| db_hostname := address (appliance w); db_oid := next_oid w |} /\
      forall old,
        c_db (appliance w) = Some old -> (db_oid old < next_oid w)%nat ->
        fst (db w') <> Ok old) /\
  (forall r w',
      enable_external_db db_addr region db_name db_username db_password w = (r, w') ->
      c_db (appliance w') = None /\
      fst (db w') = Ok {| db_hostname := db_addr; db_oid := next_oid w |} /\
      forall old,
        c_db (appliance w) = Some old -> (db_oid old < next_oid w)%nat ->
        fst (db w') <> Ok old).
Proof.
  split; intros r w' Hrun.
  - pose proof (enable_internal_db_outcome region key_address db_password
                  ssh_password w) as H.
    rewrite Hrun in H. destruct H as (Haddr & Hdb & Hn & _).
    pose proof (db_after_invalidation w' _ Hdb Haddr) as Hnew. rewrite Hn in Hnew.
    repeat split; [exact Hdb | exact Hnew |].
    intros old _ Hlt Heq. rewrite Hnew in Heq. injection Heq as <-. cbn in Hlt. lia.
  - pose proof (enable_external_db_outcome db_addr region db_name db_username
                  db_password w) as H.
    rewrite Hrun in H. destruct H as (Haddr & Hdb & Hn & _).
    pose proof (db_after_invalidation w' _ Hdb Haddr) as Hnew. rewrite Hn in Hnew.
    repeat split; [exact Hdb | exact Hnew |].
    intros old _ Hlt Heq. rewrite Hnew in Heq. injection Heq as <-. cbn in Hlt. lia.
Qed.

Lemma db_handle_invalidated_witness :
  c_db (appliance world_with_db) = Some {| db_hostname := "10.0.0.1"; db_oid := 0 |} /\
  c_db (appliance (snd (enable_external_db "10.9.9.9" 0 None None None world_with_db)))
  = None /\
  fst (db (snd (enable_external_db "10.9.9.9" 0 None None None world_with_db))) =
  Ok {| db_hostname := "10.9.9.9"; db_oid := 1 |} /\
  fst (db (snd (enable_external_db "10.9.9.9" 0 None None None world_with_db))) <>
  Ok {| db_hostname := "10.0.0.1"; db_oid := 0 |}.
Proof.
  destruct (db_handle_invalidated_by_address_change world_with_db 0 None None None
              "10.9.9.9" None None) as [_ Hext].
  destruct (Hext _ _ (surjective_pairing _)) as (Hnone & Hnew & Hold).
  split; [reflexivity|]. split; [exact Hnone|]. split; [exact Hnew|].
  apply Hold; [reflexivity | cbn; lia].
Defined.

(** ** Server roles *)

Lemma delete_keys_lookup (dead_keys : list string) (roles : gmap string bool)
    (key : string) :
  delete_keys dead_keys roles !! key =
  if bool_decide (key ∈ dead_keys) then None else roles !! key.
Proof.
  unfold delete_keys. revert roles.
  induction dead_keys as [|k l IH]; intros roles; cbn [foldl].
  - rewrite bool_decide_eq_false_2; [reflexivity | apply not_elem_of_nil].
  - rewrite IH. destruct (decide (key ∈ l)) as [Hl|Hl].
    + rewrite !bool_decide_eq_true_2; auto. right; assumption.
    + rewrite (bool_decide_eq_false_2 _ Hl).
      destruct (decide (k = key)) as [->|Hk].
      * rewrite lookup_delete_eq, bool_decide_eq_true_2; [reflexivity | left].
      * rewrite lookup_delete_ne by assumption.
        rewrite bool_decide_eq_false_2; [reflexivity|].
        intros H. apply elem_of_cons in H as [H|H]; auto.
Qed.

Lemma cached_property_stores {A} (slot : App -> option A)
    (store : option A -> App -> App) (compute : Act A) (w w' : World) (v : A) :
  (forall x a, slot (store (Some x) a) = Some x) ->
  cached_property slot store compute w = (Ok v, w') ->
  slot (appliance w') = Some v.
Proof.
  intros Hlaw. unfold cached_property, self, setattr, bind, gets, modify, ret.
  destruct (slot (appliance w)) as [x|] eqn:Hc.
  - intros H. inversion H; subst. exact Hc.
  - destruct (compute w) as [[x|e] w1]; intros H; inversion H; subst.
    cbn. apply Hlaw.
Qed.

Lemma is_storage_enabled_caches (w w' : World) (b : bool) :
  is_storage_enabled w = (Ok b, w') -> c_is_storage_enabled (appliance w') = Some b.
Proof. apply cached_property_stores. reflexivity. Qed.

Lemma is_storage_enabled_cached (w : World) (b : bool) :
  c_is_storage_enabled (appliance w) = Some b -> is_storage_enabled w = (Ok b, w).
Proof.
  intros H. unfold is_storage_enabled, cached_property, self, bind, gets, ret.
  rewrite H. reflexivity.
Qed.

Lemma dead_keys_loop_cached (keys : list string) (acc : list string) (w : World)
    (b : bool) :
  c_is_storage_enabled (appliance w) = Some b ->
  for_each keys acc dead_keys_step w =
  (Ok (acc ++ if b then [] else flat_map storage_dead_keys keys), w).
Proof.
  intros Hc. revert acc. induction keys as [|k keys IH]; intros acc; cbn [for_each].
  - destruct b; cbn; rewrite app_nil_r; reflexivity.
  - unfold bind at 1. unfold dead_keys_step at 1. unfold bind at 1.
    rewrite (is_storage_enabled_cached w b Hc).
    destruct b; cbn [negb]; unfold ret at 1; rewrite IH.
    + reflexivity.
    + cbn [flat_map]. rewrite <- app_assoc. reflexivity.
Qed.

Lemma collect_dead_keys_spec (roles : gmap string bool) (w w' : World)
    (dead_keys : list string) :
  collect_dead_keys roles w = (Ok dead_keys, w') ->
  (roles = ∅ /\ dead_keys = ["database_owner"; "vdi_inventory"] /\ w' = w) \/
  exists storage,
    is_storage_enabled w = (Ok storage, w') /\
    dead_keys = ["database_owner"; "vdi_inventory"] ++
                if storage then [] else flat_map storage_dead_keys (map fst (map_to_list roles)).
Proof.
  unfold collect_dead_keys.
  destruct (map_to_list roles) as [|[k v] rest] eqn:Hl.
  - apply map_to_list_empty_iff in Hl. cbn. intros H. inversion H; subst. auto.
  - cbn [map fst for_each]. intros H. right.
    unfold bind at 1 in H. unfold dead_keys_step at 1 in H. unfold bind at 1 in H.
    destruct (is_storage_enabled w) as [[storage|e] w1] eqn:Hs; [|discriminate].
    pose proof (is_storage_enabled_caches _ _ _ Hs) as Hc.
    exists storage.
    destruct storage; cbn [negb] in H; unfold ret at 1 in H;
      rewrite (dead_keys_loop_cached _ _ _ _ Hc) in H; inversion H; subst.
    + split; [reflexivity|]. rewrite app_nil_r. reflexivity.
    + split; [reflexivity|]. cbn [flat_map fst map]. cbn [app].
      rewrite <- ?app_assoc. reflexivity.
Qed.

Lemma storage_dead_keys_elem (x key : string) :
  x ∈ storage_dead_keys key <->
  x = key /\ (startswith key "storage" || String.eqb key "vmdb_storage_bridge") = true.
Proof.
  unfold storage_dead_keys.
  destruct (startswith key "storage"), (String.eqb key "vmdb_storage_bridge"); cbn;
    rewrite ?elem_of_cons, ?elem_of_nil; intuition congruence.
Qed.

Lemma keys_of_roles (roles : gmap string bool) (key : string) :
  key ∈ map fst (map_to_list roles) <-> is_Some (roles !! key).
Proof.
  rewrite list_elem_of_In, in_map_iff. split.
  - intros ([k v] & <- & Hin). apply list_elem_of_In, elem_of_map_to_list in Hin. eauto.
  - intros [v Hv]. exists (key, v). split; [reflexivity|].
    apply list_elem_of_In, elem_of_map_to_list. exact Hv.
Qed.

(** C9.  The mapping the [server_roles] getter returns never has the keys
    [database_owner] and [vdi_inventory], whether storage is enabled or not.
    It is the mapping of all roles of the store with exactly the suppressed
    keys removed: those two, and, when storage is not enabled, the keys
    starting with [storage] and the key [vmdb_storage_bridge]. *)
Theorem server_roles_view (w : World) (roles : gmap string bool) (w' : World) :
  server_roles w = (Ok roles, w') ->
  roles !! "database_owner" = None /\
  roles !! "vdi_inventory" = None /\
  exists all w1,
    all_server_roles w = (Ok all, w1) /\
    ((all = ∅ /\ roles = ∅ /\ w' = w1) \/
     exists storage,
       is_storage_enabled w1 = (Ok storage, w') /\
       forall key,
         roles !! key = if suppressed_role storage key then None else all !! key).
Proof.
  intros Hrun. unfold server_roles in Hrun. unfold bind at 1 in Hrun.
  destruct (all_server_roles w) as [[all|e] w1] eqn:Hall; [|discriminate].
  unfold bind at 1 in Hrun.
  destruct (collect_dead_keys all w1) as [[dk|e] w2] eqn:Hdk; [|discriminate].
  inversion Hrun; subst roles w'. clear Hrun.
  apply collect_dead_keys_spec in Hdk.
  assert (Hbase : "database_owner" ∈ dk /\ "vdi_inventory" ∈ dk).
  { destruct Hdk as [(_ & -> & _) | (storage & _ & ->)]; split;
      rewrite ?elem_of_app, ?elem_of_cons; auto. }
  destruct Hbase as [Hdo Hvi].
  rewrite !delete_keys_lookup, !bool_decide_eq_true_2 by assumption.
  split; [reflexivity|]. split; [reflexivity|].
  exists all, w1. split; [reflexivity|].
  destruct Hdk as [(-> & -> & ->) | (storage & Hs & ->)].
  - left. split; [reflexivity|]. split; [|reflexivity]. reflexivity.
  - right. exists storage. split; [exact Hs|]. intros key.
    rewrite delete_keys_lookup. unfold suppressed_role.
    destruct (String.eqb key "database_owner") eqn:E1.
    { apply String.eqb_eq in E1 as ->. rewrite bool_decide_eq_true_2; [reflexivity|].
      rewrite elem_of_app, !elem_of_cons. auto. }
    destruct (String.eqb key "vdi_inventory") eqn:E2.
    { apply String.eqb_eq in E2 as ->. rewrite bool_decide_eq_true_2; [reflexivity|].
      rewrite elem_of_app, !elem_of_cons. auto. }
    apply String.eqb_neq in E1, E2. cbn [orb].
    destruct storage; cbn [negb andb].
    + rewrite bool_decide_eq_false_2; [reflexivity|].
      rewrite app_nil_r, !elem_of_cons, elem_of_nil. intuition.
    + destruct (startswith key "storage" || String.eqb key "vmdb_storage_bridge")
        eqn:Hst.
      * destruct (all !! key) as [v|] eqn:Hk.
        -- rewrite bool_decide_eq_true_2; [reflexivity|].
           rewrite elem_of_app. right.
           apply list_elem_of_In, in_flat_map. exists key. split.
           ++ apply list_elem_of_In, keys_of_roles. eauto.
           ++ apply list_elem_of_In, storage_dead_keys_elem. auto.
        -- destruct (bool_decide _); reflexivity.
      * rewrite bool_decide_eq_false_2; [reflexivity|].
        rewrite elem_of_app, !elem_of_cons, elem_of_nil.
        intros [[?|[?|[]]]|Hin]; try congruence.
        apply list_elem_of_In, in_flat_map in Hin as (k & _ & Hin).
        apply list_elem_of_In, storage_dead_keys_elem in Hin as [-> Hin]. congruence.
Qed.

Lemma server_roles_view_witness :
  roles_seen !! "database_owner" = None /\
  roles_seen !! "vdi_inventory" = None /\
  exists all w1,
    all_server_roles roles_world = (Ok all, w1) /\
    ((all = ∅ /\ roles_seen = ∅ /\ snd (server_roles roles_world) = w1) \/
     exists storage,
       is_storage_enabled w1 = (Ok storage, snd (server_roles roles_world)) /\
       forall key,
         roles_seen !! key = if suppressed_role storage key then None else all !! key).
Proof.
  apply (server_roles_view roles_world roles_seen (snd (server_roles roles_world))).
  vm_compute. reflexivity.
Defined.

(** ** What an operation may add to the trace, under an invariant *)

Section EmitsUnder.
Context (I : App -> Prop) (ok : Event -> bool).

Lemma under_pure {A} (m : Act A) :
  (forall w, exists r, m w = (r, w)) -> emits_under I ok m.
Proof.
  intros Hm w r w' HI H. destruct (Hm w) as [r0 H0]. rewrite H0 in H.
  inversion H; subst. split; [assumption|]. exists []. rewrite app_nil_r. auto.
Qed.

Lemma under_ret {A} (a : A) : emits_under I ok (ret a).
Proof. apply under_pure. intros w. eexists. reflexivity. Qed.

Lemma under_raise {A} (e : PyExc) : emits_under I ok (@raise World A e).
Proof. apply under_pure. intros w. eexists. reflexivity. Qed.

Lemma under_gets {A} (f : World -> A) : emits_under I ok (gets f).
Proof. apply under_pure. intros w. eexists. reflexivity. Qed.

Lemma under_self {A} (f : App -> A) : emits_under I ok (self f).
Proof. apply under_gets. Qed.

Lemma under_ask {A} (f : Env -> list Event -> A) : emits_under I ok (ask f).
Proof. apply under_gets. Qed.

Lemma under_setattr (f : App -> App) :
  (forall a, I a -> I (f a)) -> emits_under I ok (setattr f).
Proof.
  intros Hf w r w' HI H. inversion H; subst. cbn. split; [auto|].
  exists []. rewrite app_nil_r. auto.
Qed.

Lemma under_set_next_oid (n : nat) : emits_under I ok (modify (set_next_oid n)).
Proof.
  intros w r w' HI H. inversion H; subst. cbn. split; [auto|].
  exists []. rewrite app_nil_r. auto.
Qed.

Lemma under_emit (e : Event) : ok e = true -> emits_under I ok (emit e).
Proof.
  intros He w r w' HI H. inversion H; subst. cbn. split; [auto|].
  exists [e]. cbn. rewrite He. auto.
Qed.

Lemma under_bind {A B} (m : Act A) (k : A -> Act B) :
  emits_under I ok m -> (forall a, emits_under I ok (k a)) ->
  emits_under I ok (bind m k).
Proof.
  intros Hm Hk w r w' HI H. unfold bind in H.
  destruct (m w) as [[a|e] w1] eqn:E.
  - destruct (Hm _ _ _ HI E) as (HI1 & d1 & Ht1 & Hd1).
    destruct (Hk a _ _ _ HI1 H) as (HI2 & d2 & Ht2 & Hd2).
    split; [assumption|].
    exists (d1 ++ d2). rewrite Ht2, Ht1, <- app_assoc, forallb_app, Hd1, Hd2. auto.
  - inversion H; subst. eauto.
Qed.

Lemma under_try_except {A} (m : Act A) (catches : PyExc -> bool)
    (handler : PyExc -> Act A) :
  emits_under I ok m -> (forall e, emits_under I ok (handler e)) ->
  emits_under I ok (try_except m catches handler).
Proof.
  intros Hm Hh w r w' HI H. unfold try_except in H.
  destruct (m w) as [[a|e] w1] eqn:E.
  - inversion H; subst. eauto.
  - destruct (catches e).
    + destruct (Hm _ _ _ HI E) as (HI1 & d1 & Ht1 & Hd1).
      destruct (Hh e _ _ _ HI1 H) as (HI2 & d2 & Ht2 & Hd2).
      split; [assumption|].
      exists (d1 ++ d2). rewrite Ht2, Ht1, <- app_assoc, forallb_app, Hd1, Hd2. auto.
    + inversion H; subst. eauto.
Qed.

(** A cached property whose slot is filled in every accepted state: the
    stored value is returned, whatever computing it would do. *)
Lemma under_cached_hit {A} (slot : App -> option A)
    (store : option A -> App -> App) (compute : Act A) :
  (forall a, I a -> is_Some (slot a)) ->
  emits_under I ok (cached_property slot store compute).
Proof.
  intros Hhit w r w' HI H.
  unfold cached_property, self, bind, gets in H.
  destruct (Hhit _ HI) as [v Hv]. rewrite Hv in H. inversion H; subst.
  split; [assumption|]. exists []. rewrite app_nil_r. auto.
Qed.

Lemma under_cached_property {A} (slot : App -> option A)
    (store : option A -> App -> App) (compute : Act A) :
  (forall v a, I a -> I (store v a)) ->
  emits_under I ok compute ->
  emits_under I ok (cached_property slot store compute).
Proof.
  intros Hs Hc. unfold cached_property.
  apply under_bind; [apply under_self|].
  intros [v|]; [apply under_ret|].
  apply under_bind; [exact Hc|]. intros v.
  apply under_bind; [apply under_setattr; auto|]. intros _. apply under_ret.
Qed.

Lemma under_for_each {A B} (l : list A) (acc : B) (body : B -> A -> Act B) :
  (forall b x, emits_under I ok (body b x)) -> emits_under I ok (for_each l acc body).
Proof.
  intros Hb. revert acc. induction l as [|x l IH]; intros acc; cbn.
  - apply under_ret.
  - apply under_bind; [apply Hb|]. intros b. apply IH.
Qed.

Lemma under_filterM {A} (f : A -> Act bool) (l : list A) :
  (forall x, emits_under I ok (f x)) -> emits_under I ok (filterM f l).
Proof.
  intros Hf. induction l as [|x l IH]; cbn.
  - apply under_ret.
  - apply under_bind; [apply Hf|]. intros b.
    apply under_bind; [exact IH|]. intros l'. apply under_ret.
Qed.
End EmitsUnder.

(** Walks through an operation under an invariant of the appliance, [side]
    proving that each attribute written keeps the invariant. *)
Ltac under_walk side :=
  lazymatch goal with
  | |- emits_under _ _ (bind _ _) =>
      apply under_bind; [under_walk side | intro; under_walk side]
  | |- emits_under _ _ (ret _) => apply under_ret
  | |- emits_under _ _ (raise _) => apply under_raise
  | |- emits_under _ _ (self _) => apply under_self
  | |- emits_under _ _ (ask _) => apply under_ask
  | |- emits_under _ _ (gets _) => apply under_gets
  | |- emits_under _ _ (setattr _) => apply under_setattr; side
  | |- emits_under _ _ (modify (set_next_oid _)) => apply under_set_next_oid
  | |- emits_under _ _ (emit _) => apply under_emit; reflexivity
  | |- emits_under _ _ (try_except _ _ _) =>
      apply under_try_except; [under_walk side | intro; under_walk side]
  | |- emits_under _ _ (py_and _ _) => unfold py_and; under_walk side
  | |- emits_under _ _ (py_or _ _) => unfold py_or; under_walk side
  | |- emits_under _ _ (cached_property _ _ _) =>
      first [ apply under_cached_hit; solve [side]
            | apply under_cached_property; [side | under_walk side] ]
  | |- emits_under _ _ (for_each _ _ _) =>
      apply under_for_each; intros; under_walk side
  | |- emits_under _ _ (filterM _ _) => apply under_filterM; intros; under_walk side
  | |- emits_under _ _ (if ?b then _ else _) => destruct b; under_walk side
  | |- emits_under _ _ (match ?x with _ => _ end) => destruct x; under_walk side
  | |- emits_under _ _ (let _ := _ in _) => cbv zeta; under_walk side
  | |- emits_under _ _ ?m => let h := head_of m in unfold h; under_walk side
  end.

(** ** Setting the server roles *)

Ltac prepared_side :=
  unfold roles_read_prepared; cbn; intros; intuition.

(** With the storage flag and the database handle cached, reading the roles
    is a plain read of the store. *)
Lemma server_roles_plain_read :
  emits_under roles_read_prepared is_plain_read server_roles.
Proof.
  under_walk prepared_side.
Qed.

(** Reading the roles never writes the configuration. *)
Lemma server_roles_never_writes :
  emits (fun e => negb (is_config_write e)) server_roles.
Proof. emits_walk. Qed.

Lemma forallb_weaken {A} (p q : A -> bool) (l : list A) :
  (forall x, p x = true -> q x = true) -> forallb p l = true -> forallb q l = true.
Proof.
  intros Hpq. induction l as [|x l IH]; cbn; [auto|].
  intros H. apply andb_prop in H as [Hx Hl]. rewrite (Hpq _ Hx), (IH Hl). reflexivity.
Qed.

Lemma plain_read_is_no_fetch (e : Event) :
  is_plain_read e = true -> negb (is_config_fetch e) = true.
Proof. destruct e; cbn; try reflexivity; try discriminate. auto. Qed.

(** C4 (as amended).  Assigning [server_roles] a mapping equal to the one the
    getter reads does nothing beyond that read and a debug log line: no
    configuration is written and there is no wait for convergence.  The read
    itself may fetch the YAML configuration, to compute [is_storage_enabled]
    when that is not cached yet (or the database address when there is no
    handle yet); with both cached, the whole assignment is a plain read of
    the store, without any fetch of the configuration and without a sleep. *)
Theorem set_server_roles_matching_is_noop
    (w : World) (roles : gmap string bool) (w1 : World) :
  server_roles w = (Ok roles, w1) ->
  set_server_roles roles w =
    (Ok tt, set_trace (trace w1 ++ [EvLog "debug" " Roles already match, returning..."]) w1) /\
  exists d,
    trace w1 = trace w ++ d /\
    forallb (fun e => negb (is_config_write e)) d = true /\
    (roles_read_prepared (appliance w) ->
     forallb is_plain_read d = true /\
     forallb (fun e => negb (is_config_fetch e)) d = true).
Proof.
  intros Hread. split.
  - unfold set_server_roles, bind. rewrite Hread.
    rewrite bool_decide_eq_true_2 by reflexivity. reflexivity.
  - destruct (server_roles_never_writes _ _ _ Hread) as (_ & d & Ht & Hd).
    exists d. split; [exact Ht|]. split; [exact Hd|].
    intros Hprep.
    destruct (server_roles_plain_read _ _ _ Hprep Hread) as (_ & d' & Ht' & Hd').
    assert (d' = d) as -> by (rewrite Ht in Ht'; eapply app_inv_head; eauto).
    split; [exact Hd'|].
    eapply forallb_weaken; [|exact Hd']. apply plain_read_is_no_fetch.
Qed.

Lemma set_server_roles_noop_witness :
  set_server_roles roles_seen prepared_roles_world =
    (Ok tt,
     set_trace (trace (snd (server_roles prepared_roles_world)) ++
                [EvLog "debug" " Roles already match, returning..."])
       (snd (server_roles prepared_roles_world))) /\
  exists d,
    trace (snd (server_roles prepared_roles_world)) = trace prepared_roles_world ++ d /\
    forallb (fun e => negb (is_config_write e)) d = true /\
    forallb is_plain_read d = true /\
    forallb (fun e => negb (is_config_fetch e)) d = true.
Proof.
  destruct (set_server_roles_matching_is_noop prepared_roles_world roles_seen
              (snd (server_roles prepared_roles_world)))
    as (Hset & d & Ht & Hw & Hp).
  - vm_compute. reflexivity.
  - split; [exact Hset|]. exists d. split; [exact Ht|]. split; [exact Hw|].
    apply Hp. split; eexists; vm_compute; reflexivity.
Defined.

(** The claim as written fails: on an appliance whose storage flag is not
    cached yet, assigning the roles it already has fetches the YAML
    configuration. *)
Lemma matching_roles_set_fetches_config :
  fst (server_roles roles_world) = Ok roles_seen /\
  fst (set_server_roles roles_seen roles_world) = Ok tt /\
  existsb is_config_fetch (trace (snd (set_server_roles roles_seen roles_world))) = true.
Proof. vm_compute. repeat split. Qed.

(** ** Server identity *)

(** Once cached, [db] and [guid] are returned without any effect. *)
Lemma db_cached (w : World) (h : DbHandle) :
  c_db (appliance w) = Some h -> db w = (Ok h, w).
Proof.
  intros H. unfold db, cached_property, self, bind, gets, ret. rewrite H. reflexivity.
Qed.

Lemma guid_cached (w : World) (g : string) :
  c_guid (appliance w) = Some g -> guid w = (Ok g, w).
Proof.
  intros H. unfold guid, cached_property, self, bind, gets, ret. rewrite H. reflexivity.
Qed.

(** With the handle and the GUID at hand the filter is a pure test. *)
Lemma server_filter_pure (region : Z) (s : MiqServer) (w : World) (h : DbHandle)
    (g : string) :
  c_db (appliance w) = Some h ->
  (String.eqb (srv_ipaddress s) (db_hostname h) = false -> c_guid (appliance w) = Some g) ->
  server_filter (region * SEQ_FACT) (region * SEQ_FACT + SEQ_FACT) s w =
  (Ok (server_matches region (db_hostname h) g s), w).
Proof.
  intros Hdb Hg. unfold server_filter, py_or, server_matches.
  rewrite (bind_Ok _ _ _ _ _ (db_cached w h Hdb)).
  destruct (String.eqb (srv_ipaddress s) (db_hostname h)) eqn:E.
  - reflexivity.
  - unfold bind at 1. unfold bind at 1. unfold ret at 1.
    rewrite (bind_Ok _ _ _ _ _ (guid_cached w g (Hg eq_refl))). reflexivity.
Qed.

Lemma filterM_server_filter (region : Z) (servers : list MiqServer) (w : World)
    (h : DbHandle) (g : string) :
  c_db (appliance w) = Some h -> c_guid (appliance w) = Some g ->
  filterM (server_filter (region * SEQ_FACT) (region * SEQ_FACT + SEQ_FACT)) servers w =
  (Ok (List.filter (server_matches region (db_hostname h) g) servers), w).
Proof.
  intros Hdb Hg. induction servers as [|s l IH]; [reflexivity|].
  cbn [filterM List.filter].
  rewrite (bind_Ok _ _ _ _ _ (server_filter_pure region s w h g Hdb (fun _ => Hg))).
  rewrite (bind_Ok _ _ _ _ _ IH). reflexivity.
Qed.

(** What [configuration_details] computes from a store that has a region
    row. *)
Lemma configuration_details_resolved (w : World) (h : DbHandle) (store : Database)
    (region : MiqRegion) (regions : list MiqRegion) (servers : list MiqServer)
    (g : string) :
  c_configuration_details (appliance w) = None ->
  c_db (appliance w) = Some h ->
  (length servers <> 1%nat -> c_guid (appliance w) = Some g) ->
  (forall t, database (env w) t (db_hostname h) = store) ->
  miq_regions_table store = Some (region :: regions) ->
  miq_servers_table store = Some servers ->
  fst (configuration_details w) =
  Ok (Some (match chosen_server (reg_region region) (db_hostname h) g servers with
            | Some s => Some (reg_region region, srv_name s, srv_id s, srv_zone_id s)
            | None => None
            end)).
Proof.
  intros Hcd Hdb Hg Hstore Hreg Hsrv.
  destruct w as [e t n a]. destruct a. cbn in Hcd, Hdb, Hg, Hstore. subst.
  unfold configuration_details, cached_property, db, db_getitem, db_query,
    db_snapshot, emit, ask, self, setattr.
  run. rewrite !Hstore, Hsrv. run. rewrite !Hstore, Hreg. run.
  rewrite !Hstore, Hreg. run. rewrite !Hstore, Hsrv. run.
  destruct servers as [|s1 [|s2 rest]].
  - reflexivity.
  - reflexivity.
  - cbn [length Nat.eqb].
    match goal with |- context [filterM ?f ?l ?w0] =>
      rewrite (filterM_server_filter (reg_region region) l w0 h g eq_refl
                 (Hg ltac:(cbn; lia)))
    end.
    unfold chosen_server.
    destruct (head _) as [s|]; reflexivity.
Qed.

Lemma head_filter_none {A} (p : A -> bool) (l : list A) :
  (forall x, In x l -> p x = false) -> head (List.filter p l) = None.
Proof.
  induction l as [|x l IH]; [reflexivity|]. intros H. cbn.
  rewrite (H x (or_introl eq_refl)). apply IH. intros y Hy. apply H. right. exact Hy.
Qed.




(** * Further properties *)

(** ** Equality and hashing *)

(** X1.  [==] on appliances is an equivalence relation, although the [__eq__]
    methods, called directly, are not symmetric. *)
Theorem py_eq_is_an_equivalence (u v w : Instance) :
  py_eq u u = true /\
  py_eq u v = py_eq v u /\
  (py_eq u v = true -> py_eq v w = true -> py_eq u w = true).
Proof.
  destruct u as [ou cu au bu ku nu], v as [ov cv av bv kv nv],
    w as [ow cw aw bw kw nw].
  split; [|split].
  - destruct cu; cbn; unfold py_is, IPAppliance.__eq__, Appliance.__eq__, isinstance;
      cbn; rewrite ?Nat.eqb_refl, ?String.eqb_refl; reflexivity.
  - destruct cu, cv; cbn;
      unfold py_is, IPAppliance.__eq__, Appliance.__eq__, isinstance; cbn;
      rewrite ?(Nat.eqb_sym ou ov), ?(String.eqb_sym au av), ?(String.eqb_sym nu nv),
        ?(String.eqb_sym ku kv); reflexivity.
  - destruct cu, cv, cw; cbn;
      unfold py_is, IPAppliance.__eq__, Appliance.__eq__, isinstance; cbn;
      try discriminate; try (intros _; discriminate).
    + rewrite !Nat.eqb_eq. congruence.
    + rewrite !String.eqb_eq. congruence.
    + rewrite !andb_true_iff, !String.eqb_eq. intuition congruence.
Qed.

Lemma py_eq_is_an_equivalence_witness :
  py_eq bare_appliance
    {| oid := 9; cls := ClsIPAppliance; inst_address := "10.0.0.1";
       browser_steal := true; _provider_key := ""; vmname := "" |} = true.
Proof.
  apply (py_eq_is_an_equivalence bare_appliance
           {| oid := 5; cls := ClsIPAppliance; inst_address := "10.0.0.1";
              browser_steal := false; _provider_key := ""; vmname := "" |}
           {| oid := 9; cls := ClsIPAppliance; inst_address := "10.0.0.1";
              browser_steal := true; _provider_key := ""; vmname := "" |});
    reflexivity.
Defined.

(** X2.  Objects that compare equal hash alike. *)
Theorem equal_appliances_hash_alike (v w : Instance) :
  py_eq v w = true -> __hash__ v = __hash__ w.
Proof.
  destruct v as [ov cv av bv kv nv], w as [ow cw aw bw kw nw].
  unfold __hash__.
  destruct cv, cw; cbn;
    unfold py_is, IPAppliance.__eq__, Appliance.__eq__, isinstance; cbn;
    try discriminate.
  - intros H. apply Nat.eqb_eq in H. congruence.
  - intros H. apply String.eqb_eq in H. congruence.
  - intros H. apply andb_true_iff in H as [H1 H2].
    apply String.eqb_eq in H1, H2. congruence.
Qed.

Lemma equal_appliances_hash_alike_witness :
  __hash__ bare_appliance =
  __hash__ {| oid := 9; cls := ClsIPAppliance; inst_address := "10.0.0.1";
              browser_steal := true; _provider_key := ""; vmname := "" |}.
Proof. apply equal_appliances_hash_alike. reflexivity. Defined.

(** ** Scopes *)

Section Scopes.
Import ApplianceStack.

Lemma push_spec (obj : Instance) (s : State) :
  exists evs,
    push obj s = (Ok tt, {| items := items s ++ [obj]; events := evs |}) /\
    browser_starts evs =
      (browser_starts (events s) + if browser_steal obj then 1 else 0)%nat.
Proof.
  unfold push, top, LocalStack_push, emit, bind, gets, modify, ret. cbn.
  destruct (browser_steal obj); cbn; eexists; (split; [reflexivity|]);
    unfold browser_starts; rewrite ?List.filter_app, ?List.length_app; cbn; lia.
Qed.

Lemma exit_on_top (self : Instance) (capture : option PyExc) (l : list Instance)
    (evs : list StackEvent) :
  exists evs',
    __exit__ self capture {| items := l ++ [self]; events := evs |} =
      (Ok tt, {| items := l; events := evs' |}) /\
    browser_starts evs' =
      (browser_starts evs + if browser_steal self then 1 else 0)%nat.
Proof.
  unfold __exit__, try_finally, try_except, _screenshot_capture_at_context_leave,
    pop, LocalStack_pop, top, emit, bind, gets, modify, raise, ret.
  destruct capture; cbn; rewrite last_snoc, removelast_last; cbn;
    unfold py_is; destruct (browser_steal self); cbn; rewrite ?Nat.eqb_refl;
    eexists; (split; [reflexivity|]);
    unfold browser_starts; rewrite ?List.filter_app, ?List.length_app; cbn; lia.
Qed.

(** X3.  A scope whose body leaves the stack as it found it restores the stack
    and hands on the outcome of the body, whatever the screenshot attempt
    did; the consistency check never fails.  The browser is started once on
    entry and once on exit when the appliance steals the browser, and not at
    all otherwise. *)
Theorem scope_restores_stack {A} (self : Instance) (capture : option PyExc)
    (body : M State A) (s : State) :
  items (snd (body (snd (__enter__ self s)))) = items (snd (__enter__ self s)) ->
  exists s',
    with_appliance self capture body s = (fst (body (snd (__enter__ self s))), s') /\
    items s' = items s /\
    browser_starts (events s') =
      (browser_starts (events (snd (body (snd (__enter__ self s))))) +
       if browser_steal self then 1 else 0)%nat /\
    browser_starts (events (snd (__enter__ self s))) =
      (browser_starts (events s) + if browser_steal self then 1 else 0)%nat.
Proof.
  destruct (push_spec self s) as (evs & Hpush & Hstarts).
  assert (Henter : __enter__ self s =
                     (Ok self, {| items := items s ++ [self]; events := evs |})).
  { unfold __enter__, bind. rewrite Hpush. reflexivity. }
  unfold with_appliance. rewrite (bind_Ok _ _ _ _ _ Henter), !Henter.
  cbn [snd]. unfold try_finally.
  destruct (body _) as [r [l2 ev2]]. cbn [snd fst items events].
  intros ->.
  destruct (exit_on_top self capture (items s) ev2) as (evs' & Hexit & Hstarts').
  rewrite Hexit. eexists. split; [reflexivity|]. cbn. auto.
Qed.

Lemma scope_restores_stack_witness :
  exists s',
    with_appliance backed_appliance None
      (with_appliance bare_appliance (Some (Exception "no display"))
         (raise (KeyError "k") : M State unit))
      {| items := [bare_appliance]; events := [] |} =
      (Raise (KeyError "k"), s') /\
    items s' = [bare_appliance].
Proof.
  destruct (scope_restores_stack backed_appliance None
              (with_appliance bare_appliance (Some (Exception "no display"))
                 (raise (KeyError "k") : M State unit))
              {| items := [bare_appliance]; events := [] |} eq_refl)
    as (s' & H & Hi & _).
  exists s'. split; [exact H | exact Hi].
Defined.

End Scopes.

Section Current.
Import ApplianceStack.

Lemma last_None_nil {A} (l : list A) : last l = None -> l = [].
Proof.
  destruct l as [|x l] using rev_ind; [reflexivity|].
  rewrite last_snoc. discriminate.
Qed.

Lemma current_appliance_top (urlparse : string -> ParseResult) (new_oid : nat)
    (base_url : option string) (openshift_is_dict : bool) (s : State) (a : Instance) :
  last (items s) = Some a ->
  get_or_create_current_appliance urlparse new_oid base_url openshift_is_dict s =
  (Ok (Some a), s).
Proof.
  intros H. unfold get_or_create_current_appliance, top, bind, gets, ret.
  rewrite H. cbn. rewrite H. reflexivity.
Qed.

(** X4.  The current appliance is created at most once: a call on a non-empty
    stack returns the top and changes nothing, without looking at the
    configuration; a call on the empty stack either raises and leaves the
    stack empty, or pushes one new appliance, which does not steal the
    browser, and every later call returns that same object.  The result is
    never [None]. *)
Theorem current_appliance_is_created_once (urlparse : string -> ParseResult)
    (new_oid : nat) (base_url : option string) (openshift_is_dict : bool) (s : State) :
  match get_or_create_current_appliance urlparse new_oid base_url openshift_is_dict s with
  | (Ok r, s') =>
      exists a,
        r = Some a /\
        match last (items s) with
        | Some t => a = t /\ s' = s
        | None =>
            items s' = [a] /\ oid a = new_oid /\ browser_steal a = false /\
            browser_starts (events s') = browser_starts (events s)
        end /\
        forall urlparse' oid' base_url' dict',
          get_or_create_current_appliance urlparse' oid' base_url' dict' s' =
          (Ok (Some a), s')
  | (Raise e, s') =>
      s' = s /\ items s = [] /\
      match base_url with
      | None => e = ValueError "No IP address specified! Specified: None"
      | Some u =>
          if String.eqb (lower u) "none"
          then e = ValueError ("No IP address specified! Specified: '" +:+ u +:+ "'")
          else openshift_is_dict = false /\
               e = TypeError "The openshift entry in env.yaml must be a dictionary"
      end
  end.
Proof.
  destruct (last (items s)) as [t|] eqn:Hlast.
  - rewrite (current_appliance_top _ _ _ _ _ _ Hlast).
    exists t. split; [reflexivity|]. split; [auto|].
    intros. apply current_appliance_top. exact Hlast.
  - pose proof (last_None_nil _ Hlast) as Hnil.
    unfold get_or_create_current_appliance.
    unfold bind at 1. unfold top at 1, gets at 1. rewrite Hlast.
    destruct base_url as [u|].
    + destruct (String.eqb (lower u) "none") eqn:Hnone.
      * cbn. auto.
      * destruct openshift_is_dict; cbn [negb].
        -- unfold push, top, LocalStack_push, emit, bind, gets, modify, ret.
           rewrite Hlast. cbn. rewrite Hnil. cbn.
           eexists. split; [reflexivity|]. split.
           ++ repeat split. unfold browser_starts.
              rewrite List.filter_app, List.length_app. cbn. lia.
           ++ intros. reflexivity.
        -- cbn. auto.
    + cbn. auto.
Qed.

End Current.

(** ** The EVM service *)

(** Opens the case analysis on the first [ssh_client] of the goal: the
    branch where it raised comes second. *)
Ltac open_ssh_client client d0 Hd0 :=
  match goal with
  | |- context [ssh_client ?w0] =>
      let r0 := fresh "r0" in
      let w1 := fresh "w1" in
      let Hc := fresh "Hc" in
      let He := fresh "He" in
      let Hn := fresh "Hn" in
      let Ht := fresh "Ht" in
      let Hr := fresh "Hr" in
      let Ha := fresh "Ha" in
      let pod := fresh "pod" in
      destruct (ssh_client_cases w0) as (r0 & w1 & d0 & Hc & He & Hn & Ht & Hd0 & Hr);
      rewrite Hc; clear Hc;
      destruct r0 as [client|?ex];
      [ destruct Hr as (pod & Ha) | destruct Hr as (-> & Ha) ];
      destruct w1 as [?e1 ?t1 ?n1 ?a1]; cbn in He, Hn, Ht, Ha; subst
  end.

Lemma prefix_refl (s : string) : String.prefix s s = true.
Proof.
  induction s as [|c s IH]; [reflexivity|]. cbn.
  destruct (Ascii.ascii_dec c c); [exact IH | congruence].
Qed.

Lemma str_contains_refl (s : string) : str_contains s s = true.
Proof. destruct s; cbn; [reflexivity|]. rewrite prefix_refl. destruct (Ascii.ascii_dec a a); [reflexivity|congruence]. Qed.

Lemma str_contains_tail (a b s : string) :
  str_contains s b = true -> str_contains s (a +:+ b) = true.
Proof.
  intros H. induction a as [|c a IH]; [exact H|].
  change (String c a +:+ b) with (String c (a +:+ b)).
  change (str_contains s (String c (a +:+ b)))
    with (String.prefix s (String c (a +:+ b)) || str_contains s (a +:+ b)).
  rewrite IH. apply orb_true_r.
Qed.

(** [_evm_service_command] runs one command, unless there is no SSH; the
    status of that command decides the outcome. *)
Lemma evm_service_command_cases (prefix command : string) (expected : option Z)
    (w : World) :
  match _evm_service_command prefix command expected w with
  | (r, w') =>
      exists d,
        trace w' = trace w ++ d /\
        ((commands_run d = [] /\ r = Raise (Exception "SSH is unavailable") /\
          appliance w' = appliance w) \/
         exists res pod client,
           commands_run d = [(evm_systemctl command, res)] /\
           appliance w' = set_c_ssh_client (Some client) (set_is_pod pod (appliance w)) /\
           r = match expected with
               | Some x =>
                   if rc res =? x then Ok (rc res)
                   else Raise (ApplianceException
                                 (evm_service_failure command (address (appliance w))
                                    (output res)))
               | None => Ok (rc res)
               end)
  end.
Proof.
  destruct w as [e t n a].
  unfold _evm_service_command, log_callback, run_command, emit, ask, self.
  run.
  open_ssh_client client d0 Hd0.
  - run. name_answers.
    destruct expected as [x|]; run.
    + destruct (rc res =? x) eqn:E; run;
        (eexists; split; [rewrite <- !app_assoc; reflexivity|]);
        right; exists res, pod, client; rewrite !commands_run_app, Hd0, ?E; cbn;
        repeat split; reflexivity.
    + eexists; split; [rewrite <- !app_assoc; reflexivity|].
      right; exists res, pod, client; rewrite !commands_run_app, Hd0; cbn.
      repeat split; reflexivity.
  - run. eexists. split; [rewrite <- !app_assoc; reflexivity|].
    left. rewrite !commands_run_app, Hd0. repeat split; reflexivity.
Qed.

(** X5.  [_evm_service_command] with an expected exit status returns only that
    status; with any other status of the [systemctl] command it raises
    [ApplianceException], and the message carries the output of the
    command. *)
Theorem evm_service_failure_carries_output (prefix command : string) (expected : Z)
    (w : World) :
  match _evm_service_command prefix command (Some expected) w with
  | (r, w') =>
      exists d,
        trace w' = trace w ++ d /\
        match r with
        | Ok status =>
            status = expected /\
            exists res, commands_run d = [(evm_systemctl command, res)] /\ rc res = status
        | Raise e =>
            (commands_run d = [] /\ e = Exception "SSH is unavailable") \/
            exists res,
              commands_run d = [(evm_systemctl command, res)] /\
              rc res <> expected /\
              e = ApplianceException
                    (evm_service_failure command (address (appliance w)) (output res)) /\
              str_contains (output res)
                (evm_service_failure command (address (appliance w)) (output res)) = true
        end
  end.
Proof.
  pose proof (evm_service_command_cases prefix command (Some expected) w) as H.
  revert H. destruct (_evm_service_command _ _ _ w) as [r w'].
  intros (d & Ht & H). exists d. split; [exact Ht|].
  destruct H as [(Hd & -> & _) | (res & pod & client & Hd & _ & ->)].
  - left. auto.
  - destruct (rc res =? expected) eqn:E.
    + apply Z.eqb_eq in E. split; [exact E|]. exists res. auto.
    + apply Z.eqb_neq in E. right. exists res. repeat split; try assumption.
      unfold evm_service_failure. repeat apply str_contains_tail.
      apply str_contains_refl.
Qed.

(** X6.  [is_evm_service_running] runs [systemctl status evmserverd] once and
    answers whether its status was 0; a stopped service is an answer, not an
    exception. *)
Theorem is_evm_service_running_reads_status (w : World) :
  match is_evm_service_running w with
  | (r, w') =>
      exists d,
        trace w' = trace w ++ d /\
        ((commands_run d = [] /\ r = Raise (Exception "SSH is unavailable")) \/
         exists res,
           commands_run d = [(evm_systemctl "status", res)] /\
           r = Ok (rc res =? 0))
  end.
Proof.
  unfold is_evm_service_running, bind.
  pose proof (evm_service_command_cases "Status of EVM service: " "status" None w) as H.
  revert H. destruct (_evm_service_command _ _ _ w) as [r w'].
  cbv beta iota. intros (d & Ht & H).
  destruct H as [(Hd & -> & _) | (res & pod & client & Hd & _ & ->)];
    cbv beta iota; exists d.
  - split; [exact Ht|]. left. auto.
  - split; [exact Ht|]. right. exists res. auto.
Qed.

Arguments _evm_service_command : simpl never.

Ltac open_service_command d Ht H :=
  match goal with
  | |- context [_evm_service_command ?p ?c ?x ?w0] =>
      let rs := fresh "rs" in
      let ws := fresh "ws" in
      pose proof (evm_service_command_cases p c x w0) as H;
      revert H; destruct (_evm_service_command p c x w0) as [rs ws];
      intros (d & Ht & H); cbn in Ht
  end.

(** X7.  [stop_evm_service] and [start_evm_service] return only when the
    [systemctl] command ended with status 0, and neither touches the cached
    server details. *)
Theorem stop_and_start_expect_success (start : bool) (w : World) :
  match (if start then start_evm_service else stop_evm_service) w with
  | (r, w') =>
      c_configuration_details (appliance w') = c_configuration_details (appliance w) /\
      c_zone_description (appliance w') = c_zone_description (appliance w) /\
      exists d,
        trace w' = trace w ++ d /\
        match r with
        | Ok _ =>
            exists res,
              commands_run d = [(evm_systemctl (if start then "start" else "stop"), res)] /\
              rc res = 0
        | Raise e =>
            commands_run d = [] /\ e = Exception "SSH is unavailable" \/
            exists res,
              commands_run d = [(evm_systemctl (if start then "start" else "stop"), res)] /\
              rc res <> 0 /\
              e = ApplianceException
                    (evm_service_failure (if start then "start" else "stop")
                       (address (appliance w)) (output res))
        end
  end.
Proof.
  destruct start; unfold start_evm_service, stop_evm_service, bind;
    open_service_command d Ht H;
    (destruct H as [(Hd & -> & Ha) | (res & pod & client & Hd & Ha & ->)];
     [ rewrite Ha; repeat split; exists d; split; [exact Ht|]; left; auto
     | destruct (rc res =? 0) eqn:E; cbn; rewrite Ha; repeat split; exists d;
       (split; [exact Ht|]);
       [ exists res; apply Z.eqb_eq in E; auto
       | right; exists res; apply Z.eqb_neq in E; auto ] ]).
Qed.

(** X8.  [restart_evm_service] clears the cached server details exactly when it
    returns: it returns only after the [systemctl] command ended with status
    0, and when it raises the cached details are as before.  A rude restart
    kills the Ruby processes and restarts PostgreSQL first, and then starts
    the service, whatever the status of the kill command. *)
Theorem restart_evm_service_clears_details_on_success (rude : bool) (w : World) :
  let verb := if rude then "start" else "restart" in
  match restart_evm_service rude w with
  | (r, w') =>
      exists d,
        trace w' = trace w ++ d /\
        match r with
        | Ok _ =>
            c_configuration_details (appliance w') = None /\
            c_zone_description (appliance w') = None /\
            map fst (commands_run d) =
              (if rude then [rude_restart_command] else []) ++ [evm_systemctl verb] /\
            exists res, last (commands_run d) = Some (evm_systemctl verb, res) /\ rc res = 0
        | Raise e =>
            c_configuration_details (appliance w') =
              c_configuration_details (appliance w) /\
            c_zone_description (appliance w') = c_zone_description (appliance w) /\
            (e = Exception "SSH is unavailable" \/
             exists res,
               last (commands_run d) = Some (evm_systemctl verb, res) /\
               rc res <> 0 /\
               e = ApplianceException
                     (evm_service_failure verb (address (appliance w)) (output res)))
        end
  end.
Proof.
  intros verb. subst verb. destruct w as [e t n a].
  unfold restart_evm_service, server_details_changed, log, log_callback, run_command,
    emit, ask, setattr.
  run.
  open_ssh_client client d0 Hd0.
  2:{ run. eexists. split; [rewrite <- !app_assoc; reflexivity|]. auto. }
  destruct rude; run; name_answers; open_service_command d Ht H;
    (destruct H as [(Hd & -> & Ha) | (res' & pod' & client' & Hd & Ha & ->)];
     [ cbn in Ha; rewrite Ha; cbn;
       eexists; (split; [rewrite Ht, <- !app_assoc; reflexivity|]); auto
     | cbn in Ha; destruct (rc res' =? 0) eqn:E; cbn; cbn in Ha; rewrite ?Ha; cbn;
       (eexists; split; [rewrite Ht, <- !app_assoc; reflexivity|]);
       rewrite !commands_run_app, Hd0, Hd; cbn;
       [ apply Z.eqb_eq in E; repeat split; exists res'; auto
       | apply Z.eqb_neq in E; repeat split; right; exists res'; auto ] ]).
Qed.

(** ** The configuration and the SSH client *)

Lemma rails_commands_run_app (d1 d2 : list Event) :
  rails_commands_run (d1 ++ d2) = rails_commands_run d1 ++ rails_commands_run d2.
Proof. unfold rails_commands_run. apply flat_map_app. Qed.

Lemma ssh_client_runs_nothing (w : World) :
  exists r w' d,
    ssh_client w = (r, w') /\
    env w' = env w /\ next_oid w' = next_oid w /\
    trace w' = trace w ++ d /\ commands_run d = [] /\ rails_commands_run d = [] /\
    match r with
    | Ok c =>
        exists pod,
          appliance w' = set_c_ssh_client (Some c) (set_is_pod pod (appliance w))
    | Raise e => e = Exception "SSH is unavailable" /\ appliance w' = appliance w
    end.
Proof.
  destruct w as [e t n a]. destruct a.
  unfold ssh_client, cached_property, is_ssh_running, net_check,
    SSHClient_connect, ssh_client_with_privatekey, log, emit, ask, self, setattr.
  run.
  repeat run_step.
  all: eexists _, _, _; (split; [reflexivity|]); cbn;
    rewrite <- ?app_assoc; cbn;
    repeat split; try reflexivity;
    try (rewrite app_nil_r; reflexivity).
  all: try (eexists; reflexivity).
Qed.

(** X9.  [get_yaml_config] dumps the configuration with a Rails command and
    reads the dump back: when the dump fails the file is not read, when
    either step fails the call raises ['Error obtaining config'] after
    logging the output of the failed step as an error, and otherwise the
    result is what the YAML parser makes of the text read. *)
Theorem get_yaml_config_outcome (w : World) :
  match get_yaml_config w with
  | (r, w') =>
      exists d,
        trace w' = trace w ++ d /\
        ((r = Raise (Exception "SSH is unavailable") /\
          rails_commands_run d = [] /\ commands_run d = []) \/
         exists dump,
           rails_commands_run d = [(yaml_dump_command, dump)] /\
           if negb (rc dump =? 0) then
             r = Raise (Exception "Error obtaining config") /\
             commands_run d = [] /\
             In ("error", output dump) (log_lines d)
           else
             exists text,
               commands_run d = [(yaml_cat_command, text)] /\
               if negb (rc text =? 0) then
                 r = Raise (Exception "Error obtaining config") /\
                 In ("error", output text) (log_lines d)
               else
                 r = match yaml_load (env w) (output text) with
                     | Some doc => Ok doc
                     | None => Raise (Exception "YAMLError")
                     end)
  end.
Proof.
  destruct w as [e t n a].
  unfold get_yaml_config, run_rails_command, run_command, log, emit, ask.
  run.
  match goal with |- context [ssh_client ?w0] =>
    destruct (ssh_client_runs_nothing w0)
      as (r0 & w1 & d0 & Hc & He & Hn & Ht & Hd0 & Hr0 & Hr)
  end.
  rewrite Hc. clear Hc.
  destruct r0 as [client|ex];
    [destruct Hr as (pod & Ha) | destruct Hr as (-> & Ha)];
    destruct w1 as [e1 t1 n1 a1]; cbn in He, Hn, Ht, Ha; subst.
  2:{ run. exists d0. split; [reflexivity|]. left. auto. }
  run. name_answers.
  destruct (negb (rc res =? 0)) eqn:Edump; run.
  - eexists. split; [rewrite <- !app_assoc; reflexivity|]. right. exists res.
    rewrite !rails_commands_run_app, !commands_run_app, !log_lines_app, Hd0, Hr0, Edump.
    cbn. repeat split. apply in_or_app. right. cbn. auto.
  - rewrite (ssh_client_cached _ client) by reflexivity.
    run. name_answers.
    destruct (negb (rc res0 =? 0)) eqn:Ecat; run.
    + eexists. split; [rewrite <- !app_assoc; reflexivity|]. right. exists res.
      rewrite !rails_commands_run_app, !commands_run_app, !log_lines_app, Hd0, Hr0, Edump.
      cbn. split; [reflexivity|]. exists res0. rewrite Ecat. split; [reflexivity|].
      split; [reflexivity|]. apply in_or_app. right. cbn. auto.
    + destruct (yaml_load e (output res0)) eqn:Eload; run.
      all: eexists; (split; [rewrite <- !app_assoc; reflexivity|]); right; exists res.
      all: rewrite !rails_commands_run_app, !commands_run_app, Hd0, Hr0, Edump.
      all: cbn; (split; [reflexivity|]); exists res0; rewrite Ecat, ?Eload; auto.
Qed.

(** What the body of [get_host_address] makes of the fetch. *)
Lemma host_address_of_fetch (w : World) :
  exists w1,
    try_except
      (let! cfg := get_yaml_config in
       let! server := yaml_get cfg "server" YNull in
       if yaml_truthy server then yaml_get server "host" YNull else ret YNull)
      (fun _ => true)
      (fun _ =>
         log "exception" "get_host_address";;
         log "error" "Exception occured while fetching host address";;
         ret YNull) w =
    (Ok match fst (get_yaml_config w) with
        | Ok cfg => configured_host cfg
        | Raise _ => YNull
        end, w1).
Proof.
  unfold try_except. unfold bind at 1.
  destruct (get_yaml_config w) as [[cfg|ex] w0]; cbn [fst].
  2:{ unfold log, emit. run. eexists. reflexivity. }
  unfold configured_host, yaml_get, log, emit.
  destruct cfg as [| | | |kvs]; run; try (eexists; reflexivity).
  destruct (assoc "server" kvs) as [server|]; cbn;
    [|eexists; reflexivity].
  destruct server as [|b|z|s|skvs]; run; try (eexists; reflexivity).
  - destruct b; run; eexists; reflexivity.
  - destruct (negb (z =? 0)); run; eexists; reflexivity.
  - destruct (negb (s =? "")%string); run; eexists; reflexivity.
  - destruct skvs; run; eexists; reflexivity.
Qed.

(** X10.  [get_host_address] never raises.  With nothing kept yet, the
    answer is [server.host] of the configuration when that could be fetched
    (and [None] when there is no such entry), and [None] whenever fetching
    the configuration failed.  The answer, [None] included, is kept, and the
    next access returns it without doing anything. *)
Theorem get_host_address_never_raises (w : World) :
  exists y w1,
    get_host_address w = (Ok y, w1) /\
    c_get_host_address (appliance w1) = Some y /\
    get_host_address w1 = (Ok y, w1) /\
    match c_get_host_address (appliance w) with
    | Some kept => y = kept /\ w1 = w
    | None =>
        y = match fst (get_yaml_config w) with
            | Ok cfg => configured_host cfg
            | Raise _ => YNull
            end
    end.
Proof.
  assert (Hhit : forall w0 y, c_get_host_address (appliance w0) = Some y ->
                   get_host_address w0 = (Ok y, w0)).
  { intros w0 y H. unfold get_host_address, cached_property, self, bind, gets, ret.
    rewrite H. reflexivity. }
  destruct (c_get_host_address (appliance w)) as [y|] eqn:Hslot.
  { exists y, w. auto. }
  destruct (host_address_of_fetch w) as (w0 & Hfetch).
  unfold get_host_address, cached_property, self.
  unfold bind at 1. unfold gets at 1. rewrite Hslot.
  unfold bind at 1. rewrite Hfetch.
  eexists _, _. split; [reflexivity|]. split; [reflexivity|].
  split; [|reflexivity]. apply Hhit. reflexivity.
Qed.

(** X11.  [ssh_client] makes the client once.  A client that is kept is
    returned by every access, which does nothing else.  With none kept, the
    access checks the SSH port: when it is closed the access raises
    ['SSH is unavailable'] after that one check and keeps nothing, so the
    next access tries again; when it is open the access returns a client and
    keeps it. *)
Theorem ssh_client_is_made_once (w : World) :
  match c_ssh_client (appliance w) with
  | Some c => ssh_client w = (Ok c, w)
  | None =>
      if net_check_answer (env w) (trace w) (hostname (appliance w)) then
        exists c w1,
          ssh_client w = (Ok c, w1) /\
          c_ssh_client (appliance w1) = Some c /\
          ssh_client w1 = (Ok c, w1)
      else
        ssh_client w =
        (Raise (Exception "SSH is unavailable"),
         set_trace (trace w ++ [EvNetCheck (hostname (appliance w)) false]) w)
  end.
Proof.
  destruct (c_ssh_client (appliance w)) as [c|] eqn:Hslot.
  { apply ssh_client_cached. exact Hslot. }
  destruct w as [e t n a]. destruct a. cbn in Hslot. subst.
  unfold ssh_client, cached_property, is_ssh_running, net_check,
    SSHClient_connect, ssh_client_with_privatekey, log, emit, ask, self, setattr.
  run.
  destruct (net_check_answer e t _) eqn:Hup; run; [|reflexivity].
  repeat run_step; eexists _, _; repeat split.
Qed.

(** ** Enabling the database, again *)

(** Decides whether a command is the one that sets up the internal
    database. *)
Ltac decide_internal H :=
  match type of H with
  | is_internal_db_command ?c = true =>
      let v := eval lazy in (is_internal_db_command c) in
      change (is_internal_db_command c) with v in H
  end.

(** X12.  [enable_internal_db] reports the outcome of the command that sets up
    the database by returning its status and output: a non-zero status is
    returned, not raised.  It raises only when there is no SSH, and then
    before any command was run. *)
Theorem enable_internal_db_returns_status
    (region : Z) (key_address db_password ssh_password : option string) (w : World) :
  match enable_internal_db region key_address db_password ssh_password w with
  | (r, w') =>
      exists d,
        trace w' = trace w ++ d /\
        (forall cmd res,
            In (cmd, res) (commands_run d) -> is_internal_db_command cmd = true ->
            r = Ok (rc res, output res)) /\
        match r with
        | Ok _ =>
            exists cmd res,
              In (cmd, res) (commands_run d) /\ is_internal_db_command cmd = true
        | Raise e => e = Exception "SSH is unavailable" /\ commands_run d = []
        end
  end.
Proof.
  destruct w as [e t n a].
  unfold enable_internal_db, clear_property_cache_db, log_callback, log, emit, ask,
    self, setattr.
  run.
  open_ssh_client client d0 Hd0.
  2:{ cbn. eexists. split; [rewrite <- !app_assoc; reflexivity|].
      rewrite !commands_run_app, Hd0. cbn. split; [intros ? ? []|]. auto. }
  unfold has_cli, run_command, gen_alphanumeric, get_file, put_file, emit, ask.
  run.
  rewrite (ssh_client_cached _ client) by reflexivity.
  run. name_answers.
  repeat (run_step; name_answers).
  all: eexists; (split; [rewrite <- !app_assoc; reflexivity|]).
  all: rewrite !commands_run_app, Hd0.
  all: cbn [app commands_run flat_map fst snd].
  all: split;
    [ intros cmd res' Hin Hsel; cbn [In] in Hin;
      repeat (destruct Hin as [Hin|Hin]; [injection Hin as <- <-|]);
      try contradiction; try reflexivity;
      decide_internal Hsel; discriminate
    | eexists _, _; split;
      [ cbn [In]; first [ right; left; reflexivity | right; right; left; reflexivity ]
      | reflexivity ] ].
Qed.

(** Settles whether a command run is the [ruby] call on the script of the
    given name. *)
Ltac script_name H :=
  injection H as H _; lazy in H;
  first [ discriminate H | subst ].

(** X13.  A script generated for [ruby] by [enable_internal_db] or
    [enable_external_db] is removed again by the last command the call runs,
    also when the script failed and [enable_external_db] raises. *)
Theorem enable_db_removes_generated_script
    (db_addr : string) (region : Z)
    (key_address db_name db_username db_password ssh_password : option string)
    (w : World) :
  generated_script_removed
    (commands_run
       (drop (length (trace w))
          (trace (snd (enable_internal_db region key_address db_password ssh_password
                         w))))) /\
  generated_script_removed
    (commands_run
       (drop (length (trace w))
          (trace (snd (enable_external_db db_addr region db_name db_username
                         db_password w))))).
Proof.
  destruct w as [e t n a]. split.
  - unfold enable_internal_db, clear_property_cache_db, log_callback, log, emit, ask,
      self, setattr.
    run.
    open_ssh_client client d0 Hd0.
    2:{ cbn. rewrite <- !app_assoc, drop_app_length, !commands_run_app, Hd0.
        intros name res []. }
    unfold has_cli, run_command, gen_alphanumeric, get_file, put_file, emit, ask.
    run.
    rewrite (ssh_client_cached _ client) by reflexivity.
    run. name_answers.
    repeat (run_step; name_answers).
    all: rewrite <- !app_assoc, drop_app_length, !commands_run_app, Hd0.
    all: cbn [app commands_run flat_map fst snd].
    all: intros name res' Hin; cbn [In] in Hin.
    all: repeat (destruct Hin as [Hin|Hin]; [script_name Hin|]); try contradiction.
    all: eexists; reflexivity.
  - unfold enable_external_db, clear_property_cache_db, log_callback, log, emit, ask,
      self, setattr.
    run.
    open_ssh_client client d0 Hd0.
    2:{ cbn. rewrite <- !app_assoc, drop_app_length, !commands_run_app, Hd0.
        intros name res []. }
    unfold has_cli, run_command, gen_alphanumeric, get_file, put_file, emit, ask.
    run.
    rewrite (ssh_client_cached _ client) by reflexivity.
    run. name_answers.
    repeat (run_step; name_answers).
    all: rewrite <- !app_assoc, drop_app_length, !commands_run_app, Hd0.
    all: cbn [app commands_run flat_map fst snd].
    all: intros name res' Hin; cbn [In] in Hin.
    all: repeat (destruct Hin as [Hin|Hin]; [script_name Hin|]); try contradiction.
    all: eexists; reflexivity.
Qed.

(** ** The database client and the server rows *)

(** [enable_external_db] leaves the address of the appliance and the client
    kept for the database host alone. *)
Lemma enable_external_db_frame
    (db_addr : string) (region : Z) (db_name db_username db_password : option string)
    (w : World) :
  match enable_external_db db_addr region db_name db_username db_password w with
  | (r, w') =>
      address (appliance w') = address (appliance w) /\
      _db_ssh_client (appliance w') = _db_ssh_client (appliance w) /\
      c_db_address (appliance w') = Some db_addr
  end.
Proof.
  destruct w as [e t n a].
  unfold enable_external_db, clear_property_cache_db, log_callback, log, emit, ask,
    self, setattr.
  run.
  open_ssh_client client d0 Hd0.
  2:{ cbn. auto. }
  unfold has_cli, run_command, gen_alphanumeric, get_file, put_file, emit, ask.
  run.
  rewrite (ssh_client_cached _ client) by reflexivity.
  run. name_answers.
  repeat (run_step; name_answers).
  all: repeat split.
Qed.

(** X14.  The client for a database on another host is made once and then kept:
    after [enable_external_db] has moved the database to yet another host,
    [db_ssh_client] still returns the client made earlier, and [db_online]
    runs its query on that client's host. *)
Theorem db_client_outlives_address_change
    (db_addr : string) (region : Z) (db_name db_username db_password : option string)
    (w : World) (c0 : SshClient) :
  _db_ssh_client (appliance w) = Some c0 ->
  String.eqb db_addr (address (appliance w)) = false ->
  let w1 := snd (enable_external_db db_addr region db_name db_username db_password w) in
  c_db_address (appliance w1) = Some db_addr /\
  db_ssh_client w1 = (Ok c0, w1) /\
  exists res,
    db_online w1 =
    (Ok (rc res =? 0),
     set_trace (trace w1 ++ [EvRun (client_hostname c0) db_online_command res]) w1).
Proof.
  intros Hkept Hremote w1.
  pose proof (enable_external_db_frame db_addr region db_name db_username db_password w)
    as H.
  subst w1. destruct (enable_external_db _ _ _ _ _ w) as [r w1].
  destruct H as (Haddr & Hclient & Hdb). cbn [snd].
  rewrite Hkept in Hclient. rewrite <- Haddr in Hremote.
  assert (Hc : db_ssh_client w1 = (Ok c0, w1)).
  { unfold db_ssh_client, is_db_internal, db_address, cached_property, self, bind,
      gets, ret.
    rewrite Hdb. cbn. rewrite Hremote, Hclient. reflexivity. }
  split; [exact Hdb|]. split; [exact Hc|].
  unfold db_online. rewrite (bind_Ok _ _ _ _ _ Hc).
  unfold run_command, emit, ask, bind, gets, modify, ret.
  eexists. reflexivity.
Qed.

Lemma db_client_outlives_address_change_witness :
  let w1 := snd (enable_external_db "10.0.0.8" 0 None None None external_db_world) in
  c_db_address (appliance w1) = Some "10.0.0.8" /\
  db_ssh_client w1 =
    (Ok {| client_hostname := "10.0.0.7"; client_is_pod := false;
           client_private_key := false |}, w1) /\
  exists res,
    db_online w1 =
    (Ok (rc res =? 0),
     set_trace (trace w1 ++ [EvRun "10.0.0.7" db_online_command res]) w1).
Proof.
  apply (db_client_outlives_address_change "10.0.0.8" 0 None None None external_db_world
           {| client_hostname := "10.0.0.7"; client_is_pod := false;
              client_private_key := false |}); reflexivity.
Defined.

(** X15.  A missing [miq_servers] table is remembered: [server_id] answers [None]
    instead of raising, the cached details become [None], and from then on
    [server_id], [server_name], [server_region] and [server_zone_id] answer
    [None] without looking at the store again, whatever it holds by then. *)
Theorem missing_servers_table_is_remembered (w : World) (h : DbHandle) :
  c_configuration_details (appliance w) = None ->
  c_db (appliance w) = Some h ->
  miq_servers_table (database (env w) (trace w) (db_hostname h)) = None ->
  fst (server_id w) = Ok None /\
  c_configuration_details (appliance (snd (server_id w))) = Some None /\
  forall w2,
    appliance w2 = appliance (snd (server_id w)) ->
    server_id w2 = (Ok None, w2) /\ server_name w2 = (Ok None, w2) /\
    server_region w2 = (Ok None, w2) /\ server_zone_id w2 = (Ok None, w2).
Proof.
  intros Hcd Hdb Hmiss.
  destruct w as [e t n a]. destruct a. cbn in Hcd, Hdb, Hmiss. subst.
  unfold server_id, configuration_details, cached_property, db, db_getitem, emit, ask,
    self, setattr.
  run. rewrite Hmiss. run.
  split; [reflexivity|]. split; [reflexivity|].
  intros [e2 t2 n2 a2] Ha. cbn in Ha. subst a2.
  unfold server_id, server_name, server_region, server_zone_id, configuration_details,
    cached_property, self.
  run. auto.
Qed.

Lemma missing_servers_table_is_remembered_witness :
  fst (server_id unmigrated_world) = Ok None /\
  c_configuration_details (appliance (snd (server_id unmigrated_world))) = Some None.
Proof.
  destruct (missing_servers_table_is_remembered unmigrated_world
              {| db_hostname := "10.0.0.1"; db_oid := 0 |} eq_refl eq_refl eq_refl)
    as (H1 & H2 & _).
  split; [exact H1 | exact H2].
Defined.

(** X16.  [evm_id] is the id of the first row of [miq_servers] that carries the
    GUID of the appliance, and it is kept; when no row does, the access
    raises [IndexError] and nothing is kept. *)
Theorem evm_id_is_first_row_with_guid (w : World) (h : DbHandle) (g : string)
    (rows : list MiqServer) :
  c_evm_id (appliance w) = None ->
  c_db (appliance w) = Some h ->
  c_guid (appliance w) = Some g ->
  (forall t, miq_servers_table (database (env w) t (db_hostname h)) = Some rows) ->
  match List.filter (fun s => String.eqb (srv_guid s) g) rows with
  | s :: _ =>
      fst (evm_id w) = Ok (srv_id s) /\
      c_evm_id (appliance (snd (evm_id w))) = Some (srv_id s)
  | [] =>
      fst (evm_id w) = Raise (IndexError "list index out of range") /\
      c_evm_id (appliance (snd (evm_id w))) = None
  end.
Proof.
  intros Hid Hdb Hg Hrows.
  destruct w as [e t n a]. destruct a. cbn in Hid, Hdb, Hg, Hrows. subst.
  unfold evm_id, guid, cached_property, db, db_getitem, db_query, db_snapshot, emit,
    ask, self, setattr.
  run. rewrite !Hrows. run. rewrite !Hrows. run.
  destruct (List.filter _ rows) as [|s l]; run; auto.
Qed.

Lemma evm_id_is_first_row_with_guid_witness :
  fst (evm_id two_servers_world) = Ok 8 /\
  c_evm_id (appliance (snd (evm_id two_servers_world))) = Some 8.
Proof.
  apply (evm_id_is_first_row_with_guid two_servers_world
           {| db_hostname := "10.0.0.1"; db_oid := 0 |} "5d9a6e5c"
           [ {| srv_id := 7; srv_name := "EVM"; srv_ipaddress := "192.168.5.9";
                srv_guid := "0b1c2d3e"; srv_zone_id := 1 |};
             {| srv_id := 8; srv_name := "EVM-2"; srv_ipaddress := "10.0.0.1";
                srv_guid := "5d9a6e5c"; srv_zone_id := 1 |} ]);
    reflexivity.
Defined.

(** ** The database address *)

Lemma under_wait_for {A} (I : App -> Prop) (ok : Event -> bool) (func : Act A)
    (accept : A -> bool) (delay num_sec : Z) (message : string) :
  ok (EvSleep delay) = true -> emits_under I ok func ->
  emits_under I ok (wait_for func accept delay num_sec message).
Proof.
  intros Hs Hf. unfold wait_for.
  induction (Datatypes.S (Z.to_nat (num_sec / delay))) as [|n IH]; cbn.
  - apply under_raise.
  - apply under_bind; [exact Hf|]. intros v.
    destruct (accept v); [apply under_ret|].
    apply under_bind; [apply under_emit; exact Hs|]. intros _. exact IH.
Qed.

Ltac keeps_attributes := cbn; intros; assumption.

(** Waiting for the host address neither settles the database address nor
    changes the address of the appliance. *)
Lemma wait_for_host_address_frame (addr : string) :
  emits_under (fun a => c_db_address a = None /\ address a = addr) (fun _ => true)
    wait_for_host_address.
Proof.
  unfold wait_for_host_address.
  apply under_try_except.
  - apply under_bind.
    + apply under_wait_for; [reflexivity|]. under_walk keeps_attributes.
    + intros _. under_walk keeps_attributes.
  - intros _. under_walk keeps_attributes.
Qed.

Lemma db_address_from_appliance_outcome (w : World) :
  c_db_address (appliance w) = None ->
  match db_address_from_appliance w with
  | (Ok a, w1) =>
      c_db_address (appliance w1) = None /\
      (a = address (appliance w) \/
       (startswith a "127" = false /\ str_contains "localhost" a = false /\
        exists earlier host ip,
          trace w1 = trace w ++ earlier ++ [EvRun host "ip address show" ip] /\
          str_contains a (output ip) = false))
  | (Raise e, w1) => c_db_address (appliance w1) = None
  end.
Proof.
  intros Hslot.
  unfold db_address_from_appliance, try_except. unfold bind at 1.
  pose proof (wait_for_host_address_frame (address (appliance w)) w) as Hwait.
  destruct (wait_for_host_address w) as [[y|ex] w1].
  - destruct (Hwait _ _ (conj Hslot eq_refl) eq_refl) as ((H1 & Haddr) & d1 & Ht1 & _).
    clear Hwait.
    destruct y as [| | |s|].
    1-3,5: cbn; try destruct (is_KeyError _); cbn; auto.
    unfold bind at 1.
    destruct (ssh_client_cases w1) as (r0 & w2 & d0 & Hc & He & Hn & Ht & Hd0 & Hr).
    rewrite Hc.
    destruct r0 as [client|ex].
    + destruct Hr as (pod & Ha).
      unfold run_command, emit, ask, self. run.
      destruct (str_contains (strip s) _ || startswith (strip s) "127" ||
                str_contains "localhost" (strip s)) eqn:Elocal; cbn.
      * rewrite Ha. cbn. auto.
      * rewrite Ha. cbn. split; [exact H1|]. right.
        apply orb_false_elim in Elocal as [Elocal Hlh].
        apply orb_false_elim in Elocal as [Hip H127].
        split; [exact H127|]. split; [exact Hlh|].
        eexists (d1 ++ d0), _, _. split; [|exact Hip].
        rewrite Ht, Ht1, <- !app_assoc. reflexivity.
    + destruct Hr as (-> & Ha). cbn. rewrite Ha. exact H1.
  - destruct (Hwait _ _ (conj Hslot eq_refl) eq_refl) as ((H1 & Haddr) & _).
    clear Hwait.
    destruct (is_KeyError ex); [|exact H1].
    unfold log, emit, self. run. auto.
Qed.


(** ** Clock fixing, the first checks *)

(** X18.  [fix_ntp_clock] first asks whether chrony is installed: when
    [yum list installed chrony] ends with a non-zero status the call raises
    ['Chrony isn't installed'] and runs nothing else.  After that,
    [systemctl enable chronyd] and [systemctl daemon-reload] are run exactly
    when [systemctl is-enabled chronyd] ended with a non-zero status. *)
Theorem fix_ntp_clock_requires_chrony (w : World) :
  match fix_ntp_clock w with
  | (r, w') =>
      exists d,
        trace w' = trace w ++ d /\
        (commands_run d = [] /\ r = Raise (Exception "SSH is unavailable") \/
         exists res,
           head (commands_run d) = Some ("yum list installed chrony", res) /\
           if rc res =? 0 then
             was_run "systemctl enable chronyd" d =
               ran_with "systemctl is-enabled chronyd" (fun c => negb (rc c =? 0)) d /\
             was_run "systemctl daemon-reload" d =
               ran_with "systemctl is-enabled chronyd" (fun c => negb (rc c =? 0)) d
           else
             commands_run d = [("yum list installed chrony", res)] /\
             r = Raise (ApplianceException "Chrony isn't installed"))
  end.
Proof.
  unfold fix_ntp_clock.
  rewrite (bind_Ok _ _ w (set_trace (trace w ++ [EvLog "info" "Fix NTP Clock: Fixing appliance clock"]) w) tt) by reflexivity.
  match goal with |- context [bind ssh_client _ ?w0] =>
    destruct (ssh_client_cases w0) as (r0 & w1 & d0 & Hc & He & Hn & Ht & Hd0 & Hr)
  end.
  destruct r0 as [client|ex].
  2:{ rewrite (bind_Raise _ _ _ _ _ Hc). destruct Hr as (-> & _).
      exists ([EvLog "info" "Fix NTP Clock: Fixing appliance clock"] ++ d0).
      cbn in Ht. rewrite Ht, <- app_assoc.
      rewrite !commands_run_app, Hd0. cbn. auto. }
  rewrite (bind_Ok _ _ _ _ _ Hc).
  destruct Hr as (pod & Ha).
  destruct w as [e t n a]. destruct w1 as [e1 t1 n1 a1].
  cbn in He, Hn, Ht, Ha. subst e1 n1 t1 a1. cbn [env].
  unfold run_command, log, emit, ask.
  run. name_answers.
  repeat (run_step; name_answers).
  all: eexists; (split; [rewrite <- !app_assoc; reflexivity|]).
  all: right; eexists.
  all: unfold was_run, ran_with; rewrite !commands_run_app, Hd0.
  all: cbn [app commands_run flat_map existsb fst snd head].
  all: (split; [reflexivity|]).
  all: match goal with
       | H : negb (rc ?x =? 0) = true |- if rc ?x =? 0 then _ else _ =>
           rewrite (proj1 (negb_true_iff _) H)
       | H : negb (rc ?x =? 0) = false |- if rc ?x =? 0 then _ else _ =>
           rewrite (proj1 (negb_false_iff _) H)
       end.
  all: try (split; reflexivity).
  all: decide_strings; use_answers; cbn [orb andb negb]; split; reflexivity.
Qed.

(** ** The roles of the store *)

Lemma roles_dict_lookup (all active : gset string) (name : string) :
  roles_dict all active !! name =
  if bool_decide (name ∈ all) then Some (bool_decide (name ∈ active)) else None.
Proof.
  unfold roles_dict.
  assert (Hinj : forall y y' : string, y ∈ all -> y' ∈ all ->
            (y, bool_decide (y ∈ active)).1 = (y', bool_decide (y' ∈ active)).1 ->
            y = y') by (intros y y' _ _ H; exact H).
  destruct (bool_decide (name ∈ all)) eqn:Hin.
  - apply bool_decide_eq_true in Hin.
    apply (lookup_set_to_map (fun n => (n, bool_decide (n ∈ active))) all name _ Hinj).
    exists name. auto.
  - apply bool_decide_eq_false in Hin.
    destruct (set_to_map _ all !! name) as [b|] eqn:E; [|reflexivity].
    apply (lookup_set_to_map (fun n => (n, bool_decide (n ∈ active))) all name _ Hinj)
      in E as (y & Hy & Heq).
    injection Heq as -> _. contradiction.
Qed.

Lemma active_role_names_In (srs : list ServerRole) (asrs : list AssignedServerRole)
    (server : Z) (name : string) :
  In name (active_role_names srs asrs server) <->
  exists sr a,
    In sr srs /\ In a asrs /\ sr_name sr = name /\
    asr_server_role_id a = sr_id sr /\ asr_miq_server_id a = server /\
    asr_active a = true.
Proof.
  unfold active_role_names. rewrite in_flat_map. split.
  - intros (sr & Hsr & Hin). apply in_map_iff in Hin as (a & Hname & Ha).
    apply filter_In in Ha as (Ha & Hsel).
    apply andb_true_iff in Hsel as (Hsel & Hact).
    apply andb_true_iff in Hsel as (Hrole & Hsrv).
    apply Z.eqb_eq in Hrole, Hsrv. exists sr, a. auto 10.
  - intros (sr & a & Hsr & Ha & Hname & Hrole & Hsrv & Hact).
    exists sr. split; [exact Hsr|]. apply in_map_iff. exists a. split; [exact Hname|].
    apply filter_In. split; [exact Ha|].
    rewrite Hrole, Hsrv, Hact, !Z.eqb_refl. reflexivity.
Qed.

Arguments roles_dict : simpl never.
Arguments active_role_names : simpl never.

(** X19.  The mapping the roles getter starts from is the join the query
    describes: its keys are the role names of [server_roles], and a name is
    mapped to [True] exactly when some role of that name has an active
    assignment to this server in [assigned_server_roles].  A store without
    one of the two tables makes the getter raise [KeyError]. *)
Theorem all_server_roles_is_the_join (w : World) (h : DbHandle) (server : Z)
    (store : Database) :
  c_db (appliance w) = Some h ->
  c_evm_id (appliance w) = Some server ->
  (forall t, database (env w) t (db_hostname h) = store) ->
  match assigned_server_roles_table store, server_roles_table store with
  | Some asrs, Some srs =>
      exists roles,
        fst (all_server_roles w) = Ok roles /\
        forall name,
          (is_Some (roles !! name) <-> exists sr, In sr srs /\ sr_name sr = name) /\
          (roles !! name = Some true <->
           exists sr a,
             In sr srs /\ In a asrs /\ sr_name sr = name /\
             asr_server_role_id a = sr_id sr /\ asr_miq_server_id a = server /\
             asr_active a = true)
  | None, _ => fst (all_server_roles w) = Raise (KeyError "assigned_server_roles")
  | Some _, None => fst (all_server_roles w) = Raise (KeyError "server_roles")
  end.
Proof.
  intros Hdb Hid Hstore.
  destruct w as [e t n a]. destruct a. cbn in Hdb, Hid, Hstore. subst.
  unfold all_server_roles, evm_id, cached_property, db, db_getitem, db_query,
    db_snapshot, emit, ask, self, setattr.
  run. rewrite !Hstore.
  destruct (assigned_server_roles_table store) as [asrs|] eqn:Hasr; run;
    [|reflexivity].
  rewrite !Hstore.
  destruct (server_roles_table store) as [srs|] eqn:Hsr; run; [|reflexivity].
  rewrite !Hstore, ?Hsr, ?Hasr. run. rewrite ?Hstore, ?Hsr, ?Hasr. run.
  eexists. split; [reflexivity|]. intros name.
  rewrite roles_dict_lookup.
  assert (Hnames : name ∈ (list_to_set (map sr_name srs) : gset string) <->
                   exists sr, In sr srs /\ sr_name sr = name).
  { rewrite elem_of_list_to_set, list_elem_of_In, in_map_iff.
    split; intros (sr & H1 & H2); exists sr; auto. }
  assert (Hactive :
    name ∈ (list_to_set (active_role_names srs asrs server) : gset string) <->
    exists sr a,
      In sr srs /\ In a asrs /\ sr_name sr = name /\
      asr_server_role_id a = sr_id sr /\ asr_miq_server_id a = server /\
      asr_active a = true).
  { rewrite elem_of_list_to_set, list_elem_of_In. apply active_role_names_In. }
  split.
  - rewrite <- Hnames. destruct (bool_decide (name ∈ _)) eqn:E.
    + apply bool_decide_eq_true in E. split; [auto|]. intros _. eauto.
    + apply bool_decide_eq_false in E. split; [intros [? ?]; discriminate|].
      contradiction.
  - rewrite <- Hactive. destruct (bool_decide (name ∈ list_to_set (map _ _))) eqn:E.
    + split.
      * intros H. injection H as H. apply bool_decide_eq_true in H. exact H.
      * intros H. rewrite bool_decide_eq_true_2 by exact H. reflexivity.
    + apply bool_decide_eq_false in E. split; [discriminate|].
      intros H. exfalso. apply E, Hnames.
      apply Hactive in H as (sr & _ & Hsr' & _ & Hname & _). eauto.
Qed.

Lemma all_server_roles_is_the_join_witness :
  exists roles,
    fst (all_server_roles prepared_roles_world) = Ok roles /\
    roles !! "ems_inventory" = Some true.
Proof.
  pose proof (all_server_roles_is_the_join prepared_roles_world
                {| db_hostname := "10.0.0.1"; db_oid := 0 |} 7 roles_store
                eq_refl eq_refl (fun _ => eq_refl)) as (roles & Hrun & Hjoin).
  exists roles. split; [exact Hrun|].
  apply (Hjoin "ems_inventory").
  exists {| sr_id := 1; sr_name := "ems_inventory" |},
         {| asr_server_role_id := 1; asr_miq_server_id := 7; asr_active := true |}.
  cbn. auto 10.
Defined.
